(** * skillFit: the internship matching engine

    A shallow embedding of the two recommendation back ends of the
    repository, [backend/backends.py] and [backend/backends_bulletproof.py],
    followed by the properties of the scorer, the location bucketer and the
    deduplicator.

    Modelling conventions.
    - Python floats are idealised as exact rationals ([Q]); [round(x, 3)] is
      round-half-to-even on the exact value. Where the exact value lies
      half-way between two thousandths the float may round to the other
      one; nothing below depends on which.
    - A data-frame is the list of its rows, in index order. In a listing
      the columns company, internship_title and location hold text; the
      field and the skills of a row may hold anything the file or the
      loader left there. The frame that the start-up code of
      backends_bulletproof.py builds is kept apart ([frame_row]): there
      every text column may hold NaN, as it does when the data file lacks
      the column.
    - The functions of pandas, numpy, fuzzywuzzy and the str methods whose
      code is not part of the repository are fields of the class [PyLib];
      what their documentation promises is [PandasContract] and
      [SampleContract], what they do with rows of equal score is
      [TieContract]. The module [Numpy] is an instance that sorts as
      numpy's default quicksort does. *)

From Stdlib Require Import Ascii String QArith Qround Qminmax Lqa.
From stdpp Require Import gmap strings list sorting pretty.

Local Open Scope Z_scope.

(** ** Numbers *)

Fixpoint pow10 (n : nat) : positive :=
  match n with
  | O => 1%positive
  | S n' => (10 * pow10 n')%positive
  end.

(** Nearest integer, ties to the even one: what Python's [round] does. *)
Definition round_half_even (q : Q) : Z :=
  let f := Qfloor q in
  match (q - inject_Z f ?= 1 # 2)%Q with
  | Lt => f
  | Gt => f + 1
  | Eq => if Z.even f then f else f + 1
  end.

(** [round(x, ndigits)] *)
Definition py_round (x : Q) (ndigits : nat) : Q :=
  round_half_even (x * inject_Z (Zpos (pow10 ndigits))) # pow10 ndigits.

(** [a / b] on two ints *)
Definition py_truediv (a b : Z) : Q := (inject_Z a / inject_Z b)%Q.

(** ** Strings *)

Definition str_truthy (s : string) : bool := bool_decide (s ≠ "").

(** [list(s)]: the characters of a str, each as a str of length one *)
Fixpoint chars (s : string) : list string :=
  match s with
  | EmptyString => []
  | String c s' => String c EmptyString :: chars s'
  end.

(** [s.split(sep)] for a separator of one character *)
Fixpoint split_go (sep : ascii) (cur : string) (s : string) : list string :=
  match s with
  | EmptyString => [String.rev cur]
  | String c s' =>
      if bool_decide (c = sep) then String.rev cur :: split_go sep EmptyString s'
      else split_go sep (String c cur) s'
  end.

Definition str_split (sep : ascii) (s : string) : list string :=
  split_go sep EmptyString s.

(** [sep.join(l)] *)
Fixpoint str_join (sep : string) (l : list string) : string :=
  match l with
  | [] => ""
  | [x] => x
  | x :: l' => x +:+ sep +:+ str_join sep l'
  end.

(** [s.replace(a, b)] for single characters *)
Fixpoint str_replace (a b : ascii) (s : string) : string :=
  match s with
  | EmptyString => EmptyString
  | String c s' => String (if bool_decide (c = a) then b else c) (str_replace a b s')
  end.

(** ** Exceptions *)

Inductive exn :=
| AttributeError | TypeError | ValueError | ReError
| FileNotFoundError | ParserError.

Inductive result (A : Type) :=
| Ok (a : A)
| Raise (e : exn).
Arguments Ok {A} a.
Arguments Raise {A} e.

Global Instance result_ret : MRet result := λ A, Ok.
Global Instance result_bind : MBind result := λ A B f m,
  match m with
  | Ok a => f a
  | Raise e => Raise e
  end.
Global Instance result_fmap : FMap result := λ A B f m,
  match m with
  | Ok a => Ok (f a)
  | Raise e => Raise e
  end.

(** [try: v = body / except: v = handler] *)
Definition try_except {A} (body : result A) (handler : A) : A :=
  match body with
  | Ok a => a
  | Raise _ => handler
  end.

(** [for x in l: ... f(x) ...] where any iteration may raise *)
Fixpoint result_mapM {A B} (f : A → result B) (l : list A) : result (list B) :=
  match l with
  | [] => Ok []
  | x :: l' => y ← f x; ys ← result_mapM f l'; Ok (y :: ys)
  end.

(** ** The catalog *)

(** What a text column holds in one row. *)
Inductive cell :=
| CStr (s : string)        (* a str *)
| CNull                    (* None, or the float NaN of a missing value *)
| COther (repr : string).  (* another scalar; [repr] is its [str()] *)

(** What the skills column holds in one row. *)
Inductive skills_cell :=
| SkList (l : list string)                  (* a list of str *)
| SkStr (s : string)                        (* a str *)
| SkOther (repr : string) (truthy : bool).  (* anything else, None included *)

Record listing := {
  company : string;
  internship_title : string;
  field : cell;
  location : string;
  skills : skills_cell
}.

(** A row of a frame that has the [match_score] column. *)
Record scored := {
  row : listing;
  match_score : Q
}.

Global Instance cell_eq_dec : EqDecision cell.
Proof. solve_decision. Defined.
Global Instance skills_cell_eq_dec : EqDecision skills_cell.
Proof. solve_decision. Defined.
Global Instance listing_eq_dec : EqDecision listing.
Proof. solve_decision. Defined.

(** A row of [matches_df] as the start-up code leaves it: each text column
    holds a str, or NaN in every row when the data file has no such
    column. *)
Record frame_row := {
  df_company : cell;
  df_internship_title : cell;
  df_field : cell;
  df_location : cell;
  df_skills : skills_cell
}.

Global Instance frame_row_eq_dec : EqDecision frame_row.
Proof. solve_decision. Defined.

(** A listing as a row of the frame *)
Definition listing_row (r : listing) : frame_row :=
  {| df_company := CStr (company r);
     df_internship_title := CStr (internship_title r);
     df_field := field r;
     df_location := CStr (location r);
     df_skills := skills r |}.

(** The row of the frame as a listing, when its three identity columns
    hold text *)
Definition row_listing (r : frame_row) : option listing :=
  match df_company r, df_internship_title r, df_location r with
  | CStr c, CStr t, CStr l =>
      Some {| company := c; internship_title := t; field := df_field r;
              location := l; skills := df_skills r |}
  | _, _, _ => None
  end.

(** The listings among the rows of a frame *)
Definition listings (df : list frame_row) : list listing := omap row_listing df.

(** The identity key [(company, internship_title, location)] *)
Definition key : Type := string * string * string.

Definition key_of (r : listing) : key :=
  (company r, internship_title r, location r).

(** Descending order of [match_score] *)
Definition by_score_desc (a b : scored) : Prop :=
  (match_score b <= match_score a)%Q.

(** ** The request *)

Record RecommendationRequest := {
  name : string;
  course : option string;
  req_skills : list string;
  req_locations : list string;
  req_field : string;
  top_n : Z
}.

(** ** Library functions *)

Class PyLib := {
  (** [str.lower] and [str.strip] *)
  str_lower : string → string;
  str_strip : string → string;
  (** [fuzz.ratio] *)
  fuzz_ratio : string → string → Z;
  (** [Series.str.contains(pat, case=False)]: the pattern is a regular
      expression; [None] when it does not compile, else the search on one
      cell *)
  str_contains : string → option (string → bool);
  (** [DataFrame.sort_values(by="match_score", ascending=False)] *)
  sort_values : list scored → list scored;
  (** [DataFrame.nlargest(n, "match_score")] *)
  nlargest : Z → list scored → list scored;
  (** the state of numpy's global generator and [DataFrame.sample(n)] *)
  RandomState : Type;
  sample : nat → list scored → RandomState → list scored * RandomState
}.

(** What pandas documents about sorting. Its default sort is quicksort,
    which the documentation does not list as stable: nothing is promised
    here about rows of equal score (see [TieContract] for what happens to
    them). *)
Record PandasContract (L : PyLib) : Prop := {
  sort_values_perm : ∀ l, sort_values l ≡ₚ l;
  sort_values_sorted : ∀ l, StronglySorted by_score_desc (sort_values l);
  nlargest_spec : ∀ n l,
    ∃ l', l' ≡ₚ l ∧ StronglySorted by_score_desc l' ∧
          nlargest n l = take (Z.to_nat n) l'
}.
Arguments sort_values_perm {L} _ l.
Arguments sort_values_sorted {L} _ l.
Arguments nlargest_spec {L} _ n l.

(** What is used of the text functions: lower-casing does not empty a
    string, and fuzzywuzzy gives 0 for an empty string against another
    one. *)
Record TextContract (L : PyLib) : Prop := {
  str_lower_nonempty : ∀ s, s ≠ "" → str_lower s ≠ "";
  fuzz_ratio_empty : ∀ s, s ≠ "" → fuzz_ratio "" s < 80
}.

(** What pandas documents about [sample(n)], whose default is to draw
    without replacement: [n] rows of the frame, none of them more often
    than the frame has it. Which rows, and in which order, is left to the
    generator. *)
Record SampleContract (L : PyLib) : Prop := {
  sample_without_replacement : ∀ k l g,
    (k ≤ length l)%nat →
    (sample k l g).1 ⊆+ l ∧ length (sample k l g).1 = k
}.
Arguments sample_without_replacement {L} _ k l g.

(** [DataFrame.head(n)]: the first [n] rows, all but the last [-n] for a
    negative [n] *)
Definition df_head {A} (n : Z) (l : list A) : list A :=
  if bool_decide (0 ≤ n) then take (Z.to_nat n) l
  else take (length l - Z.to_nat (- n)) l.

(** ** The data file *)

(** [str(value)] of a cell *)
Definition cell_str (value : cell) : string :=
  match value with
  | CStr s => s
  | CNull => "nan"
  | COther repr => repr
  end.

(** A row as [pd.read_csv] delivers it. *)
Record raw_row := {
  raw_company : cell;
  raw_internship_title : cell;
  raw_field : cell;
  raw_location : cell;
  raw_skills : cell
}.

(** The frame read from a file. The file may lack any of the five columns
    (the names are the ones the start-up code gets by stripping and
    lower-casing the header, taken to be pairwise distinct); the cell of a
    row in a column that the file does not have is not looked at. *)
Record raw_frame := {
  raw_rows : list raw_row;
  has_company_column : bool;
  has_internship_title_column : bool;
  has_field_column : bool;
  has_location_column : bool;
  has_skills_column : bool
}.

(** A file on disk: one that pandas cannot parse, or a table. *)
Inductive csv_file :=
| Unreadable
| Table (df : raw_frame).

(** The files the process can see, by path. *)
Definition filesystem : Type := string → option csv_file.

(** [Path(p).exists()] *)
Definition path_exists (fs : filesystem) (p : string) : bool :=
  bool_decide (is_Some (fs p)).

(** [pd.read_csv(p)] *)
Definition read_csv (fs : filesystem) (p : string) : result raw_frame :=
  match fs p with
  | None => Raise FileNotFoundError
  | Some Unreadable => Raise ParserError
  | Some (Table df) => Ok df
  end.

(** A computation that may raise and that reads and advances the global
    random generator. *)
Definition pyM (S A : Type) : Type := S → result A * S.

Global Instance pyM_ret {S} : MRet (pyM S) := λ A a g, (Ok a, g).
Global Instance pyM_bind {S} : MBind (pyM S) := λ A B f m g,
  match m g with
  | (Ok a, g') => f a g'
  | (Raise e, g') => (Raise e, g')
  end.

Definition lift_result {S A} (r : result A) : pyM S A := λ g, (r, g).

(** ** What both back ends return for one listing *)

Record recommendation := {
  out_company : string;
  out_internship_title : string;
  out_field : cell;
  out_location : string;
  out_skills : skills_cell;
  out_match_score : Q;
  out_apply_link : string
}.

Definition out_key (r : recommendation) : key :=
  (out_company r, out_internship_title r, out_location r).

(** * backends.py *)

Module Backends.

(** The path of the data file, next to the package directory *)
Definition DATA_FILE (package_parent : string) : string :=
  package_parent +:+ "/data/student_internship_matches_stratified (1).csv".

(** [matches_df = pd.read_csv(DATA_FILE)], run when the module is imported *)
Definition load_matches (fs : filesystem) (package_parent : string) : result raw_frame :=
  read_csv fs (DATA_FILE package_parent).

Section engine.
Context {L : PyLib}.

(** The frame loaded at import time. *)
Variable matches_df : list listing.

(** [row["field"].lower()] *)
Definition field_lower (c : cell) : result string :=
  match c with
  | CStr s => Ok (str_lower s)
  | _ => Raise AttributeError
  end.

(** [set(row["skills"])] *)
Definition py_set (c : skills_cell) : result (gset string) :=
  match c with
  | SkList l => Ok (list_to_set l)
  | SkStr s => Ok (list_to_set (chars s))
  | SkOther _ _ => Raise TypeError
  end.

(** [if student_skills: ... score += ...]: Skills match (weight 0.6) *)
Definition skills_match (student_skills : list string) (row : listing) (score : Q)
    : result Q :=
  if bool_decide (student_skills ≠ []) then
    row_skills ← py_set (skills row);
    let match_count := size (list_to_set student_skills ∩ row_skills) in
    Ok (score + py_truediv (Z.of_nat match_count)
                  (Z.max (Z.of_nat (length student_skills)) 1) * 0.6)%Q
  else Ok score.

(** [if student_field: ... score += 0.4]: Field fuzzy match (weight 0.4) *)
Definition field_match (student_field : string) (row : listing) (score : Q)
    : result Q :=
  if str_truthy student_field then
    row_field ← field_lower (field row);
    let similarity := fuzz_ratio row_field student_field in
    if bool_decide (80 ≤ similarity) then Ok (score + 0.4)%Q else Ok score
  else Ok score.

Definition calculate_score (student_skills : list string) (student_field : string)
    (row : listing) : result Q :=
  let score := 0%Q in
  score ← skills_match student_skills row score;
  score ← field_match student_field row score;
  Ok (py_round score 3).

(** [df[df["location"].str.contains(loc, case=False, na=False)]] *)
Definition filter_location (loc : string) (df : list listing) : result (list listing) :=
  match str_contains loc with
  | None => Raise ReError
  | Some found => Ok (filter (λ r, found (location r)) df)
  end.

(** [df_loc["match_score"] = df_loc.apply(calculate_score, axis=1)] *)
Definition apply_score (student_skills : list string) (student_field : string)
    (df_loc : list listing) : result (list scored) :=
  result_mapM
    (λ r, s ← calculate_score student_skills student_field r;
          Ok {| row := r; match_score := s |})
    df_loc.

(** The rows of [df_loc] whose key is not the key of a selected row *)
Definition remaining_rows (df_loc selected : list scored) : list scored :=
  filter (λ r, key_of (row r) ∉ (key_of ∘ row) <$> selected) df_loc.

(** [remaining.sample(n)], drawing from the global generator *)
Definition df_sample (n : nat) (remaining : list scored) : pyM RandomState (list scored) :=
  λ g, let (extra, g') := sample n remaining g in (Ok extra, g').

(** The body of the loop for one location whose bucket is not empty *)
Definition select_location (student_skills : list string) (student_field : string)
    (top_n : Z) (df_loc : list listing) : pyM RandomState (list scored) :=
  df_loc ← lift_result (apply_score student_skills student_field df_loc);
  (* Sort by score *)
  let top_loc := sort_values df_loc in
  (* Pick up to top_n *)
  let selected := df_head top_n top_loc in
  (* If less than top_n, fill randomly *)
  if bool_decide (Z.of_nat (length selected) < top_n) then
    let remaining := remaining_rows df_loc selected in
    if bool_decide (remaining ≠ []) then
      extra ← df_sample (Z.to_nat (Z.min (top_n - Z.of_nat (length selected))
                                         (Z.of_nat (length remaining))))
                        remaining;
      mret (selected ++ extra)
    else mret selected
  else mret selected.

(** [for loc in student_locations: ...], with the accumulator [results] *)
Fixpoint locations_loop (student_skills : list string) (student_field : string)
    (top_n : Z) (student_locations : list string) (results : list scored)
    : pyM RandomState (list scored) :=
  match student_locations with
  | [] => mret results
  | loc :: rest =>
      df_loc ← lift_result (filter_location loc matches_df);
      if bool_decide (df_loc = []) then
        locations_loop student_skills student_field top_n rest results
      else
        selected ← select_location student_skills student_field top_n df_loc;
        locations_loop student_skills student_field top_n rest (results ++ selected)
  end.

(** What the last loop does to a record it keeps *)
Definition finish (r : scored) : recommendation :=
  {| out_company := company (row r);
     out_internship_title := internship_title (row r);
     out_field := field (row r);
     out_location := location (row r);
     out_skills :=
       match skills (row r) with
       | SkList l => SkStr (str_join ", " l)
       | other => other
       end;
     out_match_score := match_score r;
     out_apply_link :=
       "https://company.com/apply/" +:+ str_replace " " "-" (internship_title (row r)) |}.

(** Remove duplicates using company + internship_title + location *)
Fixpoint dedup_loop (results : list scored) (seen_keys : gset key)
    (unique_recs : list recommendation) : list recommendation :=
  match results with
  | [] => unique_recs
  | r :: rest =>
      let k := key_of (row r) in
      if bool_decide (k ∉ seen_keys) then
        dedup_loop rest ({[ k ]} ∪ seen_keys) (unique_recs ++ [finish r])
      else dedup_loop rest seen_keys unique_recs
  end.

(** The query as the engine normalises it *)
Definition student_skills (req : RecommendationRequest) : list string :=
  (λ s, str_strip (str_lower s)) <$> req_skills req.
Definition student_field (req : RecommendationRequest) : string :=
  str_strip (str_lower (req_field req)).
Definition student_locations (req : RecommendationRequest) : list string :=
  (λ l, str_strip (str_lower l)) <$> req_locations req.

(** The accumulator [results] after the loop over the locations *)
Definition accumulate (req : RecommendationRequest) : pyM RandomState (list scored) :=
  locations_loop (student_skills req) (student_field req) (top_n req)
    (student_locations req) [].

Definition get_recommendations (req : RecommendationRequest)
    : pyM RandomState (list recommendation) :=
  results ← accumulate req;
  mret (dedup_loop results ∅ []).

End engine.
End Backends.

(** * backends_bulletproof.py *)

Module Bulletproof.

(** What the endpoint answers *)
Inductive response :=
| Success (recommendations : list recommendation) (total_found : nat)
| Failure.

Section startup.
Context {L : PyLib}.

(** Create mock internship data if real data is unavailable *)
Definition create_mock_data : raw_frame :=
  let companies := ["TechCorp"; "DataSoft"; "WebDev Inc"; "AI Solutions"; "CloudTech"] in
  let fields := ["Software Development"; "Data Science"; "Web Development";
                 "Machine Learning"] in
  let locations := ["New York"; "San Francisco"; "Boston"; "Seattle"; "Remote"] in
  let skills_sets :=
    [ ["python"; "django"; "postgresql"];
      ["javascript"; "react"; "node.js"];
      ["java"; "spring"; "mysql"];
      ["python"; "pandas"; "machine learning"];
      ["html"; "css"; "bootstrap"] ] in
  {| raw_rows :=
       (λ i : nat,
          {| raw_company := CStr (companies !!! (i mod length companies)%nat);
             raw_internship_title := CStr ("Software Intern " +:+ pretty (i + 1)%nat);
             raw_field := CStr (fields !!! (i mod length fields)%nat);
             raw_location := CStr (locations !!! (i mod length locations)%nat);
             raw_skills :=
               CStr (str_join "," (skills_sets !!! (i mod length skills_sets)%nat)) |})
       <$> seq 0 50;
     has_company_column := true;
     has_internship_title_column := true;
     has_field_column := true;
     has_location_column := true;
     has_skills_column := true |}.

(** Load data with comprehensive error handling *)
Definition load_data_safely (fs : filesystem) : raw_frame :=
  try_except
    (let data_path := "../data/student_internship_matches_stratified (1).csv" in
     let data_path :=
       if negb (path_exists fs data_path)
       then "data/student_internship_matches_stratified (1).csv"
       else data_path in
     if path_exists fs data_path then
       df ← read_csv fs data_path;
       Ok df
     else Ok create_mock_data)
    create_mock_data.

(** Safely fill NA values and convert to string (one cell of the series) *)
Definition safe_fillna (c : cell) (default_value : string) : string :=
  try_except
    (Ok (match c with
         | CNull => default_value
         | _ => cell_str c
         end))
    default_value.

(** Safely process skills column (one cell of the series) *)
Definition safe_skills_processing (skill_str : cell) : list string :=
  try_except
    (if bool_decide (skill_str = CNull ∨ skill_str = CStr "nan" ∨ skill_str = CStr "None")
     then Ok []
     else
       Ok ((λ s, str_lower (str_strip s)) <$>
             filter (λ s, str_truthy (str_strip s)) (str_split "," (cell_str skill_str))))
    [].

(** [matches_df["skills"] = values]: pandas refuses a list whose length is
    not the number of rows *)
Definition skills_column (df : raw_frame) : result (list (list string)) :=
  if has_skills_column df then Ok (safe_skills_processing ∘ raw_skills <$> raw_rows df)
  else if bool_decide (raw_rows df = []) then Ok []
  else Raise ValueError.

(** [matches_df[col] = safe_fillna(matches_df.get(col, pd.Series()), default)],
    one cell of the column after the assignment. When the frame has no
    such column, [get] gives the empty series, [safe_fillna] returns it
    empty, and the assignment, which aligns on the index, leaves NaN in
    every row. *)
Definition text_cell (present : bool) (c : cell) (default_value : string) : cell :=
  if present then CStr (safe_fillna c default_value) else CNull.

(** Initialize data: the value of [matches_df] once the module is loaded *)
Definition matches_df_init (fs : filesystem) : list frame_row :=
  try_except
    (let matches_df := load_data_safely fs in
     skills ← skills_column matches_df;
     Ok (zip_with
           (λ r sk,
              {| df_company :=
                   text_cell (has_company_column matches_df) (raw_company r) "Company";
                 df_internship_title :=
                   text_cell (has_internship_title_column matches_df)
                     (raw_internship_title r) "Internship";
                 df_field :=
                   text_cell (has_field_column matches_df) (raw_field r) "General";
                 df_location :=
                   text_cell (has_location_column matches_df) (raw_location r) "Remote";
                 df_skills := SkList sk |})
           (raw_rows matches_df) skills))
    (* Fallback to minimal mock data *)
    [ listing_row
        {| company := "TechCorp";
           internship_title := "Software Intern";
           field := CStr "Software Development";
           location := "Remote";
           skills := SkList ["python"; "javascript"] |} ].

End startup.

Section engine.
Context {L : PyLib}.

(** Safely perform string operations *)
Definition safe_string_operation (value : cell) (operation : string) : string :=
  try_except
    (match value with
     | CNull => Ok ""
     | _ =>
         let str_val := cell_str value in
         if bool_decide (operation = "lower") then Ok (str_lower str_val)
         else if bool_decide (operation = "strip") then Ok (str_strip str_val)
         else Ok str_val
     end)
    "".

(** Safely handle list operations *)
Definition safe_list_operation (lst : skills_cell) : list string :=
  try_except
    (match lst with
     | SkList l => Ok l
     | SkStr s => Ok (if str_truthy s then [s] else [])
     | SkOther repr truthy => Ok (if truthy then [repr] else [])
     end)
    [].

(** The first inner [try] of [calculate_score_safely]: Skills match
    (weight 0.6) *)
Definition skills_match (student_skills : list string) (row : listing) (score : Q) : Q :=
  if bool_decide (student_skills ≠ []) then
    try_except
      (let row_skills :=
         match skills row with
         | SkStr s =>
             (λ s, str_lower (str_strip s)) <$>
               filter (λ s, str_truthy (str_strip s)) (str_split "," s)
         | SkList l => l
         | SkOther _ _ => []
         end in
       let student_skills_clean :=
         (λ s, safe_string_operation (CStr s) "lower") <$> student_skills in
       let row_skills_clean :=
         (λ s, safe_string_operation (CStr s) "lower") <$> row_skills in
       let match_count :=
         size (list_to_set student_skills_clean ∩
               list_to_set row_skills_clean : gset string) in
       if bool_decide (student_skills_clean ≠ []) then
         Ok (score + py_truediv (Z.of_nat match_count)
                       (Z.of_nat (length student_skills_clean)) * 0.6)%Q
       else Ok score)
      (* except: pass *)
      score
  else score.

(** The second inner [try]: Field fuzzy match (weight 0.4) *)
Definition field_match (student_field : string) (row : listing) (score : Q) : Q :=
  if str_truthy student_field then
    try_except
      (let row_field := safe_string_operation (field row) "lower" in
       if str_truthy row_field then
         let similarity :=
           fuzz_ratio row_field (safe_string_operation (CStr student_field) "lower") in
         if bool_decide (80 ≤ similarity) then Ok (score + 0.4)%Q else Ok score
       else Ok score)
      (* except: pass *)
      score
  else score.

(** Calculate matching score with error handling *)
Definition calculate_score_safely (row : listing) (student_skills : list string)
    (student_field : string) : Q :=
  try_except
    (let score := 0%Q in
     let score := skills_match student_skills row score in
     let score := field_match student_field row score in
     Ok (py_round (Qmax 0 (Qmin 1 score)) 3))
    0%Q.

(** The frame after the start-up code of the module. *)
Variable matches_df : list listing.

(** [df["match_score"] = df.apply(lambda row: calculate_score_safely(...), axis=1)] *)
Definition apply_score (student_skills : list string) (student_field : string)
    (df : list listing) : list scored :=
  (λ r, {| row := r;
           match_score := calculate_score_safely r student_skills student_field |}) <$> df.

(** The body of the loop for one location: the rows it adds to [results] *)
Definition select_location (student_skills : list string) (student_field : string)
    (top_n : Z) (loc : string) : list scored :=
  try_except
    (match str_contains loc with
     | None => Raise ReError
     | Some found =>
         let df_loc := filter (λ r, found (location r)) matches_df in
         if bool_decide (df_loc ≠ []) then
           let df_loc := apply_score student_skills student_field df_loc in
           let top_loc := nlargest top_n df_loc in
           Ok top_loc
         else Ok []
     end)
    (* except: continue *)
    [].

(** Filter by locations *)
Fixpoint locations_loop (student_skills : list string) (student_field : string)
    (top_n : Z) (student_locations : list string) (results : list scored)
    : list scored :=
  match student_locations with
  | [] => results
  | loc :: rest =>
      locations_loop student_skills student_field top_n rest
        (results ++ select_location student_skills student_field top_n loc)
  end.

(** If no specific locations, use all data *)
Definition select_all (student_skills : list string) (student_field : string)
    (top_n : Z) : list scored :=
  try_except
    (let df := apply_score student_skills student_field matches_df in
     let top_matches := nlargest (top_n * 2) df in
     let selected := df_head top_n top_matches in
     Ok selected)
    (* Fallback to first few records *)
    ((λ r, {| row := r; match_score := 0 |}) <$> df_head top_n matches_df).

(** Ensure all required fields exist *)
Definition clean (r : scored) : recommendation :=
  {| out_company := safe_string_operation (CStr (company (row r))) "lower";
     out_internship_title := safe_string_operation (CStr (internship_title (row r))) "lower";
     out_field := CStr (safe_string_operation (field (row r)) "lower");
     out_location := safe_string_operation (CStr (location (row r))) "lower";
     out_skills := SkStr (str_join ", " (safe_list_operation (skills (row r))));
     out_match_score := match_score r;
     out_apply_link :=
       "https://company.com/apply/" +:+
       str_replace " " "-"
         (safe_string_operation (CStr (internship_title (row r))) "lower") |}.

(** Clean and format results *)
Fixpoint format_loop (results : list scored) (seen_keys : gset key)
    (unique_results : list recommendation) : list recommendation :=
  match results with
  | [] => unique_results
  | r :: rest =>
      let r := clean r in
      let k := out_key r in
      if bool_decide (k ∉ seen_keys) then
        format_loop rest ({[ k ]} ∪ seen_keys) (unique_results ++ [r])
      else format_loop rest seen_keys unique_results
  end.

(** [top_n = max(1, min(20, req.top_n))] *)
Definition clamp_top_n (n : Z) : Z := Z.max 1 (Z.min 20 n).

(** The cleaned [student_skills], [student_field] and [student_locations] *)
Definition clean_list (l : list string) : list string :=
  (λ s, safe_string_operation (CStr s) "lower") <$>
    filter (λ s, str_truthy s) (safe_list_operation (SkList l)).

Definition clean_field (f : string) : string :=
  safe_string_operation (CStr (safe_string_operation (CStr f) "lower")) "lower".

(** The accumulator [results] before it is cleaned *)
Definition accumulate (req : RecommendationRequest) : list scored :=
  let student_skills := clean_list (req_skills req) in
  let student_field := clean_field (req_field req) in
  let student_locations := clean_list (req_locations req) in
  let top_n := clamp_top_n (top_n req) in
  if bool_decide (student_locations = []) then
    select_all student_skills student_field top_n
  else
    locations_loop student_skills student_field top_n student_locations [].

Definition get_recommendations (req : RecommendationRequest) : response :=
  try_except
    (let top_n := clamp_top_n (top_n req) in
     let results := accumulate req in
     let unique_results := format_loop (take (Z.to_nat top_n) results) ∅ [] in
     Ok (Success unique_results (length unique_results)))
    Failure.

End engine.
End Bulletproof.

(** * An executable instance of the library functions

    Strings are ASCII, a location pattern is searched literally, the ratio is
    the one the source falls back to when fuzzywuzzy is not installed, the
    sort is an insertion sort and the generator is a counter. *)

Module Concrete.

Definition lower_char (c : ascii) : ascii :=
  let n := nat_of_ascii c in
  if bool_decide (65 ≤ n ≤ 90)%nat then ascii_of_nat (n + 32) else c.

Fixpoint lower (s : string) : string :=
  match s with
  | EmptyString => EmptyString
  | String c s' => String (lower_char c) (lower s')
  end.

Fixpoint lstrip (s : string) : string :=
  match s with
  | EmptyString => EmptyString
  | String c s' => if Ascii.is_space c then lstrip s' else s
  end.

Definition strip (s : string) : string :=
  String.rev (lstrip (String.rev (lstrip s))).

(** The fallback [fuzz.ratio] of backends_bulletproof.py *)
Definition fallback_ratio (a b : string) : Z :=
  if bool_decide (lower a = lower b) then 100 else 0.

Fixpoint is_substring (pat s : string) : bool :=
  String.prefix pat s ||
  match s with
  | EmptyString => false
  | String _ s' => is_substring pat s'
  end.

Definition contains (pat : string) : option (string → bool) :=
  Some (λ s, is_substring (lower pat) (lower s)).

Global Instance by_score_desc_dec : RelDecision by_score_desc.
Proof.
  intros a b. unfold by_score_desc.
  destruct (Qlt_le_dec (match_score a) (match_score b)) as [Hlt | Hle].
  - right. by apply Qlt_not_le.
  - by left.
Defined.

(** Insertion sort: a row goes in front of the rows that come after it in
    the frame and have no greater score, so that rows of equal score keep
    their order. *)
Fixpoint insert_desc (x : scored) (l : list scored) : list scored :=
  match l with
  | [] => [x]
  | y :: l' => if decide (by_score_desc x y) then x :: l else y :: insert_desc x l'
  end.

Definition stable_sort (l : list scored) : list scored :=
  foldr insert_desc [] l.

Definition take_largest (sort : list scored → list scored) (n : Z) (l : list scored)
    : list scored :=
  take (Z.to_nat n) (sort l).

Definition counter_sample (k : nat) (l : list scored) (g : nat) : list scored * nat :=
  (take k (rotate g l), S g).

Definition lib : PyLib :=
  {| str_lower := lower;
     str_strip := strip;
     fuzz_ratio := fallback_ratio;
     str_contains := contains;
     sort_values := stable_sort;
     nlargest := take_largest stable_sort;
     RandomState := nat;
     sample := counter_sample |}.

(** The catalog of the scenario of the specification: three listings in
    Boston, plus one in Seattle *)
Definition listing_a : listing :=
  {| company := "Acme"; internship_title := "Data Intern";
     field := CStr "Data Science"; location := "Boston";
     skills := SkList ["python"] |}.
Definition listing_b : listing :=
  {| company := "Bolt"; internship_title := "ML Intern";
     field := CStr "Machine Learning"; location := "Boston";
     skills := SkList ["python"; "sql"] |}.
Definition listing_c : listing :=
  {| company := "Cube"; internship_title := "Java Intern";
     field := CStr "Software Development"; location := "Boston";
     skills := SkList ["java"] |}.
Definition listing_d : listing :=
  {| company := "Dune"; internship_title := "Web Intern";
     field := CStr "Web Development"; location := "Seattle";
     skills := SkList ["html"; "css"] |}.

Definition catalog : list listing := [listing_a; listing_b; listing_c; listing_d].

(** Two defective rows: a missing field, and a skills value that is a
    float *)
Definition listing_no_field : listing :=
  {| company := "Echo"; internship_title := "Ops Intern";
     field := CNull; location := "Boston";
     skills := SkList ["python"] |}.
Definition listing_bad_skills : listing :=
  {| company := "Flux"; internship_title := "Data Intern";
     field := CStr "Data Science"; location := "Boston";
     skills := SkOther "nan" true |}.

(** No data file at all *)
Definition no_file : filesystem := λ _, None.

Definition request (sk locs : list string) (f : string) (n : Z) : RecommendationRequest :=
  {| name := "Student"; course := None; req_skills := sk; req_locations := locs;
     req_field := f; top_n := n |}.

End Concrete.

(** * backends_bulletproof.py: the resume and dashboard endpoints *)

(** [pat in s] on two str *)
Fixpoint str_in (pat s : string) : bool :=
  String.prefix pat s ||
  match s with
  | EmptyString => false
  | String _ s' => str_in pat s'
  end.

Definition is_ascii_upper (c : ascii) : bool :=
  bool_decide (65 ≤ nat_of_ascii c ≤ 90)%nat.
Definition is_ascii_lower (c : ascii) : bool :=
  bool_decide (97 ≤ nat_of_ascii c ≤ 122)%nat.
Definition upper_char (c : ascii) : ascii :=
  if is_ascii_lower c then ascii_of_nat (nat_of_ascii c - 32) else c.

(** [s.title()] on ASCII text: a letter that follows a letter is put in
    lower case, any other letter in upper case *)
Fixpoint title_go (after_letter : bool) (s : string) : string :=
  match s with
  | EmptyString => EmptyString
  | String c s' =>
      if is_ascii_upper c || is_ascii_lower c then
        String (if after_letter then Concrete.lower_char c else upper_char c)
               (title_go true s')
      else String c (title_go false s')
  end.

Definition str_title (s : string) : string := title_go false s.

(** The line feed *)
Definition newline : string := String "010" EmptyString.

(** [s[:n]] *)
Definition str_take (n : nat) (s : string) : string := String.substring 0 n s.

Module Resume.

(** The functions of base64, PyPDF2 and python-docx, and the decoding of
    bytes. A reader is [None] when its package could not be imported; it
    gives the text of the pages, or of the paragraphs, of a file. *)
Class DocLib := {
  b64decode : string → result string;
  PdfReader : option (string → result (list string));
  Document : option (string → result (list string));
  decode_utf8_ignore : string → string
}.

Record ResumeUploadRequest := {
  student_email : string;
  resume_data : string;
  filename : string;
  file_type : string
}.

Record project := {
  project_name : string;
  project_description : string
}.

(** The dict that [analyze_resume_content_safely] returns *)
Record analysis := {
  a_skills : list string;
  a_projects : list project;
  a_experience_years : Q;
  a_education_level : string;
  a_text_preview : option string;
  a_error : option exn
}.

(** An entry of [resume_analyses] *)
Record stored_resume := {
  sr_student_email : string;
  sr_filename : string;
  sr_file_type : string;
  sr_analysis : analysis
}.

(** What [upload_resume] answers: the preview of the analysis, or the
    failure payload *)
Inductive upload_response :=
| UploadSuccess (skills_found projects_found : nat) (experience_years : Q)
                (education_level : string)
| UploadFailure.

Record career_recommendation := {
  career_title : string;
  match_percentage : Z;
  career_description : string
}.

Record dashboard := {
  total_skills : nat;
  experience_level : string;
  resume_score : Z;
  top_skills : list string;
  suggested_skills : list string;
  career_recommendations : list career_recommendation
}.

Record health := {
  status : string;
  data_rows : nat;
  resume_analyses_count : nat
}.

Section endpoints.
Context {L : PyLib} {D : DocLib}.

Definition common_skills : list string :=
  ["python"; "javascript"; "java"; "react"; "node.js"; "html"; "css";
   "sql"; "mysql"; "mongodb"; "git"; "docker"; "aws"; "linux"].

(** Safely extract skills from text *)
Definition extract_skills_safely (text : string) : list string :=
  try_except
    (let text_lower := Bulletproof.safe_string_operation (CStr text) "lower" in
     let found_skills :=
       str_title <$> filter (λ skill, str_in skill text_lower) common_skills in
     Ok (if bool_decide (found_skills ≠ []) then found_skills
         else ["Basic Computer Skills"]))
    ["Skills extraction failed"].

(** Safely extract projects from text *)
Definition extract_projects_safely (text : string) : list project :=
  try_except
    (if str_in "project" (Bulletproof.safe_string_operation (CStr text) "lower") then
       Ok [ {| project_name := "Project detected in resume";
               project_description := "Details available in resume" |} ]
     else Ok [])
    [].

(** Safely extract experience years *)
Definition extract_experience_safely (text : string) : Q :=
  try_except
    (let text_lower := Bulletproof.safe_string_operation (CStr text) "lower" in
     match list_find (λ i : nat, str_in (pretty i +:+ " year") text_lower) (seq 1 9) with
     | Some (_, i) => Ok (inject_Z (Z.of_nat i))
     | None => Ok 1%Q
     end)
    0%Q.

(** Safely extract education level *)
Definition extract_education_safely (text : string) : string :=
  try_except
    (let text_lower := Bulletproof.safe_string_operation (CStr text) "lower" in
     if str_in "master" text_lower || str_in "m.s" text_lower then Ok "Master's"
     else if str_in "bachelor" text_lower || str_in "b.s" text_lower then Ok "Bachelor's"
     else Ok "Not specified")
    "Unknown".

(** [text_content += piece + "\n"] over the pages or the paragraphs *)
Definition joined_lines (pieces : list string) : string :=
  foldl (λ text_content piece, text_content +:+ piece +:+ newline) "" pieces.

(** Try to extract text *)
Definition extract_text (file_ext file_content : string) : string :=
  match bool_decide (file_ext = "pdf"), PdfReader with
  | true, Some reader =>
      try_except (pages ← reader file_content; Ok (joined_lines pages))
                 "PDF text extraction failed"
  | _, _ =>
      match bool_decide (file_ext ∈ ["doc"; "docx"]), Document with
      | true, Some document =>
          try_except (paragraphs ← document file_content; Ok (joined_lines paragraphs))
                     "DOCX text extraction failed"
      | _, _ =>
          try_except (Ok (decode_utf8_ignore file_content)) "Text extraction failed"
      end
  end.

(** [filename.lower().split('.')[-1] if '.' in filename else 'txt'] *)
Definition file_extension (filename : string) : string :=
  if str_in "." filename then default "" (last (str_split "." (str_lower filename)))
  else "txt".

(** Safely analyze resume content with comprehensive error handling *)
Definition analyze_resume_content_safely (resume_data filename : string) : analysis :=
  match
    (file_content ←
       (if str_in "," resume_data then b64decode (str_split "," resume_data !!! 1%nat)
        else b64decode resume_data);
     let file_ext := file_extension filename in
     let text_content := extract_text file_ext file_content in
     Ok {| a_skills := extract_skills_safely text_content;
           a_projects := extract_projects_safely text_content;
           a_experience_years := extract_experience_safely text_content;
           a_education_level := extract_education_safely text_content;
           a_text_preview :=
             Some (if bool_decide (200 < String.length text_content)%nat
                   then str_take 200 text_content +:+ "..."
                   else text_content);
           a_error := None |})
  with
  | Ok a => a
  | Raise e =>
      {| a_skills := ["Error parsing resume"];
         a_projects := [];
         a_experience_years := 0;
         a_education_level := "Unknown";
         a_text_preview := None;
         a_error := Some e |}
  end.

(** [upload_resume], with the global [resume_analyses] passed in and out.
    The HTTPException of the validation is raised inside the outer [try]
    and caught by its [except Exception]. *)
Definition upload_resume (req : ResumeUploadRequest)
    (resume_analyses : gmap string stored_resume)
    : upload_response * gmap string stored_resume :=
  if negb (str_truthy (student_email req)) || negb (str_truthy (resume_data req))
     || negb (str_truthy (filename req))
  then (UploadFailure, resume_analyses)
  else
    let analysis :=
      try_except (Ok (analyze_resume_content_safely (resume_data req) (filename req)))
        {| a_skills := ["Resume parsing failed"];
           a_projects := [];
           a_experience_years := 0;
           a_education_level := "Not specified";
           a_text_preview := None;
           a_error := None |} in
    (UploadSuccess (length (a_skills analysis)) (length (a_projects analysis))
       (a_experience_years analysis) (a_education_level analysis),
     <[ student_email req :=
          {| sr_student_email := student_email req;
             sr_filename := filename req;
             sr_file_type := file_type req;
             sr_analysis := analysis |} ]> resume_analyses).

(** Generate basic dashboard data *)
Definition generate_basic_dashboard (email : string) : dashboard :=
  {| total_skills := 5;
     experience_level := "Entry Level";
     resume_score := 70;
     top_skills := ["Python"; "JavaScript"; "HTML"; "CSS"];
     suggested_skills := ["React"; "Node.js"; "SQL"];
     career_recommendations :=
       [ {| career_title := "Junior Developer"; match_percentage := 75;
            career_description := "Great starting position" |} ] |}.

(** Generate dashboard from resume analysis *)
Definition generate_dashboard_from_resume (email : string) (a : analysis) : dashboard :=
  try_except
    (let skills := Bulletproof.safe_list_operation (SkList (a_skills a)) in
     Ok {| total_skills := length skills;
           experience_level := "Entry Level";
           resume_score := 75 + Z.of_nat (length skills) * 2;
           top_skills := take 5 skills;
           suggested_skills := ["Git"; "Docker"; "AWS"];
           career_recommendations :=
             [ {| career_title := "Software Developer"; match_percentage := 80;
                  career_description := "Based on your skills" |} ] |})
    (generate_basic_dashboard email).

(** [get_dashboard_data]: the [dashboard_data] of the answer *)
Definition get_dashboard_data (email : string)
    (resume_analyses : gmap string stored_resume) : dashboard :=
  match resume_analyses !! email with
  | Some stored => generate_dashboard_from_resume email (sr_analysis stored)
  | None => generate_basic_dashboard email
  end.

Definition health_check (matches_df : list listing)
    (resume_analyses : gmap string stored_resume) : health :=
  {| status := "healthy";
     data_rows := length matches_df;
     resume_analyses_count := size resume_analyses |}.

End endpoints.
End Resume.

(** An instance of the document functions: the data is taken as it is (no
    base64 layer), a PDF has one page that holds the bytes, and python-docx
    is not installed. *)
Module ConcreteDocs.

Definition lib : Resume.DocLib :=
  {| Resume.b64decode := λ s, if bool_decide (s = "!") then Raise ValueError else Ok s;
     Resume.PdfReader := Some (λ s, Ok [s]);
     Resume.Document := None;
     Resume.decode_utf8_ignore := λ s, s |}.

Definition upload : Resume.ResumeUploadRequest :=
  {| Resume.student_email := "ada@example.org";
     Resume.resume_data := "data:text/plain;base64,Python and MySQL, 3 years, project";
     Resume.filename := "cv.txt";
     Resume.file_type := "text/plain" |}.

End ConcreteDocs.

(** * The default sort of pandas

    [sort_values] without [kind] sorts with numpy's quicksort, and so does
    [nlargest] when it is asked for at least as many rows as the frame
    has. The definitions follow the portable argsort of numpy
    (npysort/quicksort.cpp and npysort/heapsort.cpp: an introsort that
    partitions around the median of three, sorts a range of at most 17
    elements by insertion and falls back on heapsort when it has
    partitioned too often), [nargsort] of pandas/core/sorting.py and
    [SelectNSeries.compute] of pandas/core/methods/selectn.py. *)
Module Numpy.

Definition less (a b : Q) : bool :=
  match (a ?= b)%Q with
  | Lt => true
  | _ => false
  end.

Section argsort.

(** The values, and the array [tosort] of indices into them; a pointer into
    [tosort] is its offset. *)
Variable v : list Q.

Definition value (t : list nat) (p : Z) : Q :=
  default 0%Q (k ← t !! Z.to_nat p; v !! k).

(** [INTP_SWAP] of the entries at [p] and [q] *)
Definition swap (t : list nat) (p q : Z) : list nat :=
  match t !! Z.to_nat p, t !! Z.to_nat q with
  | Some a, Some b => <[Z.to_nat q := a]> (<[Z.to_nat p := b]> t)
  | _, _ => t
  end.

(** [do ++pi; while] the value at [pi] is less than [vp] *)
Fixpoint scan_up (fuel : nat) (t : list nat) (vp : Q) (pi : Z) : Z :=
  let pi := pi + 1 in
  match fuel with
  | O => pi
  | S fuel => if less (value t pi) vp then scan_up fuel t vp pi else pi
  end.

(** [do --pj; while] [vp] is less than the value at [pj] *)
Fixpoint scan_down (fuel : nat) (t : list nat) (vp : Q) (pj : Z) : Z :=
  let pj := pj - 1 in
  match fuel with
  | O => pj
  | S fuel => if less vp (value t pj) then scan_down fuel t vp pj else pj
  end.

(** [for (;;)]: both scans, [break] when [pi >= pj], else [INTP_SWAP] of
    the entries at [pi] and [pj] *)
Fixpoint partition_loop (fuel : nat) (t : list nat) (vp : Q) (pi pj : Z)
    : list nat * Z :=
  let pi := scan_up (length t) t vp pi in
  let pj := scan_down (length t) t vp pj in
  if bool_decide (pj ≤ pi) then (t, pi)
  else
    match fuel with
    | O => (t, pi)
    | S fuel => partition_loop fuel (swap t pi pj) vp pi pj
    end.

(** The quicksort partition of the range [pl .. pr]: the array after it and
    the place of the pivot *)
Definition partition (t : list nat) (pl pr : Z) : list nat * Z :=
  let pm := pl + (pr - pl) / 2 in
  let t := if less (value t pm) (value t pl) then swap t pm pl else t in
  let t := if less (value t pr) (value t pm) then swap t pr pm else t in
  let t := if less (value t pm) (value t pl) then swap t pm pl else t in
  let vp := value t pm in
  let pj := pr - 1 in
  let t := swap t pm pj in
  let '(t, pi) := partition_loop (length t) t vp pl pj in
  (swap t pi (pr - 1), pi).

(** [while (pj > pl] and [vp] is less than the value at [pk = pj - 1]):
    the entry at [pk] moves up to [pj] *)
Fixpoint shift (fuel : nat) (t : list nat) (vp : Q) (pl pj : Z) : list nat * Z :=
  match fuel with
  | O => (t, pj)
  | S fuel =>
      if bool_decide (pl < pj) && less vp (value t (pj - 1)) then
        shift fuel (<[Z.to_nat pj := default 0%nat (t !! Z.to_nat (pj - 1))]> t)
              vp pl (pj - 1)
      else (t, pj)
  end.

(** The insertion sort of the range [pl .. pr] *)
Definition insertion_sort (t : list nat) (pl pr : Z) : list nat :=
  foldl (λ t pi,
           let vi := default 0%nat (t !! Z.to_nat pi) in
           let vp := default 0%Q (v !! vi) in
           let '(t, pj) := shift (length t) t vp pl pi in
           <[Z.to_nat pj := vi]> t)
        t (seqZ (pl + 1) (pr - pl)).

(** The inner loop of the heapsort: [tmp] sinks from place [i] of the
    heap [a[1 .. n]] (here [a[k]] is the element [k - 1] of the list) *)
Fixpoint sift (fuel : nat) (a : list nat) (tmp : nat) (i j n : Z) : list nat :=
  match fuel with
  | O => a
  | S fuel =>
      if bool_decide (j ≤ n) then
        let j := if bool_decide (j < n) && less (value a (j - 1)) (value a j)
                 then j + 1 else j in
        if less (default 0%Q (v !! tmp)) (value a (j - 1)) then
          sift fuel (<[Z.to_nat (i - 1) := default 0%nat (a !! Z.to_nat (j - 1))]> a)
               tmp j (j + j) n
        else <[Z.to_nat (i - 1) := tmp]> a
      else <[Z.to_nat (i - 1) := tmp]> a
  end.

(** [aheapsort] of an array of [n] indices *)
Definition heapsort (a : list nat) : list nat :=
  let n := Z.of_nat (length a) in
  let a :=
    foldl (λ a l, sift (length a) a (default 0%nat (a !! Z.to_nat (l - 1))) l (l + l) n)
          a (reverse (seqZ 1 (n / 2))) in
  foldl (λ a n,
           let tmp := default 0%nat (a !! Z.to_nat (n - 1)) in
           let a := <[Z.to_nat (n - 1) := default 0%nat (a !! 0%nat)]> a in
           sift (length a) a tmp 1 2 (n - 1))
        a (reverse (seqZ 2 (n - 1))).

(** [aquicksort] on the range [pl .. pr] with the depth [cdepth] left. The
    depth is looked at when a range is taken from the stack ([popped]),
    not while the smaller part of a partition is gone on with. *)
Fixpoint quicksort (fuel : nat) (popped : bool) (t : list nat) (pl pr cdepth : Z)
    : list nat :=
  match fuel with
  | O => t
  | S fuel =>
      if popped && bool_decide (cdepth < 0) then
        let n := Z.to_nat (pr - pl + 1) in
        take (Z.to_nat pl) t ++ heapsort (take n (drop (Z.to_nat pl) t))
          ++ drop (Z.to_nat pl + n) t
      else if bool_decide (16 < pr - pl) then
        let '(t, pi) := partition t pl pr in
        let cdepth := cdepth - 1 in
        (* push largest partition on stack *)
        if bool_decide (pi - pl < pr - pi) then
          let t := quicksort fuel false t pl (pi - 1) cdepth in
          quicksort fuel true t (pi + 1) pr cdepth
        else
          let t := quicksort fuel false t (pi + 1) pr cdepth in
          quicksort fuel true t pl (pi - 1) cdepth
      else insertion_sort t pl pr
  end.

End argsort.

(** [values.argsort(kind="quicksort")] *)
Definition argsort (v : list Q) : list nat :=
  let num := Z.of_nat (length v) in
  quicksort v (S (length v)) true (seq 0 (length v)) 0 (num - 1) (Z.log2 num * 2).

(** [nargsort(items, kind="quicksort", ascending=False)] for items without
    NaN: the items are turned around, sorted, and the result is turned
    around again *)
Definition nargsort_descending (items : list Q) : list nat :=
  let idx := reverse (seq 0 (length items)) in
  let indexer := omap (λ k, idx !! k) (argsort (reverse items)) in
  reverse indexer.

(** [df.sort_values(by="match_score", ascending=False)] *)
Definition pandas_sort_values (df : list scored) : list scored :=
  omap (λ i, df !! i) (nargsort_descending (match_score <$> df)).

(** [df.nlargest(n, "match_score")], with the default keep="first": nothing
    for [n <= 0]; the head of the sorted frame when [n] is at least the
    number of rows ("slow method"); else the [n] first rows of the sort by
    mergesort of the largest values ("fast method"). *)
Definition pandas_nlargest (n : Z) (df : list scored) : list scored :=
  if bool_decide (n ≤ 0) then []
  else if bool_decide (Z.of_nat (length df) ≤ n)
       then take (Z.to_nat n) (pandas_sort_values df)
       else take (Z.to_nat n) (Concrete.stable_sort df).

Definition lib : PyLib :=
  {| str_lower := Concrete.lower;
     str_strip := Concrete.strip;
     fuzz_ratio := Concrete.fallback_ratio;
     str_contains := Concrete.contains;
     sort_values := pandas_sort_values;
     nlargest := pandas_nlargest;
     RandomState := nat;
     sample := Concrete.counter_sample |}.

(** Eighteen listings in Boston; those with an even number have the skill
    python, the others java *)
Definition tied_listing (i : nat) : listing :=
  {| company := "Company " +:+ pretty i;
     internship_title := "Software Intern";
     field := CStr "Software Development";
     location := "Boston";
     skills := SkList [if Nat.even i then "python" else "java"] |}.

Definition tied_catalog : list listing := tied_listing <$> seq 0 18.

(** The listing with its score for the skill python *)
Definition tied_scored (i : nat) : scored :=
  {| row := tied_listing i;
     match_score := if Nat.even i then 600 # 1000 else 0 # 1000 |}.

End Numpy.

(** An instance whose [str.contains] refuses a pattern with an opening
    parenthesis that is never closed, as the regular expressions of Python
    do; every other pattern is searched literally. *)
Module ConcretePatterns.

Definition checked_contains (pat : string) : option (string → bool) :=
  if Concrete.is_substring "(" pat && negb (Concrete.is_substring ")" pat)
  then None
  else Concrete.contains pat.

Definition lib : PyLib :=
  {| str_lower := Concrete.lower;
     str_strip := Concrete.strip;
     fuzz_ratio := Concrete.fallback_ratio;
     str_contains := checked_contains;
     sort_values := Concrete.stable_sort;
     nlargest := Concrete.take_largest Concrete.stable_sort;
     RandomState := nat;
     sample := Concrete.counter_sample |}.

End ConcretePatterns.

(** A data file of two rows, the second one with empty cells, found at the
    second of the two paths *)
Module ConcreteFiles.

Definition table : raw_frame :=
  {| raw_rows :=
       [ {| raw_company := CStr "Acme"; raw_internship_title := CStr "Data Intern";
            raw_field := CStr "Data Science"; raw_location := CStr "Boston";
            raw_skills := CStr "Python, SQL,," |};
         {| raw_company := CNull; raw_internship_title := CNull;
            raw_field := CNull; raw_location := CNull; raw_skills := CNull |} ];
     has_company_column := true;
     has_internship_title_column := true;
     has_field_column := true;
     has_location_column := true;
     has_skills_column := true |}.

Definition fs : filesystem := λ p,
  if bool_decide (p = "data/student_internship_matches_stratified (1).csv")
  then Some (Table table) else None.

(** The same rows in a file that has no field column *)
Definition table_without_field : raw_frame :=
  {| raw_rows := raw_rows table;
     has_company_column := true;
     has_internship_title_column := true;
     has_field_column := false;
     has_location_column := true;
     has_skills_column := true |}.

Definition fs_without_field : filesystem := λ p,
  if bool_decide (p = "../data/student_internship_matches_stratified (1).csv")
  then Some (Table table_without_field) else None.

End ConcreteFiles.

(** * Vocabulary of the specification *)

(** A match score: a number of thousandths between 0 and 1. *)
Definition valid_score (s : Q) : Prop :=
  (0 <= s <= 1)%Q ∧ ∃ k : Z, 0 ≤ k ≤ 1000 ∧ s = k # 1000.

(** The values on which the str and set operations of backends.py work *)
Definition is_text (c : cell) : Prop := ∃ s, c = CStr s.
Definition is_iterable (c : skills_cell) : Prop := ∀ repr t, c ≠ SkOther repr t.

(** The request with another top_n *)
Definition with_top_n (req : RecommendationRequest) (n : Z) : RecommendationRequest :=
  {| name := name req; course := course req; req_skills := req_skills req;
     req_locations := req_locations req; req_field := req_field req; top_n := n |}.

(** The data file cannot be used: it is not there, or pandas cannot parse
    it. *)
Definition unavailable (fs : filesystem) (p : string) : Prop :=
  fs p = None ∨ fs p = Some Unreadable.

(** [x] stands before [y] in [l] *)
Definition before {A} (x y : A) (l : list A) : Prop :=
  ∃ l1 l2 l3, l = l1 ++ x :: l2 ++ y :: l3.

(** What a stable sort would give: two rows of equal score stand in the
    ranking as they stand in the bucket. *)
Definition keeps_order_of_ties (bucket ranked : list scored) : Prop :=
  ∀ x y, (match_score x == match_score y)%Q →
         before x y bucket → before x y ranked.

(** [l1] is a sublist of [l2], by matching each entry of [l1] with its first
    occurrence in what is left of [l2] *)
Fixpoint is_sublist {A} `{EqDecision A} (l1 l2 : list A) : bool :=
  match l1, l2 with
  | [], _ => true
  | _ :: _, [] => false
  | x :: l1', y :: l2' =>
      if decide (x = y) then is_sublist l1' l2' else is_sublist l1 l2'
  end.

(** What the sorts of pandas do with rows of equal score, beyond what
    [PandasContract] says. numpy's quicksort sorts an array of at most 17
    elements by insertion, which keeps equal elements in place.
    [nlargest] with the default keep="first" returns the first rows of a
    sort by mergesort when it is asked for fewer rows than the frame has,
    and the frame sorted by [sort_values] when it is asked for all of
    them. *)
Record TieContract (L : PyLib) : Prop := {
  sort_values_short : ∀ l,
    (length l ≤ 17)%nat → sort_values l = Concrete.stable_sort l;
  nlargest_keep_first : ∀ n l,
    (Z.to_nat n < length l)%nat →
    nlargest n l = take (Z.to_nat n) (Concrete.stable_sort l);
  nlargest_whole : ∀ n l,
    0 < n → (length l ≤ Z.to_nat n)%nat → nlargest n l = sort_values l
}.
Arguments sort_values_short {L} _ l.
Arguments nlargest_keep_first {L} _ n l.
Arguments nlargest_whole {L} _ n l.

(** The first entry of every key, in the order of the list *)
Fixpoint first_seen {A K} `{EqDecision K} (k : A → K) (l : list A) : list A :=
  match l with
  | [] => []
  | x :: l' => x :: filter (λ y, k y ≠ k x) (first_seen k l')
  end.

(** [kept] is a selection of [results] in arrival order that has one entry
    for every key of [results], each of them a first occurrence of its key *)
Definition first_of_each_key {A K} (k : A → K) (results kept : list A) : Prop :=
  kept `sublist_of` results ∧
  NoDup (k <$> kept) ∧
  (∀ r, r ∈ results → k r ∈ k <$> kept) ∧
  (∀ r, r ∈ kept → ∃ l1 l2, results = l1 ++ r :: l2 ∧ k r ∉ k <$> l1).

(** A location of the listing matches one of the patterns [locs] *)
Definition location_requested {L : PyLib} (locs : list string) (r : listing) : Prop :=
  ∃ loc found, loc ∈ locs ∧ str_contains loc = Some found ∧ found (location r) = true.

(** [s] is a listing of the catalog whose location matches one of [locs],
    with the score that calculate_score of backends.py gives it *)
Definition backends_candidate {L : PyLib} (matches_df : list listing)
    (sk : list string) (sf : string) (locs : list string) (s : scored) : Prop :=
  row s ∈ matches_df ∧
  Backends.calculate_score sk sf (row s) = Ok (match_score s) ∧
  location_requested locs (row s).

(** [s] is a listing of the catalog with the score that
    calculate_score_safely gives it; its location matches one of [locs]
    when there are any *)
Definition bulletproof_candidate {L : PyLib} (matches_df : list listing)
    (sk : list string) (sf : string) (locs : list string) (s : scored) : Prop :=
  row s ∈ matches_df ∧
  match_score s = Bulletproof.calculate_score_safely (row s) sk sf ∧
  (locs ≠ [] → location_requested locs (row s)).

(** The character [c] occurs in [s] *)
Definition has_char (c : ascii) (s : string) : Prop :=
  c ∈ list_ascii_of_string s.

(** [v] is the text of the cell [c], or [default] for a missing cell *)
Definition filled (c : cell) (default v : string) : Prop :=
  (c = CNull → v = default) ∧ (∀ s, c = CStr s → v = s) ∧
  (∀ repr, c = COther repr → v = repr).

(** What a text column of the start-up frame holds in one row: a str when
    the column is [present], NaN when it is not *)
Definition column_state (present : bool) (c : cell) : Prop :=
  if present then is_text c else c = CNull.

(** The cell [v] of the start-up frame against the cell [c] of the file:
    the text of [c], or [default] for a missing cell, when the file has
    the column, and NaN when it has not *)
Definition column_filled (present : bool) (c : cell) (default : string) (v : cell)
    : Prop :=
  if present then ∃ s, v = CStr s ∧ filled c default s else v = CNull.

(** * Properties *)

(** ** Rounding *)

Section rounding.
Local Open Scope Q_scope.

Lemma round_half_even_proper (p q : Q) : p == q → round_half_even p = round_half_even q.
Proof.
  intros Heq. unfold round_half_even.
  rewrite (Qfloor_comp _ _ Heq).
  assert (Hc : (p - inject_Z (Qfloor q) ?= 1 # 2) = (q - inject_Z (Qfloor q) ?= 1 # 2)).
  { apply Qcompare_comp; [by rewrite Heq | reflexivity]. }
  by rewrite Hc.
Qed.

Lemma round_half_even_bounds (a b : Z) (q : Q) :
  inject_Z a <= q → q <= inject_Z b → (a ≤ round_half_even q ≤ b)%Z.
Proof.
  intros Ha Hb.
  pose proof (Qfloor_le q) as Hfl.
  assert (Haf : (a ≤ Qfloor q)%Z).
  { rewrite <- (Qfloor_Z a). by apply Qfloor_resp_le. }
  assert (Hfb : (Qfloor q ≤ b)%Z).
  { rewrite Zle_Qle. lra. }
  unfold round_half_even.
  destruct (Qcompare_spec (q - inject_Z (Qfloor q)) (1 # 2)) as [He | Hl | Hg].
  - assert (Hlt : (Qfloor q < b)%Z) by (rewrite Zlt_Qlt; lra).
    destruct (Z.even (Qfloor q)); lia.
  - lia.
  - assert (Hlt : (Qfloor q < b)%Z) by (rewrite Zlt_Qlt; lra).
    lia.
Qed.

Lemma py_round_proper (p q : Q) n : p == q → py_round p n = py_round q n.
Proof.
  intros Heq. unfold py_round. f_equal.
  apply round_half_even_proper. by rewrite Heq.
Qed.

Lemma py_round_3_unit (x : Q) :
  0 <= x <= 1 →
  ∃ k : Z, (0 ≤ k ≤ 1000)%Z ∧ py_round x 3 = k # 1000.
Proof.
  intros [H0 H1]. exists (round_half_even (x * inject_Z 1000)). split; [|done].
  apply round_half_even_bounds.
  - change (inject_Z 0) with 0. change (inject_Z 1000) with 1000. lra.
  - change (inject_Z 1000) with 1000. lra.
Qed.

Lemma thousandth_unit (k : Z) : (0 ≤ k ≤ 1000)%Z → 0 <= k # 1000 <= 1.
Proof. intros [H0 H1]. unfold Qle. simpl. lia. Qed.

Lemma py_truediv_unit (m n : Z) :
  (0 ≤ m ≤ n)%Z → (1 ≤ n)%Z → 0 <= py_truediv m n <= 1.
Proof.
  intros [Hm Hmn] Hn. unfold py_truediv.
  assert (Hpos : 0 < inject_Z n) by (change 0 with (inject_Z 0); rewrite <- Zlt_Qlt; lia).
  split.
  - apply Qle_shift_div_l; [done|]. rewrite Qmult_0_l.
    change 0 with (inject_Z 0). rewrite <- Zle_Qle. lia.
  - apply Qle_shift_div_r; [done|]. rewrite Qmult_1_l.
    rewrite <- Zle_Qle. lia.
Qed.

End rounding.

(** ** The scorer *)

Section scorer.
Context {L : PyLib}.
Local Open Scope Q_scope.

Lemma size_list_to_set_le (l : list string) :
  (size (list_to_set l : gset string) ≤ length l)%nat.
Proof.
  induction l as [|x l IH].
  - by rewrite list_to_set_nil, size_empty.
  - rewrite list_to_set_cons, size_union_alt, size_singleton. simpl.
    assert (size (list_to_set l ∖ {[x]} : gset string) ≤ size (list_to_set l : gset string))%nat
      as Hle.
    { apply subseteq_size, subseteq_difference_l. reflexivity. }
    lia.
Qed.

Lemma match_count_le (l : list string) (X : gset string) :
  (size (list_to_set l ∩ X) ≤ length l)%nat.
Proof.
  etrans; [|apply size_list_to_set_le].
  apply subseteq_size, intersection_subseteq_l.
Qed.

(** Adding the weighted share of matched skills moves the score up by at
    most 0.6. *)
Lemma skill_share_bounds (score : Q) (m n : Z) :
  (0 ≤ m ≤ n)%Z → (1 ≤ n)%Z →
  score <= score + py_truediv m n * 0.6 <= score + 0.6.
Proof.
  intros Hm Hn. pose proof (py_truediv_unit m n Hm Hn) as [H0 H1].
  split; nra.
Qed.

Lemma backends_skills_match_bounds sk r score s :
  Backends.skills_match sk r score = Ok s → score <= s <= score + 0.6.
Proof.
  unfold Backends.skills_match. case_bool_decide as Hsk.
  - destruct (Backends.py_set (skills r)) as [X|e]; simpl; [|done].
    intros [= <-]. apply skill_share_bounds.
    + pose proof (match_count_le sk X). lia.
    + lia.
  - intros [= <-]. lra.
Qed.

Lemma backends_field_match_bounds sf r score s :
  Backends.field_match sf r score = Ok s → score <= s <= score + 0.4.
Proof.
  unfold Backends.field_match. destruct (str_truthy sf).
  - destruct (Backends.field_lower (field r)) as [f|e]; simpl; [|done].
    case_bool_decide; intros [= <-]; lra.
  - intros [= <-]. lra.
Qed.

Lemma bulletproof_skills_match_bounds sk r score :
  score <= Bulletproof.skills_match sk r score <= score + 0.6.
Proof.
  unfold Bulletproof.skills_match. case_bool_decide as Hsk; [|lra].
  simpl. case_bool_decide as Hclean; simpl; [|lra].
  apply skill_share_bounds.
  - split; [lia|]. apply inj_le, match_count_le.
  - destruct (_ <$> sk); [done|]. simpl. lia.
Qed.

Lemma bulletproof_field_match_bounds sf r score :
  score <= Bulletproof.field_match sf r score <= score + 0.4.
Proof.
  unfold Bulletproof.field_match. destruct (str_truthy sf); [|lra].
  simpl. destruct (str_truthy _); simpl; [|lra].
  case_bool_decide; simpl; lra.
Qed.

Lemma valid_score_round (x : Q) : 0 <= x <= 1 → valid_score (py_round x 3).
Proof.
  intros Hx. destruct (py_round_3_unit x Hx) as (k & Hk & ->).
  split; [by apply thousandth_unit | by exists k].
Qed.

Lemma clamp_unit (x : Q) : 0 <= Qmax 0 (Qmin 1 x) <= 1.
Proof.
  split; [apply Q.le_max_l|].
  apply Q.max_lub; [lra | apply Q.le_min_l].
Qed.

Lemma clamp_id (x : Q) : 0 <= x <= 1 → Qmax 0 (Qmin 1 x) == x.
Proof.
  intros [H0 H1]. rewrite (Q.min_r 1 x) by done. by rewrite Q.max_r.
Qed.

(** The sum that backends.py rounds lies between 0 and 1. *)
Lemma backends_raw_score_unit sk sf r raw :
  Backends.skills_match sk r 0 ≫= Backends.field_match sf r = Ok raw →
  0 <= raw <= 1.
Proof.
  destruct (Backends.skills_match sk r 0) as [s1|e] eqn:H1; simpl; [|done].
  intros H2.
  apply backends_skills_match_bounds in H1.
  apply backends_field_match_bounds in H2. lra.
Qed.

Lemma backends_calculate_score_raw sk sf r :
  Backends.calculate_score sk sf r =
  (λ raw, py_round raw 3) <$> (Backends.skills_match sk r 0 ≫= Backends.field_match sf r).
Proof.
  unfold Backends.calculate_score.
  destruct (Backends.skills_match sk r 0) as [s1|e]; simpl; [|done].
  by destruct (Backends.field_match sf r s1).
Qed.

Lemma backends_calculate_score_valid sk sf r s :
  Backends.calculate_score sk sf r = Ok s → valid_score s.
Proof.
  rewrite backends_calculate_score_raw.
  destruct (_ ≫= _) as [raw|e] eqn:Hraw; simpl; [|done].
  intros [= <-]. apply valid_score_round. by eapply backends_raw_score_unit.
Qed.

Lemma bulletproof_calculate_score_valid r sk sf :
  valid_score (Bulletproof.calculate_score_safely r sk sf).
Proof.
  unfold Bulletproof.calculate_score_safely. simpl.
  apply valid_score_round, clamp_unit.
Qed.

Lemma backends_calculate_score_total sk sf r :
  sk = [] ∨ is_iterable (skills r) →
  sf = "" ∨ is_text (field r) →
  ∃ s, Backends.calculate_score sk sf r = Ok s.
Proof.
  intros Hsk Hsf. unfold Backends.calculate_score.
  assert (∃ s1, Backends.skills_match sk r 0 = Ok s1) as [s1 ->].
  { unfold Backends.skills_match. case_bool_decide as Hne; [|by eexists].
    destruct Hsk as [->|Hit]; [done|].
    destruct (skills r) as [l|s|repr t] eqn:Hs; simpl; try by eexists.
    by destruct (Hit repr t). }
  simpl.
  assert (∃ s2, Backends.field_match sf r s1 = Ok s2) as [s2 ->].
  { unfold Backends.field_match, str_truthy. case_bool_decide as Hne; [|by eexists].
    destruct Hsf as [->|[fs ->]]; [done|]. simpl.
    case_bool_decide; by eexists. }
  simpl. by eexists.
Qed.

End scorer.

(** C1. Every score the scorer returns is a number of thousandths in
    [0,1]: it is the sum of the skill part and the field part, clamped to
    [0,1] and rounded to 3 decimals. calculate_score_safely returns such a
    score for every listing and query; calculate_score returns one whenever
    it returns, which it does on every listing whose skills are iterable and
    whose field is a str, and there the sum already lies in [0,1]. *)
Theorem match_score_in_unit_interval {L : PyLib}
    (student_skills : list string) (student_field : string) (r : listing) :
  (valid_score (Bulletproof.calculate_score_safely r student_skills student_field) ∧
   Bulletproof.calculate_score_safely r student_skills student_field =
     py_round (Qmax 0 (Qmin 1
        (Bulletproof.field_match student_field r
           (Bulletproof.skills_match student_skills r 0)))) 3) ∧
  (∀ s, Backends.calculate_score student_skills student_field r = Ok s →
        valid_score s ∧
        ∃ raw, Backends.skills_match student_skills r 0
                 ≫= Backends.field_match student_field r = Ok raw ∧
               (0 <= raw <= 1)%Q ∧
               s = py_round (Qmax 0 (Qmin 1 raw)) 3) ∧
  (is_iterable (skills r) → is_text (field r) →
   ∃ s, Backends.calculate_score student_skills student_field r = Ok s).
Proof.
  split; [split|split].
  - apply bulletproof_calculate_score_valid.
  - reflexivity.
  - intros s Hs. split; [by eapply backends_calculate_score_valid|].
    rewrite backends_calculate_score_raw in Hs.
    destruct (_ ≫= _) as [raw|e] eqn:Hraw; simpl in Hs; [|done].
    injection Hs as <-. exists raw.
    pose proof (backends_raw_score_unit _ _ _ _ Hraw) as Hunit.
    split; [done|]. split; [done|].
    apply py_round_proper. symmetry. by apply clamp_id.
  - intros Hit Htx. apply backends_calculate_score_total; by right.
Qed.

Section field_part.
Context {L : PyLib}.

Lemma safe_string_operation_lower (s : string) :
  Bulletproof.safe_string_operation (CStr s) "lower" = str_lower s.
Proof. unfold Bulletproof.safe_string_operation. by rewrite bool_decide_eq_true_2. Qed.

Lemma safe_string_operation_null (op : string) :
  Bulletproof.safe_string_operation CNull op = "".
Proof. reflexivity. Qed.

Lemma str_truthy_true (s : string) : str_truthy s = true ↔ s ≠ "".
Proof. unfold str_truthy. by rewrite bool_decide_eq_true. Qed.

Lemma str_truthy_false (s : string) : str_truthy s = false ↔ s = "".
Proof.
  unfold str_truthy. rewrite bool_decide_eq_false.
  destruct (decide (s = "")); naive_solver.
Qed.

Lemma backends_field_match_empty (r : listing) (score : Q) :
  Backends.field_match "" r score = Ok score.
Proof. reflexivity. Qed.

Lemma bulletproof_field_match_empty (r : listing) (score : Q) :
  Bulletproof.field_match "" r score = score.
Proof. reflexivity. Qed.

Lemma backends_field_match_text (sf fs : string) (r : listing) (score : Q) :
  sf ≠ "" → field r = CStr fs →
  Backends.field_match sf r score =
  Ok (if bool_decide (80 ≤ fuzz_ratio (str_lower fs) sf) then (score + 0.4)%Q else score).
Proof.
  intros Hsf Hf. unfold Backends.field_match.
  apply str_truthy_true in Hsf as ->. rewrite Hf. simpl.
  by case_bool_decide.
Qed.

Lemma bulletproof_field_match_text (C : TextContract L) (sf fs : string)
    (r : listing) (score : Q) :
  sf ≠ "" → field r = CStr fs →
  Bulletproof.field_match sf r score =
  if bool_decide (80 ≤ fuzz_ratio (str_lower fs) (str_lower sf))
  then (score + 0.4)%Q else score.
Proof.
  intros Hsf Hf. unfold Bulletproof.field_match.
  rewrite (proj2 (str_truthy_true sf) Hsf), Hf, !safe_string_operation_lower.
  destruct (str_truthy (str_lower fs)) eqn:Hrow; simpl.
  - by case_bool_decide.
  - apply str_truthy_false in Hrow. rewrite Hrow.
    pose proof (fuzz_ratio_empty L C (str_lower sf) (str_lower_nonempty L C sf Hsf)).
    rewrite bool_decide_eq_false_2; [done | lia].
Qed.

End field_part.

Lemma concrete_text_contract : TextContract Concrete.lib.
Proof.
  split; simpl.
  - intros [|c s] Hs; [done|]. by simpl.
  - intros [|c s] Hs; [done|]. unfold Concrete.fallback_ratio.
    rewrite bool_decide_eq_false_2; [lia|]. by simpl.
Qed.



(** ** The deduplicator *)

Section first_seen.
Context {A K : Type} `{EqDecision K} (k : A → K).

Lemma first_seen_filter (P Q : A → Prop)
    `{!∀ x, Decision (P x)} `{!∀ x, Decision (Q x)} (l : list A) :
  (∀ x, P x ↔ Q x) →
  (∀ x y, k x = k y → P x → P y) →
  first_seen k (filter P l) = filter Q (first_seen k l).
Proof.
  intros HPQ Hk. induction l as [|x l IH]; [done|].
  destruct (decide (P x)) as [HP | HP].
  - rewrite filter_cons_True by done. cbn [first_seen].
    rewrite filter_cons_True by (by apply HPQ). f_equal.
    rewrite IH, !list_filter_filter. apply list_filter_iff. intros y. tauto.
  - rewrite filter_cons_False by done. cbn [first_seen].
    rewrite filter_cons_False by (by rewrite <- HPQ).
    rewrite IH, list_filter_filter. apply list_filter_iff.
    intros y. split; [|tauto].
    intros Hy. split; [done|]. intros Heq.
    apply HP, (Hk y x Heq), HPQ, Hy.
Qed.

Lemma first_seen_sublist (l : list A) : first_seen k l `sublist_of` l.
Proof.
  induction l as [|x l IH]; simpl; [done|].
  apply sublist_skip. etrans; [apply sublist_filter | done].
Qed.

Lemma first_seen_NoDup (l : list A) : NoDup (k <$> first_seen k l).
Proof.
  induction l as [|x l IH]; simpl; [constructor|].
  constructor.
  - rewrite list_elem_of_fmap. intros (y & Hk & Hy).
    apply list_elem_of_filter in Hy as [Hne _]. by destruct Hne.
  - apply (sublist_NoDup _ (k <$> first_seen k l)); [exact IH|].
    apply fmap_sublist, sublist_filter.
Qed.

Lemma first_seen_covers (l : list A) (r : A) : r ∈ l → k r ∈ k <$> first_seen k l.
Proof.
  induction l as [|x l IH]; [by intros ?%elem_of_nil|].
  intros [->|Hr]%elem_of_cons; simpl; [by left|].
  destruct (decide (k r = k x)) as [-> | Hne]; [by left|]. right.
  apply IH, list_elem_of_fmap in Hr as (z & Hkz & Hz).
  apply list_elem_of_fmap. exists z. split; [done|].
  apply list_elem_of_filter. split; [congruence | done].
Qed.

Lemma first_seen_first (l : list A) (r : A) :
  r ∈ first_seen k l → ∃ l1 l2, l = l1 ++ r :: l2 ∧ k r ∉ k <$> l1.
Proof.
  induction l as [|x l IH]; simpl; [by intros ?%elem_of_nil|].
  intros [->|Hr]%elem_of_cons.
  - exists [], l. split; [done|]. apply not_elem_of_nil.
  - apply list_elem_of_filter in Hr as [Hne Hr].
    destruct (IH Hr) as (l1 & l2 & -> & Hfresh).
    exists (x :: l1), l2. split; [done|].
    rewrite fmap_cons, not_elem_of_cons. done.
Qed.

Lemma first_seen_spec (l : list A) : first_of_each_key k l (first_seen k l).
Proof.
  split; [apply first_seen_sublist|].
  split; [apply first_seen_NoDup|].
  split; [apply first_seen_covers | apply first_seen_first].
Qed.

Lemma filter_all (P : A → Prop) `{!∀ x, Decision (P x)} (l : list A) :
  (∀ x, P x) → filter P l = l.
Proof.
  intros HP. induction l as [|x l IH]; [done|].
  by rewrite filter_cons_True, IH.
Qed.

End first_seen.

Section dedup.
Context {L : PyLib}.

Lemma backends_out_key_finish (r : scored) :
  out_key (Backends.finish r) = key_of (row r).
Proof. reflexivity. Qed.

Lemma backends_dedup_loop_spec (results : list scored) (seen : gset key)
    (acc : list recommendation) :
  Backends.dedup_loop results seen acc =
  acc ++ (Backends.finish <$>
            first_seen (key_of ∘ row) (filter (λ r, (key_of ∘ row) r ∉ seen) results)).
Proof.
  revert seen acc. induction results as [|r rest IH]; intros seen acc; simpl.
  - by rewrite app_nil_r.
  - case_bool_decide as Hseen.
    + rewrite IH, filter_cons_True by done. simpl.
      rewrite <- (assoc_L (++)). simpl. do 3 f_equal.
      etrans; [|apply (first_seen_filter (key_of ∘ row)
                         (λ x, key_of (row x) ≠ key_of (row r)));
                [done | by intros x y Hxy; simpl in Hxy; rewrite Hxy]].
      f_equal. rewrite list_filter_filter. apply list_filter_iff.
      intros y. simpl. rewrite not_elem_of_union, not_elem_of_singleton. tauto.
    + rewrite IH, filter_cons_False; [done|]. simpl. tauto.
Qed.

Lemma backends_dedup_first_seen (results : list scored) :
  Backends.dedup_loop results ∅ [] =
  Backends.finish <$> first_seen (key_of ∘ row) results.
Proof.
  rewrite backends_dedup_loop_spec. simpl.
  rewrite filter_all; [done|]. intros x. apply not_elem_of_empty.
Qed.

Lemma bulletproof_format_loop_spec (results : list scored) (seen : gset key)
    (acc : list recommendation) :
  Bulletproof.format_loop results seen acc =
  acc ++ (Bulletproof.clean <$>
            first_seen (out_key ∘ Bulletproof.clean)
              (filter (λ r, (out_key ∘ Bulletproof.clean) r ∉ seen) results)).
Proof.
  revert seen acc. induction results as [|r rest IH]; intros seen acc; simpl.
  - by rewrite app_nil_r.
  - case_bool_decide as Hseen.
    + rewrite IH, filter_cons_True by done. simpl.
      rewrite <- (assoc_L (++)). simpl. do 3 f_equal.
      etrans; [|apply (first_seen_filter (out_key ∘ Bulletproof.clean)
                         (λ x, out_key (Bulletproof.clean x) ≠ out_key (Bulletproof.clean r)));
                [done | by intros x y Hxy; simpl in Hxy; rewrite Hxy]].
      f_equal. rewrite list_filter_filter. apply list_filter_iff.
      intros y. simpl. rewrite not_elem_of_union, not_elem_of_singleton. tauto.
    + rewrite IH, filter_cons_False; [done|]. simpl. tauto.
Qed.

Lemma bulletproof_format_first_seen (results : list scored) :
  Bulletproof.format_loop results ∅ [] =
  Bulletproof.clean <$> first_seen (out_key ∘ Bulletproof.clean) results.
Proof.
  rewrite bulletproof_format_loop_spec. simpl.
  rewrite filter_all; [done|]. intros x. apply not_elem_of_empty.
Qed.

End dedup.

(** C6, as amended. In backends.py the deduplicated output holds, for every
    accumulated list, exactly one entry per identity key, the first one
    met, in arrival order. In backends_bulletproof.py the same is true of
    the first top_n entries of the accumulator only, the key being taken on
    the lower-cased company, title and location. *)
Theorem dedup_keeps_first_of_each_key {L : PyLib} (results : list scored) (n : Z) :
  (Backends.dedup_loop results ∅ [] =
     Backends.finish <$> first_seen (key_of ∘ row) results ∧
   out_key <$> Backends.dedup_loop results ∅ [] =
     (key_of ∘ row) <$> first_seen (key_of ∘ row) results ∧
   first_of_each_key (key_of ∘ row) results (first_seen (key_of ∘ row) results)) ∧
  (Bulletproof.format_loop (take (Z.to_nat n) results) ∅ [] =
     Bulletproof.clean <$>
       first_seen (out_key ∘ Bulletproof.clean) (take (Z.to_nat n) results) ∧
   first_of_each_key (out_key ∘ Bulletproof.clean) (take (Z.to_nat n) results)
     (first_seen (out_key ∘ Bulletproof.clean) (take (Z.to_nat n) results))) ∧
  (∀ matches_df req g acc g',
     Backends.accumulate matches_df req g = (Ok acc, g') →
     Backends.get_recommendations matches_df req g =
       (Ok (Backends.finish <$> first_seen (key_of ∘ row) acc), g')) ∧
  (∀ matches_df req,
     let shown := take (Z.to_nat (Bulletproof.clamp_top_n (top_n req)))
                       (Bulletproof.accumulate matches_df req) in
     let recs := Bulletproof.clean <$> first_seen (out_key ∘ Bulletproof.clean) shown in
     Bulletproof.get_recommendations matches_df req =
       Bulletproof.Success recs (length recs)).
Proof.
  split; [|split; [|split]].
  - split; [apply backends_dedup_first_seen|].
    split; [|apply first_seen_spec].
    rewrite backends_dedup_first_seen, <- list_fmap_compose. done.
  - split; [apply bulletproof_format_first_seen | apply first_seen_spec].
  - intros matches_df req g acc g' Hacc.
    unfold Backends.get_recommendations, mbind, pyM_bind. rewrite Hacc.
    unfold mret, pyM_ret. by rewrite backends_dedup_first_seen.
  - intros matches_df req. unfold Bulletproof.get_recommendations. simpl.
    by rewrite bulletproof_format_first_seen.
Qed.

(** C6 as it is stated fails in backends_bulletproof.py: with top_n = 1 and
    the locations boston and seattle the accumulator holds the best listing
    of Boston and the one of Seattle, and only the first is returned. *)
Lemma dedup_drops_later_buckets_counterexample :
  let req := Concrete.request ["python"; "sql"] ["boston"; "seattle"] "" 1 in
  let acc := Bulletproof.accumulate (L:=Concrete.lib) Concrete.catalog req in
  ∃ recs,
    Bulletproof.get_recommendations (L:=Concrete.lib) Concrete.catalog req
      = Bulletproof.Success recs (length recs) ∧
    row <$> acc = [Concrete.listing_b; Concrete.listing_d] ∧
    ¬ (∀ r, r ∈ acc → key_of (row r) ∈ out_key <$> recs) ∧
    ¬ (∀ r, r ∈ acc →
         out_key (Bulletproof.clean (L:=Concrete.lib) r) ∈ out_key <$> recs).
Proof.
  exists (match Bulletproof.get_recommendations (L:=Concrete.lib) Concrete.catalog
                 (Concrete.request ["python"; "sql"] ["boston"; "seattle"] "" 1) with
          | Bulletproof.Success recs _ => recs
          | Bulletproof.Failure => []
          end).
  split; [by vm_compute|]. split; [by vm_compute|].
  split.
  - intros Hall.
    assert ({| row := Concrete.listing_d; match_score := 0 # 1000 |} ∈
              Bulletproof.accumulate (L:=Concrete.lib) Concrete.catalog
                (Concrete.request ["python"; "sql"] ["boston"; "seattle"] "" 1)) as Hd.
    { vm_compute. right. left. }
    apply Hall in Hd. vm_compute in Hd.
    inversion Hd as [|? ? ? Hnil]; inversion Hnil.
  - intros Hall.
    assert ({| row := Concrete.listing_d; match_score := 0 # 1000 |} ∈
              Bulletproof.accumulate (L:=Concrete.lib) Concrete.catalog
                (Concrete.request ["python"; "sql"] ["boston"; "seattle"] "" 1)) as Hd.
    { vm_compute. right. left. }
    apply Hall in Hd. vm_compute in Hd.
    inversion Hd as [|? ? ? Hnil]; inversion Hnil.
Qed.

(** ** The location bucketer *)

Global Instance by_score_desc_trans : Transitive by_score_desc.
Proof. intros a b c Hab Hbc. unfold by_score_desc in *. by eapply Qle_trans. Qed.

Global Instance by_score_desc_total : Total by_score_desc.
Proof.
  intros a b. unfold by_score_desc.
  destruct (Qlt_le_dec (match_score a) (match_score b)) as [Hlt | Hle].
  - right. by apply Qlt_le_weak.
  - by left.
Qed.

Lemma insert_desc_perm (x : scored) (l : list scored) :
  Concrete.insert_desc x l ≡ₚ x :: l.
Proof.
  induction l as [|y l IH]; simpl; [done|].
  case_decide; [done|]. by rewrite IH, Permutation_swap.
Qed.

Lemma insert_desc_sorted (x : scored) (l : list scored) :
  StronglySorted by_score_desc l → StronglySorted by_score_desc (Concrete.insert_desc x l).
Proof.
  induction 1 as [|y l Hl IH Hy]; simpl; [by repeat constructor|].
  case_decide as Hxy.
  - constructor; [by constructor|].
    constructor; [done|]. eapply Forall_impl; [exact Hy|].
    intros z Hz. by trans y.
  - constructor; [done|]. rewrite insert_desc_perm.
    constructor; [|done]. by destruct (total by_score_desc x y).
Qed.

Lemma stable_sort_perm (l : list scored) : Concrete.stable_sort l ≡ₚ l.
Proof.
  induction l as [|x l IH]; simpl; [done|].
  by rewrite insert_desc_perm, IH.
Qed.

Lemma stable_sort_sorted (l : list scored) :
  StronglySorted by_score_desc (Concrete.stable_sort l).
Proof.
  induction l as [|x l IH]; simpl; [constructor|].
  by apply insert_desc_sorted.
Qed.

Lemma concrete_pandas_contract : PandasContract Concrete.lib.
Proof.
  split; simpl.
  - apply stable_sort_perm.
  - apply stable_sort_sorted.
  - intros n l. exists (Concrete.stable_sort l).
    split; [apply stable_sort_perm|].
    split; [apply stable_sort_sorted | done].
Qed.

Section bucketer.
Context {L : PyLib} (C : PandasContract L).

Lemma df_head_length {A} (n : Z) (l : list A) :
  0 ≤ n → length (df_head n l) = (Z.to_nat n `min` length l)%nat.
Proof.
  intros Hn. unfold df_head. rewrite bool_decide_eq_true_2 by done.
  apply length_take.
Qed.

Lemma df_head_short {A} (n : Z) (l : list A) :
  Z.of_nat (length (df_head n l)) < n → df_head n l = l.
Proof.
  unfold df_head. case_bool_decide as Hn.
  - rewrite length_take. intros Hlt. apply take_ge. lia.
  - lia.
Qed.

Lemma backends_apply_score_rows sk sf (df : list listing) (sc : list scored) :
  Backends.apply_score sk sf df = Ok sc → row <$> sc = df.
Proof.
  unfold Backends.apply_score. revert sc.
  induction df as [|r df IH]; intros sc; simpl.
  - by intros [= <-].
  - destruct (Backends.calculate_score sk sf r) as [s|e]; simpl; [|done].
    destruct (result_mapM _ df) as [sc'|e]; simpl; [|done].
    intros [= <-]. simpl. f_equal. by apply IH.
Qed.

Lemma backends_apply_score_total sk sf (df : list listing) :
  (∀ r, r ∈ df → is_iterable (skills r) ∧ is_text (field r)) →
  ∃ sc, Backends.apply_score sk sf df = Ok sc.
Proof.
  unfold Backends.apply_score.
  induction df as [|r df IH]; intros Hdf; simpl; [by eexists|].
  destruct (backends_calculate_score_total sk sf r) as [s ->].
  { right. apply Hdf. by left. }
  { right. apply Hdf. by left. }
  destruct IH as [sc ->]; [intros r' Hr'; apply Hdf; by right|].
  simpl. by eexists.
Qed.

Lemma filter_none {A} (P : A → Prop) `{!∀ x, Decision (P x)} (l : list A) :
  (∀ x, x ∈ l → ¬ P x) → filter P l = [].
Proof.
  induction l as [|x l IH]; intros Hl; [done|].
  rewrite filter_cons_False by (apply Hl; by left).
  apply IH. intros y Hy. apply Hl. by right.
Qed.

(** When the ranking leaves fewer than top_n rows it has taken the whole
    bucket, and no row remains to draw from. *)
Lemma backends_remaining_rows_nil (n : Z) (sc : list scored) :
  Z.of_nat (length (df_head n (sort_values sc))) < n →
  Backends.remaining_rows sc (df_head n (sort_values sc)) = [].
Proof.
  intros Hshort. rewrite (df_head_short _ _ Hshort).
  unfold Backends.remaining_rows. apply filter_none.
  intros r Hr Hfresh. apply Hfresh.
  apply list_elem_of_fmap. exists r. split; [done|].
  by rewrite (sort_values_perm C sc).
Qed.

(** The body of the loop never reaches the generator: its result is the
    head of the ranking, and the state of the generator is the one it
    found. *)
Lemma backends_select_location_head sk sf (n : Z) (df_loc : list listing)
    (g : RandomState) :
  Backends.select_location sk sf n df_loc g =
  ((λ sc, df_head n (sort_values sc)) <$> Backends.apply_score sk sf df_loc, g).
Proof.
  unfold Backends.select_location, mbind, pyM_bind, lift_result.
  destruct (Backends.apply_score sk sf df_loc) as [sc|e]; simpl; [|done].
  case_bool_decide as Hshort; [|done].
  by rewrite (backends_remaining_rows_nil _ _ Hshort).
Qed.

Lemma backends_locations_loop_pure matches_df sk sf (n : Z) (locs : list string)
    (results : list scored) :
  ∃ out, ∀ g : RandomState,
    Backends.locations_loop matches_df sk sf n locs results g = (out, g).
Proof.
  revert results. induction locs as [|loc locs IH]; intros results.
  - by exists (Ok results).
  - cbn [Backends.locations_loop]. unfold mbind, pyM_bind, lift_result.
    destruct (Backends.filter_location loc matches_df) as [df_loc|e];
      [|by exists (Raise e)].
    case_bool_decide as Hempty; [apply IH|].
    destruct (Backends.apply_score sk sf df_loc) as [sc|e] eqn:Hsc.
    + destruct (IH (results ++ df_head n (sort_values sc))) as [out Hout].
      exists out. intros g. rewrite backends_select_location_head, Hsc. simpl.
      apply Hout.
    + exists (Raise e). intros g. by rewrite backends_select_location_head, Hsc.
Qed.

Lemma backends_get_recommendations_pure matches_df req :
  ∃ out, ∀ g : RandomState,
    Backends.get_recommendations matches_df req g = (out, g).
Proof.
  unfold Backends.get_recommendations, Backends.accumulate.
  destruct (backends_locations_loop_pure matches_df (Backends.student_skills req)
              (Backends.student_field req) (top_n req)
              (Backends.student_locations req) []) as [out Hout].
  exists ((λ results, Backends.dedup_loop results ∅ []) <$> out).
  intros g. unfold mbind, pyM_bind. rewrite Hout. by destruct out.
Qed.

End bucketer.

Lemma clamp_top_n_range (n : Z) : 1 ≤ Bulletproof.clamp_top_n n ≤ 20.
Proof. unfold Bulletproof.clamp_top_n. lia. Qed.

Lemma clamp_top_n_idemp (n : Z) :
  Bulletproof.clamp_top_n (Bulletproof.clamp_top_n n) = Bulletproof.clamp_top_n n.
Proof. unfold Bulletproof.clamp_top_n. lia. Qed.

Lemma clamp_top_n_in_range (n : Z) : 1 ≤ n ≤ 20 → Bulletproof.clamp_top_n n = n.
Proof. unfold Bulletproof.clamp_top_n. lia. Qed.

Section selection.
Context {L : PyLib} (C : PandasContract L).

Lemma bulletproof_apply_score_rows sk sf (df : list listing) :
  row <$> Bulletproof.apply_score sk sf df = df.
Proof.
  unfold Bulletproof.apply_score.
  induction df as [|r df IH]; [done|]. rewrite !fmap_cons. simpl. by rewrite IH.
Qed.

Lemma bulletproof_select_location_found matches_df sk sf (n : Z) loc found :
  str_contains loc = Some found →
  Bulletproof.select_location matches_df sk sf n loc =
  if bool_decide (filter (λ r, found (location r)) matches_df ≠ []) then
    nlargest n (Bulletproof.apply_score sk sf
                  (filter (λ r, found (location r)) matches_df))
  else [].
Proof.
  intros Hloc. unfold Bulletproof.select_location. rewrite Hloc.
  by case_bool_decide.
Qed.

Lemma bulletproof_select_location_ranked matches_df sk sf (n : Z) loc found :
  str_contains loc = Some found →
  ∃ ranked,
    ranked ≡ₚ Bulletproof.apply_score sk sf
                (filter (λ r, found (location r)) matches_df) ∧
    StronglySorted by_score_desc ranked ∧
    Bulletproof.select_location matches_df sk sf n loc = take (Z.to_nat n) ranked.
Proof.
  intros Hloc. rewrite (bulletproof_select_location_found _ _ _ _ _ _ Hloc).
  case_bool_decide as Hne.
  - apply (nlargest_spec C).
  - rewrite Hne. exists [].
    split; [done|]. split; [constructor | by rewrite take_nil].
Qed.

Lemma backends_select_location_ranked sk sf (n : Z) df_loc g selected g' :
  Backends.select_location sk sf n df_loc g = (Ok selected, g') →
  ∃ sc, Backends.apply_score sk sf df_loc = Ok sc ∧
        selected = df_head n (sort_values sc) ∧ g' = g.
Proof.
  rewrite backends_select_location_head by done.
  destruct (Backends.apply_score sk sf df_loc) as [sc|e]; simpl; [|done].
  intros [= <- <-]. by exists sc.
Qed.

End selection.

(** *** Rows of equal score *)

Lemma before_sublist {A} (x y : A) (l : list A) :
  before x y l ↔ [x; y] `sublist_of` l.
Proof.
  unfold before. split.
  - intros (l1 & l2 & l3 & ->).
    apply sublist_inserts_l, sublist_skip, sublist_inserts_l, sublist_skip,
      sublist_nil_l.
  - intros (l1 & k & -> & (l2 & l3 & -> & _)%sublist_cons_l)%sublist_cons_l.
    by exists l1, l2, l3.
Qed.

Lemma is_sublist_complete {A} `{EqDecision A} (l1 l2 : list A) :
  l1 `sublist_of` l2 → is_sublist l1 l2 = true.
Proof.
  revert l1. induction l2 as [|x l2 IH]; intros l1 Hsub.
  - apply sublist_nil_r in Hsub as ->. done.
  - destruct l1 as [|y l1]; [done|]. simpl.
    apply sublist_cons_r in Hsub as [Hsub | (l1' & [= -> ->] & Hsub)].
    + case_decide; apply IH; [|done].
      etrans; [|exact Hsub]. by apply sublist_cons.
    + rewrite decide_True by done. by apply IH.
Qed.

Lemma insert_desc_sublist (x : scored) (l : list scored) :
  l `sublist_of` Concrete.insert_desc x l.
Proof.
  induction l as [|y l IH]; simpl; [by apply sublist_nil_l|].
  case_decide; [by apply sublist_cons | by apply sublist_skip].
Qed.

(** A row that is inserted goes in front of every row of the same score. *)
Lemma insert_desc_in_front (x y : scored) (l : list scored) :
  y ∈ l → by_score_desc x y → [x; y] `sublist_of` Concrete.insert_desc x l.
Proof.
  intros Hy Hxy. induction l as [|z l IH]; [by apply elem_of_nil in Hy|].
  simpl. case_decide as Hxz.
  - apply sublist_skip. by apply singleton_sublist_l.
  - apply elem_of_cons in Hy as [-> | Hy]; [done|].
    apply sublist_cons. by apply IH.
Qed.

Lemma stable_sort_keeps_ties (l : list scored) :
  keeps_order_of_ties l (Concrete.stable_sort l).
Proof.
  intros x y Hscore. rewrite !before_sublist.
  induction l as [|a l IH]; intros Hbefore.
  - by apply sublist_nil_r in Hbefore.
  - simpl. apply sublist_cons_r in Hbefore as [Hbefore | (k & [= -> <-] & Hy)].
    + etrans; [by apply IH | apply insert_desc_sublist].
    + apply insert_desc_in_front.
      * rewrite stable_sort_perm. by apply singleton_sublist_l.
      * unfold by_score_desc. rewrite Hscore. apply Qle_refl.
Qed.

Lemma concrete_tie_contract : TieContract Concrete.lib.
Proof.
  split; simpl; [done | done |].
  intros n l _ Hlen. unfold Concrete.take_largest.
  apply take_ge. by rewrite stable_sort_perm.
Qed.




Lemma concrete_sample_contract : SampleContract Concrete.lib.
Proof.
  split. intros k l g Hk. simpl. unfold Concrete.counter_sample. simpl.
  split.
  - etrans; [apply sublist_submseteq, sublist_take|].
    apply Permutation_submseteq. unfold rotate.
    by rewrite Permutation_app_comm, take_drop.
  - rewrite length_take, length_rotate. lia.
Qed.

Lemma df_head_length_le {A} (n : Z) (l : list A) :
  0 ≤ n → (length (df_head n l) ≤ Z.to_nat n)%nat.
Proof. intros Hn. rewrite df_head_length by done. lia. Qed.

Section fill.
Context {L : PyLib}.

(** The body of the loop, whatever the sort and the generator are: the
    head of the ranking, followed by what [sample] draws when the head is
    shorter than top_n and rows of the bucket are left. *)
Lemma backends_select_location_fill sk sf (n : Z) (df_loc : list listing)
    (sc : list scored) (g : RandomState) :
  Backends.apply_score sk sf df_loc = Ok sc →
  let head := df_head n (sort_values sc) in
  let remaining := Backends.remaining_rows sc head in
  let k := Z.to_nat (Z.min (n - Z.of_nat (length head)) (Z.of_nat (length remaining))) in
  Backends.select_location sk sf n df_loc g =
    if bool_decide (Z.of_nat (length head) < n ∧ remaining ≠ [])
    then (Ok (head ++ (sample k remaining g).1), (sample k remaining g).2)
    else (Ok head, g).
Proof.
  intros Hsc head remaining k.
  unfold Backends.select_location, mbind, pyM_bind, lift_result.
  rewrite Hsc. fold head. fold remaining. fold k.
  case_bool_decide as Hshort.
  - case_bool_decide as Hrem.
    + rewrite bool_decide_eq_true_2 by done.
      unfold Backends.df_sample. by destruct (sample k remaining g).
    + rewrite bool_decide_eq_false_2; [done|]. by intros [_ ?].
  - rewrite bool_decide_eq_false_2; [done|]. by intros [? _].
Qed.

Lemma backends_select_location_inv sk sf (n : Z) (df_loc : list listing) g selected g' :
  Backends.select_location sk sf n df_loc g = (Ok selected, g') →
  ∃ sc, Backends.apply_score sk sf df_loc = Ok sc.
Proof.
  unfold Backends.select_location, mbind, pyM_bind, lift_result.
  destruct (Backends.apply_score sk sf df_loc) as [sc|e]; [by eexists | done].
Qed.

End fill.

(** Up to the 17 rows that numpy sorts by insertion, the default sort
    leaves rows of equal score in Catalog order: the first 17 of the 18
    listings above, and the three listings in Boston of the scenario. *)
Example short_buckets_keep_order :
  sort_values (PyLib:=Numpy.lib) (Numpy.tied_scored <$> seq 0 17)
    = Concrete.stable_sort (Numpy.tied_scored <$> seq 0 17) ∧
  (company ∘ row) <$> sort_values (PyLib:=Numpy.lib) (Numpy.tied_scored <$> seq 0 17)
    = ["Company 0"; "Company 2"; "Company 4"; "Company 6"; "Company 8";
       "Company 10"; "Company 12"; "Company 14"; "Company 16"; "Company 1";
       "Company 3"; "Company 5"; "Company 7"; "Company 9"; "Company 11";
       "Company 13"; "Company 15"] ∧
  fmap (M:=list) (company ∘ row) <$>
    (Backends.select_location (L:=Numpy.lib) ["python"] "" 5
       [Concrete.listing_a; Concrete.listing_b; Concrete.listing_c] 0%nat).1
    = Ok ["Acme"; "Bolt"; "Cube"].
Proof. split; by vm_compute. Qed.

(** C5, as amended. For a location whose bucket is not empty:
    in backends.py what is selected is the head of the ranking, followed by
    what [sample] draws, without replacement, from the rows of the bucket
    that were not selected, when the head is shorter than top_n and such
    rows exist; for a top_n that is not negative it has at most top_n rows
    and at least min(top_n, |bucket|), and nothing is ever drawn, because a
    head shorter than top_n has taken the whole bucket. A negative top_n
    selects all rows of the ranking but the last |top_n|, which is more
    than top_n. In backends_bulletproof.py, where top_n has been clamped,
    the selection is the top_n largest, it has at most top_n rows and at
    least min(top_n, |bucket|), and a selection shorter than top_n is the
    whole bucket. *)
Theorem selection_size_per_location {L : PyLib}
    (student_skills : list string) (student_field : string) (n : Z)
    (matches_df df_loc : list listing) (loc : string) (found : string → bool) :
  df_loc ≠ [] →
  (∀ g sc,
     Backends.apply_score student_skills student_field df_loc = Ok sc →
     let head := df_head n (sort_values sc) in
     let remaining := Backends.remaining_rows sc head in
     let k := Z.to_nat (Z.min (n - Z.of_nat (length head))
                              (Z.of_nat (length remaining))) in
     Backends.select_location student_skills student_field n df_loc g =
       if bool_decide (Z.of_nat (length head) < n ∧ remaining ≠ [])
       then (Ok (head ++ (sample k remaining g).1), (sample k remaining g).2)
       else (Ok head, g)) ∧
  (SampleContract L → 0 ≤ n →
   ∀ g selected g',
     Backends.select_location student_skills student_field n df_loc g
       = (Ok selected, g') →
     Z.of_nat (length selected) ≤ n ∧
     ∃ sc extra,
       Backends.apply_score student_skills student_field df_loc = Ok sc ∧
       selected = df_head n (sort_values sc) ++ extra ∧
       extra ⊆+ Backends.remaining_rows sc (df_head n (sort_values sc))) ∧
  (PandasContract L → 0 ≤ n →
   ∀ g selected g',
     Backends.select_location student_skills student_field n df_loc g
       = (Ok selected, g') →
     Z.of_nat (length selected) ≤ n ∧
     Z.min n (Z.of_nat (length df_loc)) ≤ Z.of_nat (length selected) ∧
     g' = g ∧
     ∃ sc,
       Backends.apply_score student_skills student_field df_loc = Ok sc ∧
       selected = df_head n (sort_values sc) ∧
       (Z.of_nat (length selected) < n →
        selected ≡ₚ sc ∧ Backends.remaining_rows sc selected = [])) ∧
  (PandasContract L → n < 0 →
   ∀ g selected g',
     Backends.select_location student_skills student_field n df_loc g
       = (Ok selected, g') →
     length selected = (length df_loc - Z.to_nat (- n))%nat ∧ g' = g) ∧
  (PandasContract L →
   (∀ r, r ∈ df_loc → is_iterable (skills r) ∧ is_text (field r)) →
   ∀ g, ∃ selected,
     Backends.select_location student_skills student_field n df_loc g
       = (Ok selected, g)) ∧
  (PandasContract L →
   str_contains loc = Some found →
   filter (λ r, found (location r)) matches_df = df_loc →
   let top_n := Bulletproof.clamp_top_n n in
   let selected :=
     Bulletproof.select_location matches_df student_skills student_field top_n loc in
   Z.of_nat (length selected) ≤ top_n ∧
   Z.min top_n (Z.of_nat (length df_loc)) ≤ Z.of_nat (length selected) ∧
   (Z.of_nat (length selected) < top_n →
    selected ≡ₚ Bulletproof.apply_score student_skills student_field df_loc)).
Proof.
  intros Hne. split; [|split; [|split; [|split; [|split]]]].
  - intros g sc Hsc. by apply backends_select_location_fill.
  - intros S Hn g selected g' Hsel.
    destruct (backends_select_location_inv _ _ _ _ _ _ _ Hsel) as [sc Hsc].
    rewrite (backends_select_location_fill _ _ _ _ _ g Hsc) in Hsel.
    pose proof (df_head_length_le n (sort_values sc) Hn) as Hhead.
    case_bool_decide as Hfill.
    + injection Hsel as <- _.
      set (remaining := Backends.remaining_rows sc (df_head n (sort_values sc))) in *.
      set (k := Z.to_nat (Z.min (n - Z.of_nat (length (df_head n (sort_values sc))))
                                (Z.of_nat (length remaining)))) in *.
      destruct (sample_without_replacement S k remaining g) as [Hsub Hlen];
        [subst k; lia|].
      split; [rewrite length_app, Hlen; subst k; lia|].
      by exists sc, (sample k remaining g).1.
    + injection Hsel as <- _. split; [lia|].
      exists sc, []. split; [done|]. split; [by rewrite app_nil_r|].
      apply submseteq_nil_l.
  - intros C Hn g selected g' Hsel.
    destruct (backends_select_location_ranked C _ _ _ _ _ _ _ Hsel)
      as (sc & Hsc & -> & ->).
    pose proof (backends_apply_score_rows _ _ _ _ Hsc) as Hrows.
    assert (length (sort_values sc) = length df_loc) as Hlen.
    { by rewrite (sort_values_perm C), <- Hrows, length_fmap. }
    rewrite df_head_length, Hlen by done.
    split; [lia|]. split; [lia|]. split; [done|].
    exists sc. split; [done|]. split; [done|].
    intros Hshort.
    assert (Z.of_nat (length (df_head n (sort_values sc))) < n) as Hshort'.
    { rewrite df_head_length, Hlen by done. lia. }
    split.
    + rewrite (df_head_short _ _ Hshort'). apply (sort_values_perm C).
    + by apply backends_remaining_rows_nil.
  - intros C Hn g selected g' Hsel.
    destruct (backends_select_location_ranked C _ _ _ _ _ _ _ Hsel)
      as (sc & Hsc & -> & ->).
    pose proof (backends_apply_score_rows _ _ _ _ Hsc) as Hrows.
    split; [|done]. unfold df_head. rewrite bool_decide_eq_false_2 by lia.
    rewrite length_take, (sort_values_perm C), <- Hrows, length_fmap. lia.
  - intros C Hrows g.
    destruct (backends_apply_score_total student_skills student_field df_loc Hrows)
      as [sc Hsc].
    exists (df_head n (sort_values sc)).
    by rewrite (backends_select_location_head C), Hsc.
  - intros C Hloc Hbucket top_n selected. subst selected.
    rewrite (bulletproof_select_location_found _ _ _ _ _ _ Hloc), Hbucket.
    rewrite bool_decide_eq_true_2 by done.
    destruct (nlargest_spec C top_n (Bulletproof.apply_score student_skills student_field df_loc))
      as (ranked & Hperm & _ & ->).
    assert (length ranked = length df_loc) as Hlen.
    { rewrite Hperm.
      rewrite <- (bulletproof_apply_score_rows student_skills student_field df_loc) at 2.
      by rewrite length_fmap. }
    pose proof (clamp_top_n_range n) as Hrange. fold top_n in Hrange.
    rewrite length_take, Hlen.
    split; [lia|]. split; [lia|].
    intros Hshort. rewrite take_ge by lia. done.
Qed.

(** A shortfall: five rows are asked for in a bucket of three. All three
    are selected, and no row is left to draw from. *)
Lemma selection_size_per_location_witness :
  Z.of_nat (length [ {| row := Concrete.listing_a; match_score := 600 # 1000 |};
                     {| row := Concrete.listing_b; match_score := 600 # 1000 |};
                     {| row := Concrete.listing_c; match_score := 0 # 1000 |} ]) ≤ 5 ∧
  Z.min 5 (Z.of_nat (length [Concrete.listing_a; Concrete.listing_b; Concrete.listing_c]))
    ≤ Z.of_nat (length [ {| row := Concrete.listing_a; match_score := 600 # 1000 |};
                         {| row := Concrete.listing_b; match_score := 600 # 1000 |};
                         {| row := Concrete.listing_c; match_score := 0 # 1000 |} ]) ∧
  7%nat = 7%nat ∧
  ∃ sc,
    Backends.apply_score (L:=Concrete.lib) ["python"] ""
      [Concrete.listing_a; Concrete.listing_b; Concrete.listing_c] = Ok sc ∧
    [ {| row := Concrete.listing_a; match_score := 600 # 1000 |};
      {| row := Concrete.listing_b; match_score := 600 # 1000 |};
      {| row := Concrete.listing_c; match_score := 0 # 1000 |} ]
      = df_head 5 (sort_values (PyLib:=Concrete.lib) sc) ∧
    (Z.of_nat (length [ {| row := Concrete.listing_a; match_score := 600 # 1000 |};
                        {| row := Concrete.listing_b; match_score := 600 # 1000 |};
                        {| row := Concrete.listing_c; match_score := 0 # 1000 |} ]) < 5 →
     [ {| row := Concrete.listing_a; match_score := 600 # 1000 |};
       {| row := Concrete.listing_b; match_score := 600 # 1000 |};
       {| row := Concrete.listing_c; match_score := 0 # 1000 |} ] ≡ₚ sc ∧
     Backends.remaining_rows sc
       [ {| row := Concrete.listing_a; match_score := 600 # 1000 |};
         {| row := Concrete.listing_b; match_score := 600 # 1000 |};
         {| row := Concrete.listing_c; match_score := 0 # 1000 |} ] = []).
Proof.
  apply (proj1 (proj2 (proj2 (selection_size_per_location (L:=Concrete.lib)
                                ["python"] "" 5 Concrete.catalog
                                [Concrete.listing_a; Concrete.listing_b; Concrete.listing_c]
                                "boston" (λ s, Concrete.is_substring "boston" (Concrete.lower s))
                                ltac:(done))))
               concrete_pandas_contract ltac:(lia) 7%nat).
  reflexivity.
Defined.

(** C5 as it is stated fails in backends.py, which passes top_n to [head]
    as it is: with top_n = -1 the three listings in Boston give a selection
    of two, the ranking without its last row, and two is more than top_n. *)
Lemma selection_exceeds_top_n_counterexample :
  fmap (M:=list) (company ∘ row) <$>
    (Backends.select_location (L:=Concrete.lib) ["python"] "" (-1)
       [Concrete.listing_a; Concrete.listing_b; Concrete.listing_c] 0%nat).1
    = Ok ["Acme"; "Bolt"] ∧
  ¬ (Z.of_nat (length ["Acme"; "Bolt"]) ≤ -1) ∧
  fmap (M:=list) out_company <$>
    (Backends.get_recommendations (L:=Concrete.lib) Concrete.catalog
       (Concrete.request ["python"] ["boston"] "" (-1)) 0%nat).1
    = Ok ["Acme"; "Bolt"].
Proof. split; [by vm_compute|]. split; [simpl; lia | by vm_compute]. Qed.

(** C10. The engine of backends.py is a function of the catalog and the
    request alone: two invocations on the same input return the same
    output, in content and order, whatever the state of the random
    generator, and each leaves that state as it found it (the call of
    [sample] is never reached with rows to draw from). *)
Theorem recommendations_reproducible {L : PyLib} (C : PandasContract L)
    (matches_df : list listing) (req : RecommendationRequest)
    (g1 g2 : RandomState) :
  (Backends.get_recommendations matches_df req g1).1
    = (Backends.get_recommendations matches_df req g2).1 ∧
  (Backends.get_recommendations matches_df req g1).2 = g1 ∧
  (Backends.get_recommendations matches_df req g2).2 = g2.
Proof.
  destruct (backends_get_recommendations_pure C matches_df req) as [out Hout].
  by rewrite !Hout.
Qed.

Lemma recommendations_reproducible_witness :
  let req := Concrete.request ["python"] ["boston"; "seattle"] "data science" 5 in
  (Backends.get_recommendations (L:=Concrete.lib) Concrete.catalog req 0%nat).1
    = (Backends.get_recommendations (L:=Concrete.lib) Concrete.catalog req 7%nat).1 ∧
  (Backends.get_recommendations (L:=Concrete.lib) Concrete.catalog req 0%nat).2 = 0%nat ∧
  (Backends.get_recommendations (L:=Concrete.lib) Concrete.catalog req 7%nat).2 = 7%nat.
Proof.
  apply (recommendations_reproducible (L:=Concrete.lib) concrete_pandas_contract).
Defined.

Section no_location.
Context {L : PyLib} (C : PandasContract L).

Lemma bulletproof_select_all_ranked matches_df sk sf (n : Z) :
  1 ≤ n →
  ∃ ranked,
    ranked ≡ₚ Bulletproof.apply_score sk sf matches_df ∧
    StronglySorted by_score_desc ranked ∧
    Bulletproof.select_all matches_df sk sf n = take (Z.to_nat n) ranked.
Proof.
  intros Hn. unfold Bulletproof.select_all. simpl.
  destruct (nlargest_spec C (n * 2) (Bulletproof.apply_score sk sf matches_df))
    as (ranked & Hperm & Hsorted & ->).
  exists ranked. split; [done|]. split; [done|].
  unfold df_head. rewrite bool_decide_eq_true_2 by lia.
  rewrite take_take. f_equal. lia.
Qed.

Lemma first_seen_nonempty {A K} `{EqDecision K} (k : A → K) (l : list A) :
  l ≠ [] → first_seen k l ≠ [].
Proof. by destruct l. Qed.

Lemma bulletproof_accumulate_no_location matches_df req :
  req_locations req = [] →
  Bulletproof.accumulate matches_df req =
  Bulletproof.select_all matches_df (Bulletproof.clean_list (req_skills req))
    (Bulletproof.clean_field (req_field req)) (Bulletproof.clamp_top_n (top_n req)).
Proof. intros Hloc. unfold Bulletproof.accumulate. by rewrite Hloc. Qed.

Lemma backends_get_recommendations_no_location matches_df req (g : RandomState) :
  req_locations req = [] →
  Backends.get_recommendations matches_df req g = (Ok [], g).
Proof.
  intros Hloc.
  unfold Backends.get_recommendations, Backends.accumulate, Backends.student_locations.
  by rewrite Hloc.
Qed.

End no_location.

(** C4, as amended. In backends_bulletproof.py a query without locations is
    scored against the whole Catalog: the 2×top_n largest scores are taken
    and cut to top_n (top_n as clamped), so the accumulator is the head of
    a descending ranking of the whole Catalog and the answer is not empty
    unless the Catalog is. In backends.py a query without locations gets no
    recommendation. *)
Theorem no_location_searches_whole_catalog {L : PyLib} (C : PandasContract L)
    (matches_df : list listing) (req : RecommendationRequest) :
  req_locations req = [] →
  let n := Bulletproof.clamp_top_n (top_n req) in
  let scored_catalog :=
    Bulletproof.apply_score (Bulletproof.clean_list (req_skills req))
      (Bulletproof.clean_field (req_field req)) matches_df in
  Bulletproof.accumulate matches_df req
    = df_head n (nlargest (n * 2) scored_catalog) ∧
  (∃ ranked,
     ranked ≡ₚ scored_catalog ∧
     StronglySorted by_score_desc ranked ∧
     Bulletproof.accumulate matches_df req = take (Z.to_nat n) ranked) ∧
  length (Bulletproof.accumulate matches_df req)
    = (Z.to_nat n `min` length matches_df)%nat ∧
  (matches_df ≠ [] →
   ∃ rec recs,
     Bulletproof.get_recommendations matches_df req
       = Bulletproof.Success (rec :: recs) (S (length recs))) ∧
  (∀ g, Backends.get_recommendations matches_df req g = (Ok [], g)).
Proof.
  intros Hloc n scored_catalog. subst n scored_catalog.
  pose proof (clamp_top_n_range (top_n req)) as Hrange.
  assert (Hacc := bulletproof_accumulate_no_location matches_df req Hloc).
  destruct (bulletproof_select_all_ranked C matches_df
              (Bulletproof.clean_list (req_skills req))
              (Bulletproof.clean_field (req_field req))
              (Bulletproof.clamp_top_n (top_n req)))
    as (ranked & Hperm & Hsorted & Hsel); [lia|].
  assert (length ranked = length matches_df) as Hlen.
  { rewrite Hperm.
    rewrite <- (bulletproof_apply_score_rows (Bulletproof.clean_list (req_skills req))
                  (Bulletproof.clean_field (req_field req)) matches_df) at 2.
    by rewrite length_fmap. }
  split; [by rewrite Hacc|].
  split; [exists ranked; by rewrite Hacc|].
  split; [by rewrite Hacc, Hsel, length_take, Hlen|].
  split; [|intros g; by apply backends_get_recommendations_no_location].
  intros Hne.
  unfold Bulletproof.get_recommendations. simpl.
  rewrite bulletproof_format_first_seen, Hacc, Hsel.
  rewrite take_take, Nat.min_id.
  destruct ranked as [|x ranked]; [by destruct matches_df|].
  destruct (Z.to_nat (Bulletproof.clamp_top_n (top_n req))) as [|k] eqn:Hk; [lia|].
  simpl. by eexists _, _.
Qed.

Lemma no_location_searches_whole_catalog_witness :
  length (Bulletproof.accumulate (L:=Concrete.lib) Concrete.catalog
            (Concrete.request ["python"] [] "" 2))
    = (Z.to_nat (Bulletproof.clamp_top_n 2) `min` length Concrete.catalog)%nat.
Proof.
  apply (no_location_searches_whole_catalog (L:=Concrete.lib) concrete_pandas_contract
           Concrete.catalog (Concrete.request ["python"] [] "" 2)).
  reflexivity.
Defined.

(** C4 as it is stated fails in backends.py: without a location the loop
    over the locations does not run, and the answer is empty although two
    listings of the Catalog match the query. *)
Lemma no_location_counterexample :
  let req := Concrete.request ["python"] [] "" 2 in
  Backends.get_recommendations (L:=Concrete.lib) Concrete.catalog req 0%nat
    = (Ok [], 0%nat) ∧
  Backends.calculate_score (L:=Concrete.lib) ["python"] "" Concrete.listing_a
    = Ok (600 # 1000) ∧
  Concrete.listing_a ∈ Concrete.catalog.
Proof. split; [by vm_compute|]. split; [by vm_compute | by left]. Qed.

(** ** Invalid queries *)

Section clamping.
Context {L : PyLib}.

Lemma bulletproof_accumulate_clamped matches_df req :
  Bulletproof.accumulate matches_df
    (with_top_n req (Bulletproof.clamp_top_n (top_n req)))
  = Bulletproof.accumulate matches_df req.
Proof. unfold Bulletproof.accumulate. simpl. by rewrite clamp_top_n_idemp. Qed.

Lemma bulletproof_get_recommendations_eq matches_df req :
  Bulletproof.get_recommendations matches_df req =
  let recs :=
    Bulletproof.clean <$>
      first_seen (out_key ∘ Bulletproof.clean)
        (take (Z.to_nat (Bulletproof.clamp_top_n (top_n req)))
              (Bulletproof.accumulate matches_df req)) in
  Bulletproof.Success recs (length recs).
Proof.
  unfold Bulletproof.get_recommendations. simpl.
  by rewrite bulletproof_format_first_seen.
Qed.

Lemma bulletproof_recommendations_length matches_df req :
  ∃ recs,
    Bulletproof.get_recommendations matches_df req
      = Bulletproof.Success recs (length recs) ∧
    Z.of_nat (length recs) ≤ Bulletproof.clamp_top_n (top_n req).
Proof.
  rewrite bulletproof_get_recommendations_eq. eexists. split; [done|].
  rewrite length_fmap.
  pose proof (sublist_length _ _
    (first_seen_sublist (out_key ∘ Bulletproof.clean)
       (take (Z.to_nat (Bulletproof.clamp_top_n (top_n req)))
             (Bulletproof.accumulate matches_df req)))) as Hle.
  rewrite length_take in Hle.
  pose proof (clamp_top_n_range (top_n req)). lia.
Qed.

(** backends.py takes a top_n of 0 at its word: no location adds a row. *)
Lemma backends_locations_loop_zero matches_df sk sf (locs : list string)
    (results : list scored) (g : RandomState) :
  ∃ out, Backends.locations_loop matches_df sk sf 0 locs results g = (out, g) ∧
         (out = Ok results ∨ ∃ e, out = Raise e).
Proof.
  induction locs as [|loc locs IH]; [exists (Ok results); by split; [|left]|].
  cbn [Backends.locations_loop]. unfold mbind, pyM_bind, lift_result.
  destruct (Backends.filter_location loc matches_df) as [df_loc|e];
    [|exists (Raise e); split; [done | right; by eexists]].
  case_bool_decide as Hempty; [done|].
  unfold Backends.select_location, mbind, pyM_bind, lift_result.
  destruct (Backends.apply_score sk sf df_loc) as [sc|e];
    [|exists (Raise e); split; [done | right; by eexists]].
  simpl. by rewrite app_nil_r.
Qed.

Lemma backends_get_recommendations_zero matches_df req (g : RandomState) :
  top_n req = 0 →
  (Backends.get_recommendations matches_df req g).1 = Ok [] ∨
  ∃ e, (Backends.get_recommendations matches_df req g).1 = Raise e.
Proof.
  intros Hn. unfold Backends.get_recommendations, Backends.accumulate.
  rewrite Hn.
  destruct (backends_locations_loop_zero matches_df (Backends.student_skills req)
              (Backends.student_field req) (Backends.student_locations req) [] g)
    as (out & Hout & [-> | [e ->]]);
    unfold mbind, pyM_bind; rewrite Hout; [by left | right; by eexists].
Qed.

End clamping.

(** C7, as amended. backends_bulletproof.py clamps top_n into [1, 20]
    before it selects: the request is answered as the request with the
    clamped top_n is, it is never refused, and the answer has at most
    that many entries. backends.py uses top_n as it comes: with a top_n of
    0 it recommends nothing. *)
Theorem top_n_clamped_before_selection {L : PyLib}
    (matches_df : list listing) (req : RecommendationRequest) :
  let n := Bulletproof.clamp_top_n (top_n req) in
  1 ≤ n ≤ 20 ∧
  (1 ≤ top_n req ≤ 20 → n = top_n req) ∧
  Bulletproof.get_recommendations matches_df req
    = Bulletproof.get_recommendations matches_df (with_top_n req n) ∧
  (∃ recs,
     Bulletproof.get_recommendations matches_df req
       = Bulletproof.Success recs (length recs) ∧
     Z.of_nat (length recs) ≤ n) ∧
  (top_n req = 0 → ∀ g,
     (Backends.get_recommendations matches_df req g).1 = Ok [] ∨
     ∃ e, (Backends.get_recommendations matches_df req g).1 = Raise e).
Proof.
  intros n. subst n.
  split; [apply clamp_top_n_range|].
  split; [apply clamp_top_n_in_range|].
  split; [|split; [apply bulletproof_recommendations_length|]].
  - rewrite !bulletproof_get_recommendations_eq. simpl.
    by rewrite clamp_top_n_idemp, bulletproof_accumulate_clamped.
  - intros Hn g. by apply backends_get_recommendations_zero.
Qed.

(** C7 as it is stated fails in backends.py: a top_n of 0 is honoured (no
    recommendation, where a top_n of 1 gives one), and so is a top_n of 25
    (25 recommendations from the 40 mock listings whose location has an
    "o"). *)
Lemma top_n_not_clamped_counterexample :
  (Backends.get_recommendations (L:=Concrete.lib) Concrete.catalog
     (Concrete.request ["python"] ["boston"] "" 0) 0%nat).1 = Ok [] ∧
  length <$> (Backends.get_recommendations (L:=Concrete.lib) Concrete.catalog
     (Concrete.request ["python"] ["boston"] "" 1) 0%nat).1 = Ok 1%nat ∧
  length <$> (Backends.get_recommendations (L:=Concrete.lib)
     (listings (Bulletproof.matches_df_init (L:=Concrete.lib) Concrete.no_file))
     (Concrete.request ["python"] ["o"] "" 25) 0%nat).1 = Ok 25%nat.
Proof. split; [by vm_compute|]. split; by vm_compute. Qed.

(** ** Defective rows *)

Section fault_isolation.
Context {L : PyLib}.

Lemma py_truediv_zero (n : Z) : (py_truediv 0 n == 0)%Q.
Proof. unfold py_truediv, Qdiv. apply Qmult_0_l. Qed.

Lemma bulletproof_skills_match_other sk r score repr t :
  skills r = SkOther repr t →
  (Bulletproof.skills_match sk r score == score)%Q.
Proof.
  intros Hsk. unfold Bulletproof.skills_match. rewrite Hsk.
  case_bool_decide; [|reflexivity]. simpl.
  case_bool_decide; simpl; [|reflexivity].
  rewrite (right_absorb_L ∅ (∩)), size_empty.
  change (Z.of_nat 0) with 0. rewrite py_truediv_zero. lra.
Qed.

Lemma bulletproof_field_match_null sf r score :
  field r = CNull → Bulletproof.field_match sf r score = score.
Proof.
  intros Hf. unfold Bulletproof.field_match. rewrite Hf.
  by destruct (str_truthy sf).
Qed.

Lemma bulletproof_score_defective sk sf r repr t :
  skills r = SkOther repr t → field r = CNull →
  Bulletproof.calculate_score_safely r sk sf = 0 # 1000.
Proof.
  intros Hsk Hf. unfold Bulletproof.calculate_score_safely. simpl.
  rewrite (bulletproof_field_match_null _ _ _ Hf).
  rewrite (py_round_proper _ 0); [done|].
  rewrite (bulletproof_skills_match_other _ _ _ _ _ Hsk). done.
Qed.

Lemma backends_field_match_raises sf r score :
  sf ≠ "" → ¬ is_text (field r) →
  Backends.field_match sf r score = Raise AttributeError.
Proof.
  intros Hsf Hf. unfold Backends.field_match.
  rewrite (proj2 (str_truthy_true sf) Hsf).
  destruct (field r) as [s| |repr]; [|done..].
  destruct Hf. by exists s.
Qed.

Lemma backends_calculate_score_raises sk sf r :
  sf ≠ "" → ¬ is_text (field r) →
  ∃ e, Backends.calculate_score sk sf r = Raise e.
Proof.
  intros Hsf Hf. unfold Backends.calculate_score.
  destruct (Backends.skills_match sk r 0) as [s|e]; simpl; [|by eexists].
  rewrite backends_field_match_raises by done. by eexists.
Qed.

(** One row on which the scorer raises makes the whole [apply] raise. *)
Lemma backends_apply_score_raises sk sf (df : list listing) r :
  r ∈ df → (∃ e, Backends.calculate_score sk sf r = Raise e) →
  ∃ e, Backends.apply_score sk sf df = Raise e.
Proof.
  intros Hr [e He]. unfold Backends.apply_score.
  induction df as [|x df IH]; [by apply elem_of_nil in Hr|]. simpl.
  apply elem_of_cons in Hr as [<- | Hr].
  - rewrite He. by eexists.
  - destruct (Backends.calculate_score sk sf x) as [s|e']; simpl; [|by eexists].
    destruct (IH Hr) as [e'' ->]. by eexists.
Qed.

End fault_isolation.

(** C8, as amended. In backends_bulletproof.py no listing makes the scoring
    raise: every listing gets a score in [0,1] and every row of the batch
    gets its score; a skills value that is neither a list nor a str adds
    nothing to the score, a missing field adds nothing, and a listing with
    both scores 0. backends.py has no such isolation: a listing whose field
    is not a str makes the scorer raise as soon as the query has a field,
    and the scoring of its bucket raises with it. *)
Theorem scoring_isolates_defective_rows {L : PyLib}
    (student_skills : list string) (student_field : string) (df : list listing) :
  (∀ r, valid_score (Bulletproof.calculate_score_safely r student_skills student_field)) ∧
  row <$> Bulletproof.apply_score student_skills student_field df = df ∧
  (∀ r score repr t,
     skills r = SkOther repr t →
     (Bulletproof.skills_match student_skills r score == score)%Q) ∧
  (∀ r score,
     field r = CNull → Bulletproof.field_match student_field r score = score) ∧
  (∀ r repr t,
     skills r = SkOther repr t → field r = CNull →
     Bulletproof.calculate_score_safely r student_skills student_field = 0 # 1000) ∧
  (∀ r, r ∈ df → student_field ≠ "" → ¬ is_text (field r) →
     (∃ e, Backends.calculate_score student_skills student_field r = Raise e) ∧
     (∃ e, Backends.apply_score student_skills student_field df = Raise e)).
Proof.
  split; [intros r; apply bulletproof_calculate_score_valid|].
  split; [apply bulletproof_apply_score_rows|].
  split; [intros r score repr t; apply bulletproof_skills_match_other|].
  split; [intros r score; apply bulletproof_field_match_null|].
  split; [intros r repr t; apply bulletproof_score_defective|].
  intros r Hr Hsf Hf.
  pose proof (backends_calculate_score_raises student_skills student_field r Hsf Hf) as He.
  split; [done|]. by eapply backends_apply_score_raises.
Qed.

(** C8 as it is stated fails. In backends.py one listing without a field
    makes the request fail, although the other listings of the bucket score
    without error. In backends_bulletproof.py a listing whose skills value
    is a float is scored on its field alone: its score is 0.4, not 0. *)
Lemma defective_row_counterexample :
  let df := [Concrete.listing_a; Concrete.listing_no_field; Concrete.listing_b] in
  Backends.get_recommendations (L:=Concrete.lib) df
    (Concrete.request ["python"] ["boston"] "data science" 5) 0%nat
    = (Raise AttributeError, 0%nat) ∧
  Backends.calculate_score (L:=Concrete.lib) ["python"] "data science" Concrete.listing_a
    = Ok (1000 # 1000) ∧
  Backends.calculate_score (L:=Concrete.lib) ["python"] "data science" Concrete.listing_b
    = Ok (600 # 1000) ∧
  Backends.calculate_score (L:=Concrete.lib) ["python"] "data science"
    Concrete.listing_bad_skills = Raise TypeError ∧
  Bulletproof.calculate_score_safely (L:=Concrete.lib) Concrete.listing_bad_skills
    ["python"] "data science" = 400 # 1000.
Proof. repeat split; by vm_compute. Qed.

(** ** Loading the catalog *)

Section loading.
Context {L : PyLib}.

Lemma path_exists_false (fs : filesystem) (p : string) :
  fs p = None → path_exists fs p = false.
Proof.
  intros Hp. unfold path_exists. rewrite Hp.
  apply bool_decide_eq_false_2. by intros [x Hx].
Qed.

Lemma path_exists_true (fs : filesystem) (p : string) (f : csv_file) :
  fs p = Some f → path_exists fs p = true.
Proof.
  intros Hp. unfold path_exists. rewrite Hp.
  apply bool_decide_eq_true_2. by eexists.
Qed.

Lemma load_data_safely_mock (fs : filesystem) :
  fs "../data/student_internship_matches_stratified (1).csv" = Some Unreadable ∨
  (fs "../data/student_internship_matches_stratified (1).csv" = None ∧
   unavailable fs "data/student_internship_matches_stratified (1).csv") →
  Bulletproof.load_data_safely fs = Bulletproof.create_mock_data.
Proof.
  unfold Bulletproof.load_data_safely, read_csv.
  intros [Hbad | [Hnone [Hnone2 | Hbad2]]].
  - rewrite (path_exists_true _ _ _ Hbad). simpl.
    rewrite (path_exists_true _ _ _ Hbad), Hbad. done.
  - rewrite (path_exists_false _ _ Hnone). simpl.
    by rewrite (path_exists_false _ _ Hnone2).
  - rewrite (path_exists_false _ _ Hnone). simpl.
    rewrite (path_exists_true _ _ _ Hbad2), Hbad2. done.
Qed.

Lemma load_data_safely_table (fs : filesystem) (df : raw_frame) :
  fs "../data/student_internship_matches_stratified (1).csv" = Some (Table df) →
  Bulletproof.load_data_safely fs = df.
Proof.
  intros Hp. unfold Bulletproof.load_data_safely, read_csv.
  rewrite (path_exists_true _ _ _ Hp). simpl.
  by rewrite (path_exists_true _ _ _ Hp), Hp.
Qed.

Lemma matches_df_init_length_mock (fs : filesystem) :
  Bulletproof.load_data_safely fs = Bulletproof.create_mock_data →
  length (Bulletproof.matches_df_init fs) = 50%nat.
Proof.
  intros Hload. unfold Bulletproof.matches_df_init, Bulletproof.skills_column.
  rewrite Hload. reflexivity.
Qed.

End loading.

(** C9, as amended. In backends_bulletproof.py a data file that is missing
    or that pandas cannot parse does not stop the start-up: the 50 mock
    listings become the catalog, the same as with no file at all; a table
    that lacks the skills column is replaced by the placeholder of one
    listing. backends.py reads the file without a fallback: the import
    raises, and there is no catalog. *)
Theorem missing_data_falls_back {L : PyLib} (fs : filesystem) (package_parent : string) :
  fs "../data/student_internship_matches_stratified (1).csv" = Some Unreadable ∨
  (fs "../data/student_internship_matches_stratified (1).csv" = None ∧
   unavailable fs "data/student_internship_matches_stratified (1).csv") →
  (Bulletproof.load_data_safely fs = Bulletproof.create_mock_data ∧
   Bulletproof.matches_df_init fs = Bulletproof.matches_df_init (λ _, None) ∧
   length (Bulletproof.matches_df_init fs) = 50%nat) ∧
  (∀ fs' df,
     fs' "../data/student_internship_matches_stratified (1).csv" = Some (Table df) →
     has_skills_column df = false → raw_rows df ≠ [] →
     Bulletproof.matches_df_init fs' =
       [ listing_row
           {| company := "TechCorp"; internship_title := "Software Intern";
              field := CStr "Software Development"; location := "Remote";
              skills := SkList ["python"; "javascript"] |} ]) ∧
  (unavailable fs (Backends.DATA_FILE package_parent) →
   ∃ e, Backends.load_matches fs package_parent = Raise e).
Proof.
  intros Hfs. pose proof (load_data_safely_mock fs Hfs) as Hload.
  split; [split; [done|split]|split].
  - unfold Bulletproof.matches_df_init. rewrite Hload.
    rewrite (load_data_safely_mock (λ _, None)); [done|].
    right. split; [done | by left].
  - by apply matches_df_init_length_mock.
  - intros fs' df Hp Hcol Hrows.
    unfold Bulletproof.matches_df_init, Bulletproof.skills_column.
    rewrite (load_data_safely_table fs' df Hp), Hcol.
    by rewrite bool_decide_eq_false_2.
  - unfold Backends.load_matches, read_csv.
    intros [-> | ->]; by eexists.
Qed.

Lemma missing_data_falls_back_witness :
  length (Bulletproof.matches_df_init (L:=Concrete.lib) Concrete.no_file) = 50%nat.
Proof.
  apply (missing_data_falls_back (L:=Concrete.lib) Concrete.no_file "/srv/app").
  right. split; [reflexivity | left; reflexivity].
Defined.

(** C9 as it is stated fails in backends.py: without the data file the
    module does not load. *)
Lemma missing_data_counterexample :
  Backends.load_matches Concrete.no_file "/srv/app" = Raise FileNotFoundError.
Proof. reflexivity. Qed.

(** ** The scenarios of the specification, run on the executable instance *)

(** Three listings in Boston, skills python: the two listings with python
    come first, at 0.6 each, in Catalog order under a stable sort. *)
Example scenario_boston :
  fmap (M:=list) (λ r, (out_company r, out_match_score r)) <$>
    (Backends.get_recommendations (L:=Concrete.lib) Concrete.catalog
       (Concrete.request ["python"] ["Boston"] "" 2) 0%nat).1
  = Ok [("Acme", 600 # 1000); ("Bolt", 600 # 1000)].
Proof. by vm_compute. Qed.

(** No location and top_n = 5 over the 50 mock listings: five
    recommendations, by descending score. *)
Example scenario_no_location :
  match Bulletproof.get_recommendations (L:=Concrete.lib)
          (listings (Bulletproof.matches_df_init (L:=Concrete.lib) Concrete.no_file))
          (Concrete.request ["python"; "pandas"] [] "" 5) with
  | Bulletproof.Success recs total_found =>
      (out_match_score <$> recs, total_found)
  | Bulletproof.Failure => ([], 0%nat)
  end
  = ([600 # 1000; 600 # 1000; 600 # 1000; 600 # 1000; 600 # 1000], 5%nat).
Proof. by vm_compute. Qed.

(** * Further properties of the code *)

(** ** Substrings *)

Lemma string_app_assoc (a b c : string) : (a +:+ b) +:+ c = a +:+ b +:+ c.
Proof. induction a as [|x a IH]; [done|]. exact (f_equal (String x) IH). Qed.

Lemma prefix_spec (p s : string) :
  String.prefix p s = true ↔ ∃ post, s = p +:+ post.
Proof.
  revert s. induction p as [|c p IH]; intros s.
  - split; [intros _; exists s; reflexivity | intros _; by destruct s].
  - destruct s as [|d s]; simpl.
    { split; [done | intros [post Hpost]; discriminate Hpost]. }
    destruct (Ascii.ascii_dec c d) as [<- | Hne].
    + rewrite IH. split; intros [post Hpost]; exists post.
      * change (String c s = String c (p +:+ post)). by rewrite Hpost.
      * change (String c s = String c (p +:+ post)) in Hpost. by injection Hpost.
    + split; [done|]. intros [post Hpost].
      change (String d s = String c (p +:+ post)) in Hpost. by injection Hpost.
Qed.
Lemma str_in_nil (p : string) : str_in p "" = String.prefix p "".
Proof. unfold str_in. apply orb_false_r. Qed.
Lemma str_in_cons (p : string) c s :
  str_in p (String c s) = String.prefix p (String c s) || str_in p s.
Proof. reflexivity. Qed.
Lemma str_in_spec (p s : string) :
  str_in p s = true ↔ ∃ pre post, s = pre +:+ p +:+ post.
Proof.
  induction s as [|c s IH]; [rewrite str_in_nil | rewrite str_in_cons].
  - rewrite prefix_spec. split.
    + intros [post Hpost]. by exists "", post.
    + intros ([|d pre] & post & Hs); [by exists post | discriminate Hs].
  - rewrite orb_true_iff, prefix_spec, IH. split.
    + intros [[post Hpost] | (pre & post & Hs)].
      * by exists "", post.
      * exists (String c pre), post.
        change (String c s = String c (pre +:+ p +:+ post)). by rewrite Hs.
    + intros ([|d pre] & post & Hs).
      * left. by exists post.
      * right. exists pre, post.
        change (String c s = String d (pre +:+ p +:+ post)) in Hs. by injection Hs.
Qed.

Lemma str_in_trans (a b s : string) :
  str_in a b = true → str_in b s = true → str_in a s = true.
Proof.
  rewrite !str_in_spec. intros (p1 & q1 & ->) (p2 & q2 & ->).
  exists (p2 +:+ p1), (q1 +:+ q2). by rewrite !string_app_assoc.
Qed.

(** ** The resume analysis *)

Section resume.
Context {L : PyLib} {D : Resume.DocLib}.

Lemma extract_skills_safely_eq (text : string) :
  Resume.extract_skills_safely text =
  let found := filter (λ skill, str_in skill (str_lower text)) Resume.common_skills in
  if bool_decide (found ≠ []) then str_title <$> found else ["Basic Computer Skills"].
Proof.
  unfold Resume.extract_skills_safely. rewrite safe_string_operation_lower. simpl.
  destruct (filter _ Resume.common_skills) as [|x found]; [done|].
  by rewrite !bool_decide_eq_true_2.
Qed.

Lemma common_skills_title_inj (a b : string) :
  a ∈ Resume.common_skills → b ∈ Resume.common_skills →
  str_title a = str_title b → a = b.
Proof.
  unfold Resume.common_skills. intros Ha Hb.
  repeat (apply elem_of_cons in Ha as [-> | Ha]);
    try (by apply elem_of_nil in Ha);
    repeat (apply elem_of_cons in Hb as [-> | Hb]);
    try (by apply elem_of_nil in Hb);
    (done || (vm_compute; discriminate)).
Qed.

Lemma extract_skills_safely_found (text skill : string) :
  skill ∈ Resume.common_skills →
  str_title skill ∈ Resume.extract_skills_safely text ↔
  str_in skill (str_lower text) = true.
Proof.
  intros Hskill. rewrite extract_skills_safely_eq. simpl.
  case_bool_decide as Hfound.
  - rewrite list_elem_of_fmap. split.
    + intros (y & Hy & [Hin Hcommon]%list_elem_of_filter).
      rewrite (common_skills_title_inj skill y Hskill Hcommon Hy).
      by apply Is_true_true.
    + intros Hin. exists skill. split; [done|].
      apply list_elem_of_filter. split; [by apply Is_true_true | done].
  - split.
    + intros Hbasic%list_elem_of_singleton. exfalso.
      unfold Resume.common_skills in Hskill.
      repeat (apply elem_of_cons in Hskill as [-> | Hskill]);
        try (by apply elem_of_nil in Hskill); vm_compute in Hbasic; discriminate.
    + intros Hin. exfalso.
      assert (skill ∈ filter (λ skill, str_in skill (str_lower text)) Resume.common_skills)
        as Hmem by (apply list_elem_of_filter; split; [by apply Is_true_true | done]).
      rewrite Hfound in Hmem. by apply elem_of_nil in Hmem.
Qed.

End resume.

Section resume_properties.
Context {L : PyLib} {D : Resume.DocLib}.

Lemma extract_skills_safely_nonempty (text : string) :
  Resume.extract_skills_safely text ≠ [].
Proof.
  rewrite extract_skills_safely_eq. simpl.
  case_bool_decide as Hfound; [|done].
  by destruct (filter _ Resume.common_skills).
Qed.

Lemma extract_skills_safely_length (text : string) :
  (1 ≤ length (Resume.extract_skills_safely text) ≤ 14)%nat.
Proof.
  pose proof (extract_skills_safely_nonempty text) as Hne.
  split; [destruct (Resume.extract_skills_safely text); [done | simpl; lia]|].
  rewrite extract_skills_safely_eq. simpl.
  case_bool_decide; [|simpl; lia].
  rewrite length_fmap.
  etrans; [apply length_filter|]. done.
Qed.

(** X1. The skills found in a resume: the list is never empty and has at
    most 14 entries; a known skill is reported, in title case, exactly when
    it occurs in the lower-cased text, and the placeholder "Basic Computer
    Skills" is reported exactly when no known skill occurs. *)
Theorem extracted_skills_exact (text : string) :
  (1 ≤ length (Resume.extract_skills_safely text) ≤ 14)%nat ∧
  (∀ skill, skill ∈ Resume.common_skills →
     str_title skill ∈ Resume.extract_skills_safely text ↔
     str_in skill (str_lower text) = true) ∧
  (Resume.extract_skills_safely text = ["Basic Computer Skills"] ↔
   ∀ skill, skill ∈ Resume.common_skills → str_in skill (str_lower text) = false).
Proof.
  split; [apply extract_skills_safely_length|].
  split; [intros skill; apply extract_skills_safely_found|].
  rewrite extract_skills_safely_eq. simpl. split.
  - intros Hbasic skill Hskill.
    destruct (str_in skill (str_lower text)) eqn:Hin; [|done]. exfalso.
    apply (extract_skills_safely_found text skill Hskill) in Hin.
    rewrite extract_skills_safely_eq in Hin. simpl in Hin. rewrite Hbasic in Hin.
    apply list_elem_of_singleton in Hin.
    unfold Resume.common_skills in Hskill.
    repeat (apply elem_of_cons in Hskill as [-> | Hskill]);
      try (by apply elem_of_nil in Hskill); vm_compute in Hin; discriminate.
  - intros Hnone. rewrite filter_none; [done|].
    intros skill Hskill Hin. apply Is_true_true in Hin.
    by rewrite (Hnone skill Hskill) in Hin.
Qed.

(** X2. A resume that is credited with JavaScript is credited with Java as
    well, and one credited with MySQL is credited with SQL: the skills are
    looked up as substrings. *)
Theorem javascript_counts_as_java (text : string) :
  ("Javascript" ∈ Resume.extract_skills_safely text →
   "Java" ∈ Resume.extract_skills_safely text) ∧
  ("Mysql" ∈ Resume.extract_skills_safely text →
   "Sql" ∈ Resume.extract_skills_safely text).
Proof.
  assert (∀ long short : string,
            long ∈ Resume.common_skills → short ∈ Resume.common_skills →
            str_in short long = true →
            str_title long ∈ Resume.extract_skills_safely text →
            str_title short ∈ Resume.extract_skills_safely text) as Hsub.
  { intros long short Hlong Hshort Hin Hfound.
    apply (extract_skills_safely_found text short Hshort).
    apply (extract_skills_safely_found text long Hlong) in Hfound.
    by eapply str_in_trans. }
  split.
  - apply (Hsub "javascript" "java"); [| |done]; unfold Resume.common_skills;
      repeat (first [by left | right]).
  - apply (Hsub "mysql" "sql"); [| |done]; unfold Resume.common_skills;
      repeat (first [by left | right]).
Qed.

Lemma extract_experience_safely_least (text : string) :
  ∃ i : nat,
    (1 ≤ i ≤ 9)%nat ∧
    Resume.extract_experience_safely text = inject_Z (Z.of_nat i) ∧
    ((str_in (pretty i +:+ " year") (str_lower text) = true ∧
      ∀ j : nat, (1 ≤ j < i)%nat → str_in (pretty j +:+ " year") (str_lower text) = false) ∨
     (i = 1%nat ∧
      ∀ j : nat, (1 ≤ j ≤ 9)%nat → str_in (pretty j +:+ " year") (str_lower text) = false)).
Proof.
  unfold Resume.extract_experience_safely. rewrite safe_string_operation_lower.
  destruct (list_find _ (seq 1 9)) as [[k i]|] eqn:Hfind.
  - apply list_find_Some in Hfind as (Hk & Hi & Hleast).
    apply lookup_seq in Hk as [-> Hk9].
    exists (1 + k)%nat. split; [lia|]. split; [done|]. left.
    split; [by apply Is_true_true|].
    intros j Hj. specialize (Hleast (j - 1)%nat j).
    destruct (str_in (pretty j +:+ " year") (str_lower text)) eqn:Hin; [|done].
    exfalso. apply Hleast; [|lia|by apply Is_true_true].
    apply lookup_seq. lia.
  - exists 1%nat. split; [lia|]. split; [done|]. right. split; [done|].
    intros j Hj.
    pose proof (proj1 (list_find_None _ _) Hfind) as Hnone.
    rewrite Forall_forall in Hnone. specialize (Hnone j).
    destruct (str_in (pretty j +:+ " year") (str_lower text)) eqn:Hin; [|done].
    exfalso. apply Hnone; [|by apply Is_true_true].
    apply elem_of_seq. lia.
Qed.

(** X3. The years of experience read from a resume are the least i between
    1 and 9 for which "i year" occurs in the lower-cased text, and 1 when
    there is none: the answer is never 0 and never above 9, and a text
    with "21 years" in it is read as 1 year. *)
Theorem experience_is_least_digit (text : string) :
  (∃ i : nat,
     (1 ≤ i ≤ 9)%nat ∧
     Resume.extract_experience_safely text = inject_Z (Z.of_nat i) ∧
     ((str_in (pretty i +:+ " year") (str_lower text) = true ∧
       ∀ j : nat, (1 ≤ j < i)%nat →
                  str_in (pretty j +:+ " year") (str_lower text) = false) ∨
      (i = 1%nat ∧
       ∀ j : nat, (1 ≤ j ≤ 9)%nat →
                  str_in (pretty j +:+ " year") (str_lower text) = false))) ∧
  (∀ pre post, str_lower text = pre +:+ "21 years" +:+ post →
     Resume.extract_experience_safely text = 1%Q).
Proof.
  split; [apply extract_experience_safely_least|].
  intros pre post Htext.
  assert (str_in "1 year" (str_lower text) = true) as Hone.
  { apply str_in_spec. exists (pre +:+ "2"), ("s" +:+ post).
    rewrite Htext, !string_app_assoc. done. }
  destruct (extract_experience_safely_least text) as (i & Hi & -> & Hcase).
  destruct (decide (i = 1%nat)) as [-> | Hne]; [done|].
  destruct Hcase as [[_ Hleast] | [-> _]]; [|done].
  specialize (Hleast 1%nat ltac:(lia)).
  change (pretty 1%nat +:+ " year") with "1 year" in Hleast. congruence.
Qed.

End resume_properties.

(** ** Uploading a resume and reading the dashboard *)

Lemma string_length_app (a b : string) :
  String.length (a +:+ b) = (String.length a + String.length b)%nat.
Proof.
  induction a as [|c a IH]; [done|].
  change (S (String.length (a +:+ b)) = S (String.length a + String.length b)).
  by rewrite IH.
Qed.

Lemma str_take_length (n : nat) (s : string) :
  String.length (str_take n s) = (n `min` String.length s)%nat.
Proof.
  unfold str_take. revert s. induction n as [|n IH]; intros [|c s]; simpl; try done.
  by rewrite IH.
Qed.

Section upload.
Context {L : PyLib} {D : Resume.DocLib}.

Lemma analyze_skills_nonempty (resume_data filename : string) :
  (1 ≤ length (Resume.a_skills
                 (Resume.analyze_resume_content_safely resume_data filename)) ≤ 14)%nat.
Proof.
  unfold Resume.analyze_resume_content_safely.
  destruct (if str_in "," resume_data then _ else _) as [file_content|e]; simpl.
  - apply extract_skills_safely_length.
  - lia.
Qed.

Lemma str_take_prefix (n : nat) (s : string) :
  String.prefix (str_take n s) s = true.
Proof.
  apply prefix_spec. unfold str_take. revert s.
  induction n as [|n IH]; intros [|c s]; simpl; try by eexists.
  destruct (IH s) as [post Hpost]. exists post.
  change (String c s = String c (String.substring 0 n s +:+ post)). by rewrite <- Hpost.
Qed.

(** X4. The analysis of a resume always names between 1 and 14 skills.
    When the data cannot be decoded, the error is recorded, the one skill
    is "Error parsing resume" and there is no preview. When it can, no
    error is recorded, the skills are those found in the text extracted
    from the decoded data, and the preview is made from that text: the
    text itself if it has at most 200 characters, and else its first 200
    characters followed by "...", 203 characters in all. *)
Theorem analysis_is_well_formed (resume_data filename : string) :
  let a := Resume.analyze_resume_content_safely resume_data filename in
  let decoded :=
    if str_in "," resume_data
    then Resume.b64decode (str_split "," resume_data !!! 1%nat)
    else Resume.b64decode resume_data in
  (1 ≤ length (Resume.a_skills a) ≤ 14)%nat ∧
  (Resume.a_error a ≠ None →
   Resume.a_skills a = ["Error parsing resume"] ∧ Resume.a_text_preview a = None ∧
   Resume.a_projects a = [] ∧ Resume.a_experience_years a = 0%Q) ∧
  (∀ e, decoded = Raise e → Resume.a_error a = Some e) ∧
  (∀ file_content, decoded = Ok file_content →
     let text_content :=
       Resume.extract_text (Resume.file_extension filename) file_content in
     Resume.a_error a = None ∧
     Resume.a_skills a = Resume.extract_skills_safely text_content ∧
     ∃ preview,
       Resume.a_text_preview a = Some preview ∧
       (String.length preview ≤ 203)%nat ∧
       String.prefix (str_take 200 text_content) text_content = true ∧
       (((String.length text_content ≤ 200)%nat ∧ preview = text_content) ∨
        ((200 < String.length text_content)%nat ∧
         String.length (str_take 200 text_content) = 200%nat ∧
         preview = str_take 200 text_content +:+ "..."))).
Proof.
  intros a decoded. split; [apply analyze_skills_nonempty|].
  subst a decoded. unfold Resume.analyze_resume_content_safely.
  destruct (if str_in "," resume_data then _ else _) as [file_content|e]; simpl.
  - split; [done|]. split; [done|].
    intros ? [= <-]. split; [done|]. split; [done|].
    set (text_content := Resume.extract_text _ _).
    pose proof (str_take_length 200 text_content) as Htake.
    eexists. split; [done|].
    case_bool_decide as Hlong.
    + assert (String.length (str_take 200 text_content +:+ "...") = 203%nat) as Hlen.
      { rewrite string_length_app, Htake.
        change (String.length "...") with 3%nat. lia. }
      split; [lia|]. split; [apply str_take_prefix|].
      right. split; [done|]. split; [lia | done].
    + split; [lia|]. split; [apply str_take_prefix|].
      left. split; [lia | done].
  - split; [done|]. split; [by intros ? [= <-] | done].
Qed.

End upload.

Section store.
Context {L : PyLib} {D : Resume.DocLib}.

Lemma upload_resume_valid (req : Resume.ResumeUploadRequest)
    (store : gmap string Resume.stored_resume) :
  Resume.student_email req ≠ "" → Resume.resume_data req ≠ "" →
  Resume.filename req ≠ "" →
  let a := Resume.analyze_resume_content_safely (Resume.resume_data req)
             (Resume.filename req) in
  Resume.upload_resume req store =
  (Resume.UploadSuccess (length (Resume.a_skills a)) (length (Resume.a_projects a))
     (Resume.a_experience_years a) (Resume.a_education_level a),
   <[ Resume.student_email req :=
        {| Resume.sr_student_email := Resume.student_email req;
           Resume.sr_filename := Resume.filename req;
           Resume.sr_file_type := Resume.file_type req;
           Resume.sr_analysis := a |} ]> store).
Proof.
  intros He Hd Hf a. unfold Resume.upload_resume.
  by rewrite !(proj2 (str_truthy_true _)) by done.
Qed.

Lemma upload_resume_invalid (req : Resume.ResumeUploadRequest)
    (store : gmap string Resume.stored_resume) :
  Resume.student_email req = "" ∨ Resume.resume_data req = "" ∨
  Resume.filename req = "" →
  Resume.upload_resume req store = (Resume.UploadFailure, store).
Proof.
  intros Hbad. unfold Resume.upload_resume.
  destruct (str_truthy (Resume.student_email req)) eqn:He; [|done].
  destruct (str_truthy (Resume.resume_data req)) eqn:Hd; [|done].
  destruct (str_truthy (Resume.filename req)) eqn:Hf; [|done].
  apply str_truthy_true in He, Hd, Hf. by destruct Hbad as [? | [? | ?]].
Qed.

(** X5. An upload fails exactly when the e-mail address, the data or the
    file name is empty, and a failed upload leaves the stored analyses as
    they were. Data that cannot be decoded is no failure: the upload
    succeeds and reports one skill. *)
Theorem upload_fails_only_on_empty_fields (req : Resume.ResumeUploadRequest)
    (store : gmap string Resume.stored_resume) :
  ((Resume.upload_resume req store).1 = Resume.UploadFailure ↔
   Resume.student_email req = "" ∨ Resume.resume_data req = "" ∨
   Resume.filename req = "") ∧
  ((Resume.upload_resume req store).1 = Resume.UploadFailure →
   (Resume.upload_resume req store).2 = store) ∧
  (Resume.student_email req ≠ "" → Resume.resume_data req ≠ "" →
   Resume.filename req ≠ "" →
   Resume.a_error (Resume.analyze_resume_content_safely (Resume.resume_data req)
                     (Resume.filename req)) ≠ None →
   (Resume.upload_resume req store).1 = Resume.UploadSuccess 1 0 0 "Unknown").
Proof.
  assert ((Resume.upload_resume req store).1 = Resume.UploadFailure ↔
          Resume.student_email req = "" ∨ Resume.resume_data req = "" ∨
          Resume.filename req = "") as Hiff.
  { split; [|by intros Hbad; rewrite upload_resume_invalid].
    intros Hfail.
    destruct (decide (Resume.student_email req = "")) as [|He]; [by left|].
    destruct (decide (Resume.resume_data req = "")) as [|Hd]; [by right; left|].
    destruct (decide (Resume.filename req = "")) as [|Hf]; [by right; right|].
    by rewrite upload_resume_valid in Hfail. }
  split; [done|]. split.
  - intros Hfail%Hiff. by rewrite upload_resume_invalid.
  - intros He Hd Hf Herr. rewrite upload_resume_valid by done. simpl.
    unfold Resume.analyze_resume_content_safely in *.
    by destruct (if str_in "," (Resume.resume_data req) then _ else _).
Qed.

(** X6. After an accepted upload the analysis of that e-mail address is the
    one of the uploaded file, the entries of all other addresses are
    untouched, and the number of stored analyses that the health check
    reports grows by one for a new address and stays for a known one. *)
Theorem upload_stores_one_entry (req : Resume.ResumeUploadRequest)
    (store : gmap string Resume.stored_resume) (matches_df : list listing) :
  Resume.student_email req ≠ "" → Resume.resume_data req ≠ "" →
  Resume.filename req ≠ "" →
  let store' := (Resume.upload_resume req store).2 in
  (∃ stored,
     store' !! Resume.student_email req = Some stored ∧
     Resume.sr_filename stored = Resume.filename req ∧
     Resume.sr_analysis stored =
       Resume.analyze_resume_content_safely (Resume.resume_data req)
         (Resume.filename req)) ∧
  (∀ other, other ≠ Resume.student_email req → store' !! other = store !! other) ∧
  Resume.resume_analyses_count (Resume.health_check matches_df store') =
    (if bool_decide (is_Some (store !! Resume.student_email req))
     then Resume.resume_analyses_count (Resume.health_check matches_df store)
     else S (Resume.resume_analyses_count (Resume.health_check matches_df store))).
Proof.
  intros He Hd Hf store'. subst store'. rewrite upload_resume_valid by done. simpl.
  split; [|split].
  - eexists. by rewrite lookup_insert_eq.
  - intros other Hother. by rewrite lookup_insert_ne.
  - case_bool_decide as Hknown.
    + destruct Hknown as [old Hold].
      rewrite <- (insert_delete_id store _ _ Hold) at 2.
      rewrite <- insert_delete_eq.
      by rewrite !map_size_insert_None by apply lookup_delete_eq.
    + apply map_size_insert_None. by apply eq_None_not_Some.
Qed.


End store.

Lemma upload_stores_one_entry_witness :
  ∃ stored,
    (Resume.upload_resume (L:=Concrete.lib) (D:=ConcreteDocs.lib) ConcreteDocs.upload ∅).2
      !! "ada@example.org" = Some stored ∧
    Resume.sr_filename stored = "cv.txt" ∧
    Resume.sr_analysis stored =
      Resume.analyze_resume_content_safely (L:=Concrete.lib) (D:=ConcreteDocs.lib)
        (Resume.resume_data ConcreteDocs.upload) "cv.txt".
Proof.
  apply (upload_stores_one_entry (L:=Concrete.lib) (D:=ConcreteDocs.lib)
           ConcreteDocs.upload ∅ []); done.
Defined.


(** ** More on the scorer *)

Lemma size_list_to_set_NoDup (l : list string) :
  size (list_to_set l : gset string) = length l → NoDup l.
Proof.
  induction l as [|x l IH]; [constructor|].
  rewrite list_to_set_cons. intros Hsize.
  pose proof (size_list_to_set_le l) as Hle.
  destruct (decide (x ∈ l)) as [Hin | Hnotin].
  - exfalso.
    assert ({[x]} ∪ list_to_set l = (list_to_set l : gset string)) as Heq.
    { apply (anti_symm (⊆)); [|apply union_subseteq_r].
      apply union_least; [|done].
      apply singleton_subseteq_l, elem_of_list_to_set, Hin. }
    rewrite Heq in Hsize. simpl in Hsize. lia.
  - constructor; [done|]. apply IH.
    rewrite size_union in Hsize.
    + rewrite size_singleton in Hsize. simpl in Hsize. lia.
    + apply disjoint_singleton_l. by rewrite elem_of_list_to_set.
Qed.

(** The number of matched skills is the number of query skills exactly
    when these are pairwise distinct and all among the skills of the
    listing. *)
Lemma match_count_full (sk l : list string) :
  size (list_to_set sk ∩ list_to_set l : gset string) = length sk ↔
  NoDup sk ∧ ∀ x, x ∈ sk → x ∈ l.
Proof.
  pose proof (size_list_to_set_le sk) as Hle.
  pose proof (subseteq_size (list_to_set sk ∩ list_to_set l)
                (list_to_set sk : gset string) (intersection_subseteq_l _ _)) as Hsub.
  split.
  - intros Hsize.
    assert (size (list_to_set sk : gset string) = length sk) as Hfull by lia.
    split; [by apply size_list_to_set_NoDup|].
    intros x Hx.
    assert (list_to_set sk ∩ list_to_set l = (list_to_set sk : gset string)) as Heq.
    { apply set_subseteq_size_eq; [apply intersection_subseteq_l | lia]. }
    assert (x ∈ (list_to_set sk ∩ list_to_set l : gset string)) as Hx'
      by (rewrite Heq; by apply elem_of_list_to_set).
    apply elem_of_intersection in Hx' as [_ Hx'].
    by apply elem_of_list_to_set in Hx'.
  - intros [Hnodup Hall].
    assert (list_to_set sk ∩ list_to_set l = (list_to_set sk : gset string)) as ->.
    { apply (anti_symm (⊆)); [apply intersection_subseteq_l|].
      intros x Hx. apply elem_of_intersection. split; [done|].
      apply elem_of_list_to_set, Hall. by apply elem_of_list_to_set in Hx. }
    by apply size_list_to_set.
Qed.

Lemma skill_share_full (m n : Z) :
  1 ≤ n → (0 + py_truediv m n * 0.6 == 0.6)%Q ↔ m = n.
Proof.
  intros Hn. unfold py_truediv.
  assert (0 < inject_Z n)%Q as Hpos
    by (change 0%Q with (inject_Z 0); rewrite <- Zlt_Qlt; lia).
  assert (¬ (inject_Z n == 0)%Q) as Hnz by lra.
  split.
  - intros Heq.
    assert (inject_Z m / inject_Z n == 1)%Q as Hone by lra.
    apply inject_Z_injective.
    rewrite <- (Qmult_div_r (inject_Z m) (inject_Z n) Hnz), Hone. lra.
  - intros ->. unfold Qdiv. rewrite Qmult_inv_r by done. lra.
Qed.

Section skills_part.
Context {L : PyLib}.

Lemma backends_skills_match_list sk r l score :
  sk ≠ [] → skills r = SkList l →
  Backends.skills_match sk r score =
  Ok (score + py_truediv (Z.of_nat (size (list_to_set sk ∩ list_to_set l : gset string)))
                (Z.max (Z.of_nat (length sk)) 1) * 0.6)%Q.
Proof.
  intros Hsk Hl. unfold Backends.skills_match.
  by rewrite bool_decide_eq_true_2, Hl by done.
Qed.

Lemma bulletproof_skills_match_list sk r l score :
  sk ≠ [] → skills r = SkList l →
  Bulletproof.skills_match sk r score =
  (score + py_truediv
             (Z.of_nat (size (list_to_set (str_lower <$> sk) ∩
                              list_to_set (str_lower <$> l) : gset string)))
             (Z.of_nat (length (str_lower <$> sk))) * 0.6)%Q.
Proof.
  intros Hsk Hl. unfold Bulletproof.skills_match.
  rewrite bool_decide_eq_true_2, Hl by done. simpl.
  assert (∀ l' : list string,
            (λ s, Bulletproof.safe_string_operation (CStr s) "lower") <$> l'
            = str_lower <$> l') as Hlower.
  { intros l'. apply list_fmap_ext. intros i s _. apply safe_string_operation_lower. }
  rewrite !Hlower.
  rewrite bool_decide_eq_true_2; [done|]. by destruct sk.
Qed.

End skills_part.

(** X8. The skill part of a score is the full 0.6 exactly when the skills
    of the query are pairwise distinct and every one of them is a skill of
    the listing (after lower-casing both sides in backends_bulletproof.py).
    A query that repeats a skill can therefore never reach 0.6. *)
Theorem skill_part_full_iff_distinct_and_covered {L : PyLib}
    (student_skills l : list string) (r : listing) :
  student_skills ≠ [] →
  skills r = SkList l →
  (∃ s, Backends.skills_match student_skills r 0 = Ok s ∧
        ((s == 0.6)%Q ↔ NoDup student_skills ∧ ∀ x, x ∈ student_skills → x ∈ l)) ∧
  ((Bulletproof.skills_match student_skills r 0 == 0.6)%Q ↔
   NoDup (str_lower <$> student_skills) ∧
   ∀ x, x ∈ str_lower <$> student_skills → x ∈ str_lower <$> l).
Proof.
  intros Hsk Hl. split.
  - rewrite (backends_skills_match_list _ _ _ _ Hsk Hl). eexists. split; [done|].
    rewrite skill_share_full by lia.
    rewrite <- match_count_full.
    destruct student_skills; [done|]. simpl length. lia.
  - rewrite (bulletproof_skills_match_list _ _ _ _ Hsk Hl).
    rewrite skill_share_full by (destruct student_skills; [done | simpl; lia]).
    rewrite <- match_count_full. lia.
Qed.

Lemma skill_part_full_iff_distinct_and_covered_witness :
  ∃ s, Backends.skills_match ["python"; "python"] Concrete.listing_a 0
         = Ok s ∧
       ((s == 0.6)%Q ↔
        NoDup ["python"; "python"] ∧ ∀ x, x ∈ ["python"; "python"] → x ∈ ["python"]).
Proof.
  apply (skill_part_full_iff_distinct_and_covered (L:=Concrete.lib)
           ["python"; "python"] ["python"] Concrete.listing_a); done.
Defined.

(** X9. The score does not depend on the order of the skills, neither of
    the query nor of the listing: two queries and two listings that differ
    by a rearrangement of their skills get the same score. *)
Theorem score_ignores_skill_order {L : PyLib}
    (sk sk' l l' : list string) (student_field : string) (r r' : listing) :
  sk ≡ₚ sk' → l ≡ₚ l' →
  skills r = SkList l → skills r' = SkList l' → field r = field r' →
  Backends.calculate_score sk student_field r
    = Backends.calculate_score sk' student_field r' ∧
  Bulletproof.calculate_score_safely r sk student_field
    = Bulletproof.calculate_score_safely r' sk' student_field.
Proof.
  intros Hsk Hl Hr Hr' Hf.
  assert (sk = [] ↔ sk' = []) as Hnil.
  { split; intros ->; [by apply Permutation_nil_l in Hsk
                      | by apply Permutation_nil_r in Hsk]. }
  assert (Backends.field_match student_field r = Backends.field_match student_field r')
    as Hfield_b by (unfold Backends.field_match; by rewrite Hf).
  assert (Bulletproof.field_match student_field r
          = Bulletproof.field_match student_field r')
    as Hfield_s by (unfold Bulletproof.field_match; by rewrite Hf).
  destruct (decide (sk = [])) as [-> | Hne].
  - rewrite (proj1 Hnil eq_refl).
    unfold Backends.calculate_score, Bulletproof.calculate_score_safely.
    simpl. by rewrite Hfield_b, Hfield_s.
  - assert (sk' ≠ []) as Hne' by (intros H'; by apply Hne, Hnil).
    split.
    + unfold Backends.calculate_score.
      rewrite (backends_skills_match_list _ _ _ _ Hne Hr),
              (backends_skills_match_list _ _ _ _ Hne' Hr').
      rewrite Hfield_b.
      by rewrite (list_to_set_perm_L sk sk' Hsk), (list_to_set_perm_L l l' Hl),
                 (Permutation_length Hsk).
    + unfold Bulletproof.calculate_score_safely.
      rewrite (bulletproof_skills_match_list _ _ _ _ Hne Hr),
              (bulletproof_skills_match_list _ _ _ _ Hne' Hr').
      rewrite Hfield_s.
      assert (str_lower <$> sk ≡ₚ str_lower <$> sk') as Hsk2 by (by rewrite Hsk).
      assert (str_lower <$> l ≡ₚ str_lower <$> l') as Hl2 by (by rewrite Hl).
      by rewrite (list_to_set_perm_L _ _ Hsk2), (list_to_set_perm_L _ _ Hl2),
                 (Permutation_length Hsk2).
Qed.

Lemma score_ignores_skill_order_witness :
  Backends.calculate_score (L:=Concrete.lib) ["python"; "sql"] "" Concrete.listing_b
    = Backends.calculate_score (L:=Concrete.lib) ["sql"; "python"] "" Concrete.listing_b.
Proof.
  apply (score_ignores_skill_order (L:=Concrete.lib) ["python"; "sql"] ["sql"; "python"]
           ["python"; "sql"] ["python"; "sql"] "" Concrete.listing_b Concrete.listing_b);
    [apply Permutation_swap | done..].
Defined.

(** ** What the engines recommend *)

Lemma df_head_subseteq {A} (n : Z) (l : list A) (x : A) : x ∈ df_head n l → x ∈ l.
Proof.
  unfold df_head. case_bool_decide; intros Hx;
    by apply (subseteq_take _ l) in Hx.
Qed.

Lemma location_requested_mono {L : PyLib} (locs locs' : list string) (r : listing) :
  locs ⊆ locs' → location_requested locs r → location_requested locs' r.
Proof.
  intros Hsub (loc & found & Hloc & Hfound & Hr).
  exists loc, found. split; [by apply Hsub | done].
Qed.

Section recommended.
Context {L : PyLib} (C : PandasContract L).

Lemma backends_apply_score_spec sk sf (df : list listing) (sc : list scored) :
  Backends.apply_score sk sf df = Ok sc →
  ∀ s, s ∈ sc → row s ∈ df ∧ Backends.calculate_score sk sf (row s) = Ok (match_score s).
Proof.
  unfold Backends.apply_score. revert sc.
  induction df as [|r df IH]; intros sc; simpl.
  - intros [= <-] s Hs. by apply elem_of_nil in Hs.
  - destruct (Backends.calculate_score sk sf r) as [x|e] eqn:Hr; simpl; [|done].
    destruct (result_mapM _ df) as [sc'|e]; simpl; [|done].
    intros [= <-] s Hs. apply elem_of_cons in Hs as [-> | Hs].
    + simpl. split; [by left | done].
    + destruct (IH sc' eq_refl s Hs) as [Hin Hscore]. split; [by right | done].
Qed.

Lemma backends_filter_location_spec loc (df df_loc : list listing) :
  Backends.filter_location loc df = Ok df_loc →
  ∃ found, str_contains loc = Some found ∧
           df_loc = filter (λ r, found (location r)) df.
Proof.
  unfold Backends.filter_location.
  destruct (str_contains loc) as [found|]; [|done].
  intros [= <-]. by exists found.
Qed.

Lemma backends_locations_loop_sound matches_df sk sf (n : Z)
    (locs0 locs : list string) (results : list scored) g out g' :
  locs ⊆ locs0 →
  Forall (backends_candidate matches_df sk sf locs0) results →
  Backends.locations_loop matches_df sk sf n locs results g = (Ok out, g') →
  Forall (backends_candidate matches_df sk sf locs0) out.
Proof.
  revert results g. induction locs as [|loc locs IH]; intros results g Hsub Hres.
  - by intros [= <- _].
  - assert (locs ⊆ locs0) as Hsub' by (intros x Hx; apply Hsub; by right).
    cbn [Backends.locations_loop]. unfold mbind at 1, pyM_bind at 1, lift_result.
    destruct (Backends.filter_location loc matches_df) as [df_loc|e] eqn:Hloc; [|done].
    apply backends_filter_location_spec in Hloc as (found & Hfound & Hdf).
    case_bool_decide as Hempty; [by apply IH|].
    unfold mbind, pyM_bind.
    destruct (Backends.select_location sk sf n df_loc g) as [[selected|e] g1] eqn:Hsel;
      [|done].
    apply (backends_select_location_ranked C) in Hsel as (sc & Hsc & -> & ->).
    apply IH; [done|].
    apply Forall_app. split; [done|].
    apply Forall_forall. intros s Hs.
    apply df_head_subseteq in Hs. rewrite (sort_values_perm C sc) in Hs.
    destruct (backends_apply_score_spec _ _ _ _ Hsc s Hs) as [Hin Hscore].
    rewrite Hdf in Hin. apply list_elem_of_filter in Hin as [Hmatch Hin].
    split; [done|]. split; [done|].
    exists loc, found. split; [apply Hsub; by left|]. split; [done|].
    by apply Is_true_true.
Qed.

Lemma backends_locations_loop_length matches_df sk sf (n : Z)
    (locs : list string) (results : list scored) g out g' :
  0 ≤ n →
  Backends.locations_loop matches_df sk sf n locs results g = (Ok out, g') →
  (length out ≤ length results + Z.to_nat n * length locs)%nat.
Proof.
  intros Hn. revert results g. induction locs as [|loc locs IH]; intros results g.
  - intros [= <- _]. simpl. lia.
  - cbn [Backends.locations_loop]. unfold mbind at 1, pyM_bind at 1, lift_result.
    destruct (Backends.filter_location loc matches_df) as [df_loc|e]; [|done].
    case_bool_decide as Hempty.
    + intros Hloop. apply IH in Hloop. simpl length. lia.
    + unfold mbind, pyM_bind.
      destruct (Backends.select_location sk sf n df_loc g) as [[selected|e] g1] eqn:Hsel;
        [|done].
      apply (backends_select_location_ranked C) in Hsel as (sc & Hsc & -> & ->).
      intros Hloop. apply IH in Hloop. rewrite length_app in Hloop.
      pose proof (df_head_length_le n (sort_values sc) Hn). simpl length. lia.
Qed.

Lemma backends_get_recommendations_inv matches_df req g recs g' :
  Backends.get_recommendations matches_df req g = (Ok recs, g') →
  ∃ results,
    Backends.accumulate matches_df req g = (Ok results, g') ∧
    recs = Backends.finish <$> first_seen (key_of ∘ row) results.
Proof.
  unfold Backends.get_recommendations, mbind, pyM_bind.
  destruct (Backends.accumulate matches_df req g) as [[results|e] g1]; [|done].
  intros [= <- <-]. exists results. by rewrite backends_dedup_first_seen.
Qed.

Lemma backends_locations_loop_raises matches_df sk sf (n : Z)
    (locs : list string) (results : list scored) loc :
  loc ∈ locs → str_contains loc = None →
  ∃ e, ∀ g : RandomState,
    Backends.locations_loop matches_df sk sf n locs results g = (Raise e, g).
Proof.
  intros Hin Hbad. revert results.
  induction locs as [|l locs IH]; intros results; [by apply elem_of_nil in Hin|].
  cbn [Backends.locations_loop]. unfold mbind at 1, pyM_bind at 1, lift_result.
  unfold Backends.filter_location.
  destruct (decide (l = loc)) as [-> | Hne].
  - rewrite Hbad. by exists ReError.
  - apply elem_of_cons in Hin as [-> | Hin]; [done|].
    destruct (str_contains l) as [found|]; [|by exists ReError].
    case_bool_decide as Hempty; [by apply IH|].
    unfold mbind, pyM_bind.
    destruct (Backends.apply_score sk sf (filter (λ r, found (location r)) matches_df))
      as [sc|e] eqn:Hsc.
    + destruct (IH Hin (results ++ df_head n (sort_values sc))) as [e He].
      exists e. intros g.
      rewrite (backends_select_location_head C), Hsc. simpl. apply He.
    + exists e. intros g. by rewrite (backends_select_location_head C), Hsc.
Qed.

Lemma bulletproof_select_location_invalid matches_df sk sf (n : Z) loc :
  str_contains loc = None → Bulletproof.select_location matches_df sk sf n loc = [].
Proof. intros Hbad. unfold Bulletproof.select_location. by rewrite Hbad. Qed.

Lemma bulletproof_locations_loop_app matches_df sk sf (n : Z)
    (l1 l2 : list string) (results : list scored) :
  Bulletproof.locations_loop matches_df sk sf n (l1 ++ l2) results =
  Bulletproof.locations_loop matches_df sk sf n l2
    (Bulletproof.locations_loop matches_df sk sf n l1 results).
Proof.
  revert results. induction l1 as [|l l1 IH]; intros results; [done|].
  simpl. apply IH.
Qed.

Lemma bulletproof_select_location_sound matches_df sk sf (n : Z) loc s :
  s ∈ Bulletproof.select_location matches_df sk sf n loc →
  row s ∈ matches_df ∧
  match_score s = Bulletproof.calculate_score_safely (row s) sk sf ∧
  location_requested [loc] (row s).
Proof.
  destruct (str_contains loc) as [found|] eqn:Hloc.
  - destruct (bulletproof_select_location_ranked C matches_df sk sf n loc found Hloc)
      as (ranked & Hperm & _ & ->).
    intros Hs. apply (subseteq_take _ ranked) in Hs. rewrite Hperm in Hs.
    unfold Bulletproof.apply_score in Hs.
    apply list_elem_of_fmap in Hs as (r & -> & Hr). simpl.
    apply list_elem_of_filter in Hr as [Hmatch Hr].
    split; [done|]. split; [done|].
    exists loc, found. split; [by left|]. split; [done | by apply Is_true_true].
  - rewrite bulletproof_select_location_invalid by done.
    intros Hs. by apply elem_of_nil in Hs.
Qed.

Lemma bulletproof_locations_loop_sound matches_df sk sf (n : Z)
    (locs0 locs : list string) (results : list scored) :
  locs ⊆ locs0 →
  Forall (bulletproof_candidate matches_df sk sf locs0) results →
  Forall (bulletproof_candidate matches_df sk sf locs0)
         (Bulletproof.locations_loop matches_df sk sf n locs results).
Proof.
  revert results. induction locs as [|loc locs IH]; intros results Hsub Hres; [done|].
  simpl. apply IH; [intros x Hx; apply Hsub; by right|].
  apply Forall_app. split; [done|].
  apply Forall_forall. intros s Hs.
  apply bulletproof_select_location_sound in Hs as (Hin & Hscore & Hloc).
  split; [done|]. split; [done|]. intros _.
  apply (location_requested_mono [loc]); [|done].
  intros x Hx. apply list_elem_of_singleton in Hx as ->. apply Hsub. by left.
Qed.

Lemma bulletproof_select_all_sound matches_df sk sf (n : Z) s :
  s ∈ Bulletproof.select_all matches_df sk sf n →
  row s ∈ matches_df ∧ match_score s = Bulletproof.calculate_score_safely (row s) sk sf.
Proof.
  unfold Bulletproof.select_all. simpl. intros Hs.
  apply df_head_subseteq in Hs.
  destruct (nlargest_spec C (n * 2) (Bulletproof.apply_score sk sf matches_df))
    as (ranked & Hperm & _ & Heq).
  rewrite Heq in Hs. apply (subseteq_take _ ranked) in Hs. rewrite Hperm in Hs.
  unfold Bulletproof.apply_score in Hs.
  by apply list_elem_of_fmap in Hs as (r & -> & Hr).
Qed.

Lemma bulletproof_accumulate_sound matches_df req :
  Forall (bulletproof_candidate matches_df
            (Bulletproof.clean_list (req_skills req))
            (Bulletproof.clean_field (req_field req))
            (Bulletproof.clean_list (req_locations req)))
         (Bulletproof.accumulate matches_df req).
Proof.
  unfold Bulletproof.accumulate. case_bool_decide as Hlocs.
  - apply Forall_forall. intros s Hs.
    apply bulletproof_select_all_sound in Hs as [Hin Hscore].
    split; [done|]. split; [done|]. by rewrite Hlocs.
  - by apply bulletproof_locations_loop_sound.
Qed.

End recommended.

Lemma patterns_pandas_contract : PandasContract ConcretePatterns.lib.
Proof.
  split; simpl.
  - apply stable_sort_perm.
  - apply stable_sort_sorted.
  - intros n l. exists (Concrete.stable_sort l).
    split; [apply stable_sort_perm|].
    split; [apply stable_sort_sorted | done].
Qed.

(** X10. Whatever backends.py recommends is a listing of the catalog whose
    location matches one of the requested locations, shown with the score
    the scorer gives that listing for the request, and with the link and
    the skills text made from it: the engine invents no listing and no
    score. *)
Theorem backends_recommends_scored_catalog_rows {L : PyLib} (C : PandasContract L)
    (matches_df : list listing) (req : RecommendationRequest)
    (g g' : RandomState) (recs : list recommendation) :
  Backends.get_recommendations matches_df req g = (Ok recs, g') →
  ∀ rec, rec ∈ recs →
    ∃ s, rec = Backends.finish s ∧
         backends_candidate matches_df (Backends.student_skills req)
           (Backends.student_field req) (Backends.student_locations req) s.
Proof.
  intros Hrecs rec Hrec.
  apply backends_get_recommendations_inv in Hrecs as (results & Hacc & ->).
  apply list_elem_of_fmap in Hrec as (s & -> & Hs).
  exists s. split; [done|].
  apply (sublist_subseteq _ _ (first_seen_sublist _ results)) in Hs.
  unfold Backends.accumulate in Hacc.
  apply (backends_locations_loop_sound C _ _ _ _ (Backends.student_locations req))
    in Hacc; [|done|done].
  by apply (proj1 (Forall_forall _ _) Hacc).
Qed.

Lemma backends_recommends_scored_catalog_rows_witness :
  let req := Concrete.request ["python"] ["boston"; "seattle"] "data science" 1 in
  ∃ s, Backends.finish {| row := Concrete.listing_d; match_score := 0 # 1000 |}
         = Backends.finish s ∧
       backends_candidate (L:=Concrete.lib) Concrete.catalog
         (Backends.student_skills (L:=Concrete.lib) req)
         (Backends.student_field (L:=Concrete.lib) req)
         (Backends.student_locations (L:=Concrete.lib) req) s.
Proof.
  apply (backends_recommends_scored_catalog_rows (L:=Concrete.lib)
           concrete_pandas_contract Concrete.catalog
           (Concrete.request ["python"] ["boston"; "seattle"] "data science" 1)
           0%nat 0%nat
           [Backends.finish {| row := Concrete.listing_a; match_score := 1000 # 1000 |};
            Backends.finish {| row := Concrete.listing_d; match_score := 0 # 1000 |}]).
  - reflexivity.
  - right. left.
Defined.

(** X11. With a count top_n that is not negative, backends.py returns at
    most top_n recommendations for every requested location, top_n times
    the number of locations in all; nothing bounds top_n itself. *)
Theorem backends_answer_size {L : PyLib} (C : PandasContract L)
    (matches_df : list listing) (req : RecommendationRequest)
    (g g' : RandomState) (recs : list recommendation) :
  0 ≤ top_n req →
  Backends.get_recommendations matches_df req g = (Ok recs, g') →
  Z.of_nat (length recs) ≤ top_n req * Z.of_nat (length (req_locations req)).
Proof.
  intros Hn Hrecs.
  apply backends_get_recommendations_inv in Hrecs as (results & Hacc & ->).
  unfold Backends.accumulate in Hacc.
  apply (backends_locations_loop_length C) in Hacc; [|done].
  unfold Backends.student_locations in Hacc. rewrite length_fmap in Hacc.
  rewrite length_fmap.
  pose proof (sublist_length _ _ (first_seen_sublist (key_of ∘ row) results)) as Hle.
  simpl in Hacc. nia.
Qed.

Lemma backends_answer_size_witness :
  Z.of_nat (length [Backends.finish {| row := Concrete.listing_a; match_score := 1000 # 1000 |};
                    Backends.finish {| row := Concrete.listing_d; match_score := 0 # 1000 |}])
    ≤ 1 * Z.of_nat (length ["boston"; "seattle"]).
Proof.
  apply (backends_answer_size (L:=Concrete.lib) concrete_pandas_contract
           Concrete.catalog
           (Concrete.request ["python"] ["boston"; "seattle"] "data science" 1)
           0%nat 0%nat); [simpl; lia | reflexivity].
Defined.

(** X12. A requested location is used as a regular expression. When one
    of the locations does not compile, backends.py raises and recommends
    nothing, whatever the other locations are; backends_bulletproof.py
    skips that location and goes on with the others, as if it had not
    been asked for. *)
Theorem invalid_location_pattern {L : PyLib} (C : PandasContract L)
    (matches_df : list listing) (req : RecommendationRequest) (loc : string) :
  str_contains loc = None →
  (loc ∈ Backends.student_locations req →
   ∃ e, ∀ g : RandomState,
     Backends.get_recommendations matches_df req g = (Raise e, g)) ∧
  (∀ sk sf n l1 l2 results,
     Bulletproof.locations_loop matches_df sk sf n (l1 ++ loc :: l2) results =
     Bulletproof.locations_loop matches_df sk sf n (l1 ++ l2) results).
Proof.
  intros Hbad. split.
  - intros Hin.
    destruct (backends_locations_loop_raises C matches_df (Backends.student_skills req)
                (Backends.student_field req) (top_n req)
                (Backends.student_locations req) [] loc Hin Hbad) as [e He].
    exists e. intros g.
    unfold Backends.get_recommendations, Backends.accumulate, mbind, pyM_bind.
    by rewrite He.
  - intros sk sf n l1 l2 results.
    rewrite !bulletproof_locations_loop_app. simpl.
    by rewrite bulletproof_select_location_invalid, app_nil_r.
Qed.

Lemma invalid_location_pattern_witness :
  (∃ e, ∀ g : nat,
     Backends.get_recommendations (L:=ConcretePatterns.lib) Concrete.catalog
       (Concrete.request ["python"] ["boston"; "(seattle"] "" 5) g = (Raise e, g)) ∧
  Bulletproof.locations_loop (L:=ConcretePatterns.lib) Concrete.catalog
    ["python"] "" 5 (["boston"] ++ "(seattle" :: []) [] =
  Bulletproof.locations_loop (L:=ConcretePatterns.lib) Concrete.catalog
    ["python"] "" 5 (["boston"] ++ []) [].
Proof.
  destruct (invalid_location_pattern (L:=ConcretePatterns.lib) patterns_pandas_contract
              Concrete.catalog (Concrete.request ["python"] ["boston"; "(seattle"] "" 5)
              "(seattle" eq_refl) as [Hraise Hskip].
  split; [|apply Hskip].
  apply Hraise. apply (bool_decide_unpack _). vm_compute. exact I.
Defined.

(** X13. Whatever backends_bulletproof.py recommends is the cleaned form
    of a listing of the catalog with the score calculate_score_safely
    gives it for the cleaned request; when the request names locations,
    the location of the listing matches one of them. *)
Theorem bulletproof_recommends_scored_catalog_rows {L : PyLib} (C : PandasContract L)
    (matches_df : list listing) (req : RecommendationRequest) :
  ∃ recs,
    Bulletproof.get_recommendations matches_df req = Bulletproof.Success recs (length recs) ∧
    ∀ rec, rec ∈ recs →
      ∃ s, rec = Bulletproof.clean s ∧
           bulletproof_candidate matches_df
             (Bulletproof.clean_list (req_skills req))
             (Bulletproof.clean_field (req_field req))
             (Bulletproof.clean_list (req_locations req)) s.
Proof.
  unfold Bulletproof.get_recommendations. simpl.
  eexists. split; [done|].
  intros rec Hrec. rewrite bulletproof_format_first_seen in Hrec.
  apply list_elem_of_fmap in Hrec as (s & -> & Hs).
  exists s. split; [done|].
  apply (sublist_subseteq _ _ (first_seen_sublist _ _)) in Hs.
  apply (subseteq_take _ (Bulletproof.accumulate matches_df req)) in Hs.
  by apply (proj1 (Forall_forall _ _) (bulletproof_accumulate_sound C matches_df req)).
Qed.

Lemma bulletproof_recommends_scored_catalog_rows_witness :
  ∃ recs,
    Bulletproof.get_recommendations (L:=Concrete.lib) Concrete.catalog
      (Concrete.request ["python"] ["boston"] "" 2)
      = Bulletproof.Success recs (length recs) ∧
    ∀ rec, rec ∈ recs →
      ∃ s, rec = Bulletproof.clean (L:=Concrete.lib) s ∧
           bulletproof_candidate (L:=Concrete.lib) Concrete.catalog
             (Bulletproof.clean_list (L:=Concrete.lib) ["python"])
             (Bulletproof.clean_field (L:=Concrete.lib) "")
             (Bulletproof.clean_list (L:=Concrete.lib) ["boston"]) s.
Proof.
  apply (bulletproof_recommends_scored_catalog_rows (L:=Concrete.lib)
           concrete_pandas_contract Concrete.catalog
           (Concrete.request ["python"] ["boston"] "" 2)).
Defined.

(** ** The link of a recommendation *)

Lemma list_ascii_of_string_app (a b : string) :
  list_ascii_of_string (a +:+ b) = list_ascii_of_string a ++ list_ascii_of_string b.
Proof.
  induction a as [|c a IH]; [done|].
  change (c :: list_ascii_of_string (a +:+ b)
          = c :: (list_ascii_of_string a ++ list_ascii_of_string b)).
  by rewrite IH.
Qed.

Lemma str_in_has_char (c : ascii) (s : string) :
  str_in (String c "") s = true → has_char c s.
Proof.
  rewrite str_in_spec. intros (pre & post & ->). unfold has_char.
  rewrite !list_ascii_of_string_app. apply elem_of_app. right.
  apply elem_of_app. left. by left.
Qed.

Lemma str_replace_chars (a b : ascii) (s : string) :
  list_ascii_of_string (str_replace a b s) =
  (λ c, if bool_decide (c = a) then b else c) <$> list_ascii_of_string s.
Proof.
  induction s as [|c s IH]; [done|]. simpl. by rewrite IH.
Qed.

Lemma str_replace_no_char (a b : ascii) (s : string) :
  a ≠ b → ¬ has_char a (str_replace a b s).
Proof.
  intros Hab. unfold has_char. rewrite str_replace_chars.
  intros Hin. apply list_elem_of_fmap in Hin as (c & Hc & _).
  case_bool_decide as Hca; congruence.
Qed.

Lemma str_replace_length (a b : ascii) (s : string) :
  String.length (str_replace a b s) = String.length s.
Proof. induction s as [|c s IH]; [done|]. simpl. by rewrite IH. Qed.

Lemma str_replace_absent (a b : ascii) (s : string) :
  ¬ has_char a s → str_replace a b s = s.
Proof.
  unfold has_char. induction s as [|c s IH]; [done|]. simpl. intros Hs.
  rewrite bool_decide_eq_false_2 by (intros ->; apply Hs; by left).
  rewrite IH; [done|]. intros Hin. apply Hs. by right.
Qed.

Lemma apply_link_no_space (title : string) :
  str_in " " ("https://company.com/apply/" +:+ str_replace " " "-" title) = false.
Proof.
  apply not_true_is_false. intros Hin. apply str_in_has_char in Hin.
  unfold has_char in Hin. rewrite list_ascii_of_string_app in Hin.
  apply elem_of_app in Hin as [Hin | Hin].
  - revert Hin. apply (bool_decide_unpack _). vm_compute. exact I.
  - by apply (str_replace_no_char " " "-" title).
Qed.

(** X14. The link of a recommendation is the fixed address followed by the
    title of the listing (lower-cased in backends_bulletproof.py) with
    every space turned into a hyphen: it holds no space, the part after
    the address is as long as the title, and a title without a space is
    taken as it is. *)
Theorem apply_link_is_a_slug {L : PyLib} (s : scored) :
  let title_b := internship_title (row s) in
  let title_s := str_lower (internship_title (row s)) in
  (str_in " " (out_apply_link (Backends.finish s)) = false ∧
   ∃ slug, out_apply_link (Backends.finish s) = "https://company.com/apply/" +:+ slug ∧
           String.length slug = String.length title_b ∧
           (str_in " " title_b = false → slug = title_b)) ∧
  (str_in " " (out_apply_link (Bulletproof.clean s)) = false ∧
   ∃ slug, out_apply_link (Bulletproof.clean s) = "https://company.com/apply/" +:+ slug ∧
           String.length slug = String.length title_s ∧
           (str_in " " title_s = false → slug = title_s)).
Proof.
  assert (∀ t, str_in " " t = false → str_replace " " "-" t = t) as Hkeep.
  { intros t Ht. apply str_replace_absent. unfold has_char. intros Hin.
    apply list_elem_of_split in Hin as (l1 & l2 & Hl).
    assert (str_in " " t = true) as Hyes; [|congruence].
    apply str_in_spec.
    exists (string_of_list_ascii l1), (string_of_list_ascii l2).
    rewrite <- (string_of_list_ascii_of_string t), Hl.
    clear. induction l1 as [|c l1 IH]; [done|]. simpl. by rewrite IH. }
  intros title_b title_s. split.
  - split; [apply apply_link_no_space|].
    exists (str_replace " " "-" title_b).
    split; [done|]. split; [apply str_replace_length | apply Hkeep].
  - cbn [Bulletproof.clean out_apply_link].
    rewrite safe_string_operation_lower. fold title_s.
    split; [apply apply_link_no_space|].
    exists (str_replace " " "-" title_s).
    split; [done|]. split; [apply str_replace_length | apply Hkeep].
Qed.

(** ** The catalog after start-up *)

Section catalog.
Context {L : PyLib}.

Lemma safe_skills_processing_tokens (C : TextContract L) (c : cell) (t : string) :
  t ∈ Bulletproof.safe_skills_processing c → t ≠ "".
Proof.
  unfold Bulletproof.safe_skills_processing.
  case_bool_decide as Hnull; simpl; [intros Ht; by apply elem_of_nil in Ht|].
  intros Ht. apply list_elem_of_fmap in Ht as (s & -> & Hs).
  apply list_elem_of_filter in Hs as [Hs _].
  apply (str_lower_nonempty L C). apply Is_true_true in Hs.
  by apply str_truthy_true.
Qed.

Lemma load_data_safely_second (fs : filesystem) (df : raw_frame) :
  fs "../data/student_internship_matches_stratified (1).csv" = None →
  fs "data/student_internship_matches_stratified (1).csv" = Some (Table df) →
  Bulletproof.load_data_safely fs = df.
Proof.
  intros Hnone Hp. unfold Bulletproof.load_data_safely, read_csv.
  rewrite (path_exists_false _ _ Hnone). simpl.
  by rewrite (path_exists_true _ _ _ Hp), Hp.
Qed.

(** With a skills column the frame of the file is kept, row by row. *)
Lemma matches_df_init_rows (fs : filesystem) :
  let df := Bulletproof.load_data_safely fs in
  has_skills_column df = true →
  Bulletproof.matches_df_init fs =
  (λ r, {| df_company :=
             Bulletproof.text_cell (has_company_column df) (raw_company r) "Company";
           df_internship_title :=
             Bulletproof.text_cell (has_internship_title_column df)
               (raw_internship_title r) "Internship";
           df_field :=
             Bulletproof.text_cell (has_field_column df) (raw_field r) "General";
           df_location :=
             Bulletproof.text_cell (has_location_column df) (raw_location r) "Remote";
           df_skills := SkList (Bulletproof.safe_skills_processing (raw_skills r)) |})
    <$> raw_rows df.
Proof.
  intros df Hcol. subst df.
  unfold Bulletproof.matches_df_init, Bulletproof.skills_column.
  rewrite Hcol. simpl.
  rewrite zip_with_fmap_r, zip_with_diag. done.
Qed.

(** Without a skills column the frame is replaced by the placeholder,
    unless it has no row. *)
Lemma matches_df_init_placeholder (fs : filesystem) :
  has_skills_column (Bulletproof.load_data_safely fs) = false →
  Bulletproof.matches_df_init fs = [] ∨
  Bulletproof.matches_df_init fs =
    [ listing_row
        {| company := "TechCorp"; internship_title := "Software Intern";
           field := CStr "Software Development"; location := "Remote";
           skills := SkList ["python"; "javascript"] |} ].
Proof.
  intros Hcol. unfold Bulletproof.matches_df_init, Bulletproof.skills_column.
  rewrite Hcol. case_bool_decide as Hrows; simpl; [|by right].
  left. by rewrite Hrows.
Qed.

Lemma text_cell_state (present : bool) (c : cell) (default : string) :
  column_state present (Bulletproof.text_cell present c default).
Proof. destruct present; simpl; [by eexists | done]. Qed.

Lemma safe_fillna_filled (c : cell) (default : string) :
  filled c default (Bulletproof.safe_fillna c default).
Proof. split; [by intros -> | split; [by intros s -> | by intros repr ->]]. Qed.

Lemma text_cell_filled (present : bool) (c : cell) (default : string) :
  column_filled present c default (Bulletproof.text_cell present c default).
Proof.
  destruct present; simpl; [|done].
  eexists. split; [done | apply safe_fillna_filled].
Qed.

Lemma listings_listing_row (df : list frame_row) :
  Forall (λ r, is_text (df_company r) ∧ is_text (df_internship_title r) ∧
               is_text (df_location r)) df →
  listing_row <$> listings df = df.
Proof.
  unfold listings. induction 1 as [|r df ([c Hc] & [t Ht] & [l Hl]) _ IH]; [done|].
  assert (row_listing r =
          Some {| company := c; internship_title := t; field := df_field r;
                  location := l; skills := df_skills r |}) as Hrow.
  { unfold row_listing. by rewrite Hc, Ht, Hl. }
  cbn [omap list_omap]. rewrite Hrow. rewrite fmap_cons, IH.
  f_equal. destruct r; simpl in *. by subst.
Qed.

End catalog.

(** X15. Whatever the files are, every row of the frame that the start-up
    of backends_bulletproof.py builds has a list as its skills, and no
    skill of that list is the empty text (lower-casing does not empty a
    text). Each of the columns company, internship_title, field and
    location holds a str in every row when the data file has the column,
    and NaN in every row when it has not; the mock data and the
    placeholder, which replace a file that is not there or has no skills
    column, have them all. When the three identity columns are there, the
    rows of the frame are listings. *)
Theorem catalog_is_well_formed {L : PyLib} (C : TextContract L) (fs : filesystem) :
  let df := Bulletproof.load_data_safely fs in
  let present (column : bool) := negb (has_skills_column df) || column in
  (∀ r, r ∈ Bulletproof.matches_df_init fs →
     column_state (present (has_company_column df)) (df_company r) ∧
     column_state (present (has_internship_title_column df)) (df_internship_title r) ∧
     column_state (present (has_field_column df)) (df_field r) ∧
     column_state (present (has_location_column df)) (df_location r) ∧
     ∃ l, df_skills r = SkList l ∧ ∀ t, t ∈ l → t ≠ "") ∧
  (present (has_company_column df) = true →
   present (has_internship_title_column df) = true →
   present (has_location_column df) = true →
   listing_row <$> listings (Bulletproof.matches_df_init fs)
     = Bulletproof.matches_df_init fs).
Proof.
  intros df present.
  assert (∀ r, r ∈ Bulletproof.matches_df_init fs →
     column_state (present (has_company_column df)) (df_company r) ∧
     column_state (present (has_internship_title_column df)) (df_internship_title r) ∧
     column_state (present (has_field_column df)) (df_field r) ∧
     column_state (present (has_location_column df)) (df_location r) ∧
     ∃ l, df_skills r = SkList l ∧ ∀ t, t ∈ l → t ≠ "") as Hrows.
  { intros r Hr. subst present. simpl.
    destruct (has_skills_column df) eqn:Hcol; simpl.
    - rewrite (matches_df_init_rows fs Hcol) in Hr.
      apply list_elem_of_fmap in Hr as (rr & -> & _). simpl. fold df.
      repeat (split; [apply text_cell_state|]).
      eexists. split; [done|]. intros t. by apply safe_skills_processing_tokens.
    - destruct (matches_df_init_placeholder fs Hcol) as [Hnil | Hone];
        [rewrite Hnil in Hr; by apply elem_of_nil in Hr|].
      rewrite Hone in Hr. apply list_elem_of_singleton in Hr as ->. simpl.
      repeat (split; [by eexists|]).
      eexists. split; [done|]. intros t Ht Hempty. subst t. revert Ht.
      apply (bool_decide_unpack _). vm_compute. exact I. }
  split; [done|].
  intros Hcompany Htitle Hlocation. apply listings_listing_row.
  apply Forall_forall. intros r Hr.
  destruct (Hrows r Hr) as (Hc & Ht & _ & Hl & _).
  rewrite Hcompany in Hc. rewrite Htitle in Ht. rewrite Hlocation in Hl. done.
Qed.

Lemma catalog_is_well_formed_witness :
  let df := Bulletproof.load_data_safely ConcreteFiles.fs_without_field in
  let present (column : bool) := negb (has_skills_column df) || column in
  (∀ r, r ∈ Bulletproof.matches_df_init (L:=Concrete.lib) ConcreteFiles.fs_without_field →
     column_state (present (has_company_column df)) (df_company r) ∧
     column_state (present (has_internship_title_column df)) (df_internship_title r) ∧
     column_state (present (has_field_column df)) (df_field r) ∧
     column_state (present (has_location_column df)) (df_location r) ∧
     ∃ l, df_skills r = SkList l ∧ ∀ t, t ∈ l → t ≠ "") ∧
  (present (has_company_column df) = true →
   present (has_internship_title_column df) = true →
   present (has_location_column df) = true →
   listing_row <$> listings (Bulletproof.matches_df_init (L:=Concrete.lib)
                               ConcreteFiles.fs_without_field)
     = Bulletproof.matches_df_init (L:=Concrete.lib) ConcreteFiles.fs_without_field).
Proof.
  apply (catalog_is_well_formed (L:=Concrete.lib) concrete_text_contract
           ConcreteFiles.fs_without_field).
Defined.

(** X16. A data file that pandas can read and that has a skills column
    becomes the frame row by row: as many rows as the file has, in the
    order of the file. In a column that the file has, each cell is taken as
    its text and a missing cell is replaced by its placeholder (Company,
    Internship, General, Remote); a column that the file does not have
    holds NaN. The skills of a row are the tokens of its cell, none for a
    missing cell. The file next to the working directory is only looked for
    when the one above it is not there. *)
Theorem catalog_keeps_rows_of_file {L : PyLib} (fs : filesystem) (df : raw_frame) :
  fs "../data/student_internship_matches_stratified (1).csv" = Some (Table df) ∨
  (fs "../data/student_internship_matches_stratified (1).csv" = None ∧
   fs "data/student_internship_matches_stratified (1).csv" = Some (Table df)) →
  has_skills_column df = true →
  length (Bulletproof.matches_df_init fs) = length (raw_rows df) ∧
  ∀ (i : nat) (rr : raw_row), raw_rows df !! i = Some rr →
    ∃ r, Bulletproof.matches_df_init fs !! i = Some r ∧
      column_filled (has_company_column df) (raw_company rr) "Company" (df_company r) ∧
      column_filled (has_internship_title_column df) (raw_internship_title rr)
        "Internship" (df_internship_title r) ∧
      column_filled (has_field_column df) (raw_field rr) "General" (df_field r) ∧
      column_filled (has_location_column df) (raw_location rr) "Remote" (df_location r) ∧
      df_skills r = SkList (Bulletproof.safe_skills_processing (raw_skills rr)) ∧
      (raw_skills rr = CNull → df_skills r = SkList []).
Proof.
  intros Hfs Hcol.
  assert (Bulletproof.load_data_safely fs = df) as Hload.
  { destruct Hfs as [Hp | [Hnone Hp]];
      [by apply load_data_safely_table | by apply load_data_safely_second]. }
  rewrite matches_df_init_rows by (by rewrite Hload).
  rewrite Hload, length_fmap. split; [done|].
  intros i rr Hi. eexists. rewrite list_lookup_fmap, Hi. simpl.
  split; [done|].
  cbn [df_company df_internship_title df_field df_location df_skills].
  repeat (split; [apply text_cell_filled|]).
  split; [done|]. by intros ->.
Qed.

Lemma catalog_keeps_rows_of_file_witness :
  length (Bulletproof.matches_df_init (L:=Concrete.lib) ConcreteFiles.fs)
    = length (raw_rows ConcreteFiles.table) ∧
  ∀ (i : nat) (rr : raw_row), raw_rows ConcreteFiles.table !! i = Some rr →
    ∃ r, Bulletproof.matches_df_init (L:=Concrete.lib) ConcreteFiles.fs !! i = Some r ∧
      column_filled true (raw_company rr) "Company" (df_company r) ∧
      column_filled true (raw_internship_title rr) "Internship" (df_internship_title r) ∧
      column_filled true (raw_field rr) "General" (df_field r) ∧
      column_filled true (raw_location rr) "Remote" (df_location r) ∧
      df_skills r = SkList (Bulletproof.safe_skills_processing (L:=Concrete.lib)
                              (raw_skills rr)) ∧
      (raw_skills rr = CNull → df_skills r = SkList []).
Proof.
  apply (catalog_keeps_rows_of_file (L:=Concrete.lib) ConcreteFiles.fs ConcreteFiles.table).
  - right. split; reflexivity.
  - reflexivity.
Defined.

(** The two rows of the file, and the same file without its field column:
    the field of every row is then NaN. *)
Example start_up_of_file :
  Bulletproof.matches_df_init (L:=Concrete.lib) ConcreteFiles.fs =
    [ {| df_company := CStr "Acme"; df_internship_title := CStr "Data Intern";
         df_field := CStr "Data Science"; df_location := CStr "Boston";
         df_skills := SkList ["python"; "sql"] |};
      {| df_company := CStr "Company"; df_internship_title := CStr "Internship";
         df_field := CStr "General"; df_location := CStr "Remote";
         df_skills := SkList [] |} ] ∧
  df_field <$> Bulletproof.matches_df_init (L:=Concrete.lib)
                 ConcreteFiles.fs_without_field = [CNull; CNull].
Proof. split; by vm_compute. Qed.
